(** * OpenAIAssistant agent node: a shallow embedding and its properties

    Source: packages/components/nodes/agents/OpenAIAssistant/OpenAIAssistant.ts

    The node is sequencing code around three collaborators: the relational
    store of the host, the remote Assistants API and the local file cache.
    The embedding keeps the control flow of [run], [clearSessionMemory],
    [downloadFile] and [formatToOpenAIAssistantTool] as written and threads
    an explicit state through it: the log of calls made to the
    collaborators, the file cache, the interval timer and the [usedTools]
    array.  What the collaborators answer is a parameter ([World]). *)

From Stdlib Require Import String Ascii List ZArith NArith Bool Arith Lia.
From Stdlib Require Import DecimalString.
Import ListNotations.
Open Scope string_scope.
Open Scope list_scope.

Set Implicit Arguments.
Set Warnings "-register-all".

(* ================================================================== *)
(** ** JavaScript values *)

(** Plain data as it travels through the node: JSON documents plus
    [undefined].  Numbers are kept as integers; no claim below depends on
    fractional numbers. *)
Inductive value : Type :=
| VUndefined
| VNull
| VBool (b : bool)
| VNum (z : Z)
| VStr (s : string)
| VArr (l : list value)
| VObj (l : list (string * value)).

(** An object is the list of its own enumerable properties. *)
Definition JsObject := list (string * value).

Fixpoint lookupProp (k : string) (o : JsObject) : option value :=
  match o with
  | [] => None
  | (k', v) :: o' => if String.eqb k k' then Some v else lookupProp k o'
  end.

(** [o.k] on an object: a missing property reads as [undefined]. *)
Definition prop (o : JsObject) (k : string) : value :=
  match lookupProp k o with
  | Some v => v
  | None => VUndefined
  end.

(** JavaScript truthiness, as used by [!x] and [if (x)]. *)
Definition truthy (v : value) : bool :=
  match v with
  | VUndefined | VNull => false
  | VBool b => b
  | VNum z => negb (Z.eqb z 0)
  | VStr s => negb (String.eqb s "")
  | VArr _ | VObj _ => true
  end.

(** Strict equality [===] of a value with a string literal. *)
Definition strictEqStr (v : value) (s : string) : bool :=
  match v with
  | VStr s' => String.eqb s' s
  | _ => false
  end.

(** A value of TypeScript type [string] that may be [undefined] at run
    time ([nodeData.inputs?.sessionId as string]). *)
Definition maybeString := option string.

(** How a template literal renders such a value. *)
Definition tmpl (s : maybeString) : string :=
  match s with
  | Some x => x
  | None => "undefined"
  end.

(** [!s] is false exactly for a non-empty string. *)
Definition truthyStr (s : maybeString) : bool :=
  match s with
  | Some x => negb (String.eqb x "")
  | None => false
  end.

(** *** lodash [isEqual]

    Deep comparison.  Arrays are compared position by position; objects
    have to own the same number of properties, and every property of the
    first has to be owned by the second with a deeply equal value (the
    order of the properties is irrelevant). *)
Fixpoint isEqual (a b : value) {struct a} : bool :=
  match a, b with
  | VUndefined, VUndefined => true
  | VNull, VNull => true
  | VBool x, VBool y => Bool.eqb x y
  | VNum x, VNum y => Z.eqb x y
  | VStr x, VStr y => String.eqb x y
  | VArr xs, VArr ys =>
      (fix eqArr (xs ys : list value) {struct xs} : bool :=
         match xs, ys with
         | [], [] => true
         | x :: xs', y :: ys' => isEqual x y && eqArr xs' ys'
         | _, _ => false
         end) xs ys
  | VObj xs, VObj ys =>
      Nat.eqb (length xs) (length ys) &&
      (fix eqProps (xs : list (string * value)) {struct xs} : bool :=
         match xs with
         | [] => true
         | (k, v) :: xs' =>
             match lookupProp k ys with
             | Some w => isEqual v w && eqProps xs'
             | None => false
             end
         end) xs
  | _, _ => false
  end.

(** *** lodash [uniqWith]

    [baseUniq] with a comparator: walk the array from the left and keep a
    value unless the comparator relates it to a value kept before. *)
Definition arrayIncludesWith {A : Type} (array : list A) (v : A)
    (comparator : A -> A -> bool) : bool :=
  existsb (fun seen => comparator v seen) array.

Fixpoint baseUniq {A : Type} (comparator : A -> A -> bool)
    (result : list A) (array : list A) : list A :=
  match array with
  | [] => result
  | v :: rest =>
      if arrayIncludesWith result v comparator
      then baseUniq comparator result rest
      else baseUniq comparator (result ++ [v]) rest
  end.

Definition uniqWith {A : Type} (array : list A) (comparator : A -> A -> bool)
    : list A :=
  baseUniq comparator [] array.

(* ================================================================== *)
(** ** Errors and results of calls *)

(** A thrown value: an [Error] with its [name] and [message].  A thrown
    primitive is the case of an empty [name]. *)
Record JsError : Type := mkJsError { ename : string; emessage : string }.

(** [new Error(msg)] *)
Definition newError (msg : string) : JsError := mkJsError "Error" msg.

(** [String(e)], that is [Error.prototype.toString]. *)
Definition errorToString (e : JsError) : string :=
  if String.eqb (ename e) "" then emessage e
  else if String.eqb (emessage e) "" then ename e
  else (ename e ++ ": " ++ emessage e)%string.

(** What an awaited call of a collaborator gives: a value, or a thrown
    error (a rejected promise). *)
Inductive JsResult (A : Type) : Type :=
| Ok (a : A)
| Err (e : JsError).
Arguments Ok {A} a.
Arguments Err {A} e.

(* ================================================================== *)
(** ** Data model *)

(** A local tool (a LangChain [Tool]): [name], [description], the JSON
    schema that [zodToJsonSchema] derives from its [schema], and its
    [call] method.  A call resolves to the tool's output or rejects. *)
Record Tool : Type := mkTool {
  tool_name : string;
  tool_description : string;
  tool_jsonSchema : value;
  tool_call : value -> JsResult string
}.

(** [nodeData.inputs.tools] is a list whose members are tools or arrays
    of tools. *)
Inductive ToolItem : Type :=
| OneTool (t : Tool)
| ToolArray (ts : list Tool).

Record NodeInputs : Type := mkNodeInputs {
  selectedAssistant : maybeString;
  tools_input : option (list ToolItem);
  sessionId_input : maybeString
}.

Record NodeData : Type := mkNodeData { inputs : option NodeInputs }.

(** [options]: only [chatId] is data; [appDataSource], [databaseEntities]
    and [logger] are collaborators and live in [World]. *)
Record Options : Type := mkOptions { chatId : maybeString }.

(** Row of the [Assistant] entity. *)
Record Assistant : Type := mkAssistant {
  assistant_id : string;
  assistant_credential : maybeString;
  assistant_details : string
}.

(** Row of the [ChatMessage] entity. *)
Record ChatMessage : Type := mkChatMessage { cm_sessionId : string }.

Record RemoteAssistant : Type := mkRemoteAssistant {
  ra_id : string;
  ra_tools : list JsObject
}.

Record Thread : Type := mkThread { thread_id : string }.

Record ToolCallRequest : Type := mkToolCallRequest {
  tc_id : string;
  tc_function_name : string;
  tc_function_arguments : string
}.

(** A snapshot of the remote run.  [required_action] is [None] for
    [null]; when present it carries [submit_tool_outputs.tool_calls]. *)
Record Run : Type := mkRun {
  run_id : string;
  run_status : string;
  run_required_action : option (list ToolCallRequest)
}.

(** One part of a message's [content].  The code distinguishes
    [type === 'text'] from everything else, which it reads as an image
    file; a part that is neither has no [image_file]. *)
Inductive ContentPart : Type :=
| TextPart (text_value : string)
| ImageFilePart (file_id : string)
| OtherPart (type : string).

Record Message : Type := mkMessage {
  msg_role : string;
  msg_content : list ContentPart
}.

Record MessagesPage : Type := mkMessagesPage { page_data : option (list Message) }.

Record FileObject : Type := mkFileObject { file_obj_id : string; file_filename : string }.

(** The answer of [fetch]: [ok], [status] and the bytes of the body. *)
Record Response : Type := mkResponse {
  resp_ok : bool;
  resp_status : N;
  resp_body : string
}.

(** How the promise around the write stream is settled, lines 293-301.
    [PipeEnd]: the body emits [end] and the promise resolves; the write
    stream need not have finished by then, and [flushed] is the number
    of bytes of the body it has written to the file so far ([None]: it
    has not opened the file yet, which is left as it was).  [PipeError]:
    the write stream emits [error] and the promise rejects, with what is
    left in the file ([None]: the file was not touched).  [PipeStall]:
    neither event comes (the body errors or closes without [end]) and
    the promise is never settled. *)
Inductive PipeOutcome : Type :=
| PipeEnd (flushed : option nat)
| PipeError (e : JsError) (left_in_file : option string)
| PipeStall.

(** [IUsedTool] *)
Record IUsedTool : Type := mkUsedTool {
  ut_tool : string;
  ut_toolInput : value;
  ut_toolOutput : string
}.

(** An entry of [tool_outputs]. *)
Record ToolOutput : Type := mkToolOutput {
  to_tool_call_id : string;
  to_output : string
}.

(** An entry of the callback's [actions] array. *)
Record Action : Type := mkAction {
  act_tool : string;
  act_toolInput : value;
  act_toolCallId : string
}.

Record AssistantEcho : Type := mkAssistantEcho {
  echo_assistantId : value;
  echo_threadId : string;
  echo_runId : string;
  echo_messages : list Message
}.

Record ResultObject : Type := mkResultObject {
  res_text : string;
  res_usedTools : list IUsedTool;
  res_assistant : AssistantEcho
}.

(** [Promise<string | object>]: what [run] resolves to. *)
Inductive RunResult : Type :=
| ResString (s : string)
| ResObject (o : ResultObject).

(* ================================================================== *)
(** ** The collaborators *)

(** Everything the node calls and does not define.  The answers of the
    remote API to [runs.retrieve] are indexed by the number of polls made
    before, so that a run can change status between polls. *)
Record World : Type := mkWorld {
  (* typeorm repositories *)
  findAssistant : maybeString -> JsResult (option Assistant);
  findChatMessage : maybeString -> JsResult (option ChatMessage);
  (* src/utils *)
  getCredentialData : string -> JsResult value;
  getCredentialParam : string -> value -> NodeData -> maybeString;
  getUserHome : string;
  (* built-ins *)
  JSON_parse : string -> JsResult value;
  path_join : list string -> string;
  path_dirname : string -> string;
  toBase64 : string -> string;
  (* openai.beta.* and openai.files *)
  assistants_retrieve : value -> JsResult RemoteAssistant;
  assistants_update : value -> list JsObject -> JsResult unit;
  threads_create : JsResult Thread;
  threads_retrieve : string -> JsResult Thread;
  threads_del : maybeString -> JsResult unit;
  messages_create : string -> string -> JsResult unit;
  runs_create : string -> string -> JsResult Run;
  runs_retrieve : nat -> string -> string -> JsResult Run;
  runs_submitToolOutputs : string -> string -> list ToolOutput -> JsResult unit;
  messages_list : string -> JsResult MessagesPage;
  files_retrieve : string -> JsResult FileObject;
  (* node-fetch and node:fs *)
  fetch : string -> string -> JsResult Response;
  pipe : string -> string -> PipeOutcome
}.

Inductive LogLevel : Type := LogError | LogInfo | ConsoleError | ConsoleLog.

(** The calls the node makes, in the order it makes them. *)
Inductive Event : Type :=
| EvFindAssistant (id : maybeString)
| EvFindChatMessage (chat : maybeString)
| EvGetCredentialData (credential : string)
| EvAssistantsRetrieve (id : value)
| EvAssistantsUpdate (id : value) (tools : list JsObject)
| EvThreadsCreate
| EvThreadsRetrieve (session : string)
| EvThreadsDel (session : maybeString)
| EvMessagesCreate (thread : string) (content : string)
| EvRunsCreate (thread : string) (assistant : string)
| EvSetInterval
| EvClearInterval
| EvRunsRetrieve (thread run : string)
| EvToolCall (name : string) (input : value)
| EvSubmitToolOutputs (thread run : string) (outputs : list ToolOutput)
| EvUnhandledRejection (e : JsError)
| EvMessagesList (thread : string)
| EvFilesRetrieve (file : string)
| EvFetch (url : string)
| EvMkdir (path : string)
| EvWriteFile (path : string)
| EvReadFile (path : string)
| EvLog (level : LogLevel) (msg : string).

(** The mutable state of one invocation. *)
Record St : Type := mkSt {
  trace : list Event;                (* calls made so far, oldest first *)
  files : list (string * string);   (* the file cache: path, content *)
  dirs : list string;                (* directories that exist *)
  polls : nat;                       (* runs.retrieve calls made so far *)
  interval : bool;                   (* is the interval timer armed *)
  usedTools : list IUsedTool         (* the usedTools array of run *)
}.

(* ================================================================== *)
(** ** The monad of an invocation *)

(** How an awaited computation ends: with a value, with a thrown error,
    or not at all.  [Hung] is a promise that nothing will ever settle;
    [OutOfFuel] means the bound on the number of timer ticks that the
    model looks at was reached while the timer was still armed. *)
Inductive Outcome (A : Type) : Type :=
| Returned (a : A)
| Threw (e : JsError)
| Hung
| OutOfFuel.
Arguments Returned {A} a.
Arguments Threw {A} e.
Arguments Hung {A}.
Arguments OutOfFuel {A}.

Definition M (A : Type) : Type := St -> Outcome A * St.

Definition ret {A : Type} (a : A) : M A := fun s => (Returned a, s).

Definition bind {A B : Type} (m : M A) (k : A -> M B) : M B :=
  fun s =>
    match m s with
    | (Returned a, s') => k a s'
    | (Threw e, s') => (Threw e, s')
    | (Hung, s') => (Hung, s')
    | (OutOfFuel, s') => (OutOfFuel, s')
    end.

Notation "x <- m ;; k" := (bind m (fun x => k))
  (at level 61, m at next level, right associativity).
Notation "m ;;; k" := (bind m (fun _ => k))
  (at level 61, right associativity).

Definition throw {A : Type} (e : JsError) : M A := fun s => (Threw e, s).
Definition hang {A : Type} : M A := fun s => (Hung, s).
Definition outOfFuel {A : Type} : M A := fun s => (OutOfFuel, s).

(** [try { m } catch (error) { handler error }] *)
Definition tryCatch {A : Type} (m : M A) (handler : JsError -> M A) : M A :=
  fun s =>
    match m s with
    | (Threw e, s') => handler e s'
    | r => r
    end.

Definition await {A : Type} (r : JsResult A) : M A :=
  match r with
  | Ok a => ret a
  | Err e => throw e
  end.

(** The state after the calls [evs] were made. *)
Definition logged (evs : list Event) (s : St) : St :=
  mkSt (trace s ++ evs) (files s) (dirs s) (polls s) (interval s) (usedTools s).

Definition emit (ev : Event) : M unit :=
  fun s => (Returned tt, logged [ev] s).

(** A call of a collaborator: logged, then awaited. *)
Definition call {A : Type} (ev : Event) (r : JsResult A) : M A :=
  emit ev ;;; await r.

Definition getSt : M St := fun s => (Returned s, s).

Definition armed (b : bool) (s : St) : St :=
  mkSt (trace s) (files s) (dirs s) (polls s) b (usedTools s).

Definition setInterval : M unit :=
  fun s => (Returned tt, armed true (logged [EvSetInterval] s)).

Definition clearInterval : M unit :=
  fun s => (Returned tt, armed false (logged [EvClearInterval] s)).

(** [usedTools.push(u)] *)
Definition pushUsedTool (u : IUsedTool) : M unit :=
  fun s => (Returned tt,
            mkSt (trace s) (files s) (dirs s) (polls s) (interval s) (usedTools s ++ [u])).

(** [const usedTools = []] *)
Definition newUsedTools : M unit :=
  fun s => (Returned tt,
            mkSt (trace s) (files s) (dirs s) (polls s) (interval s) []).

Definition countPoll : M nat :=
  fun s => (Returned (polls s),
            mkSt (trace s) (files s) (dirs s) (S (polls s)) (interval s) (usedTools s)).

(* ---- the file cache ---- *)

Fixpoint lookupFile (path : string) (fs : list (string * string)) : option string :=
  match fs with
  | [] => None
  | (p, c) :: fs' => if String.eqb path p then Some c else lookupFile path fs'
  end.

Definition existsDir (path : string) (ds : list string) : bool :=
  existsb (String.eqb path) ds.

(** [fs.existsSync(path)] *)
Definition existsSync (path : string) : M bool :=
  fun s => (Returned (existsDir path (dirs s)), s).

(** [fs.mkdirSync(path, { recursive: true })] *)
Definition mkdirSync (path : string) : M unit :=
  fun s => (Returned tt,
            mkSt (trace s ++ [EvMkdir path]) (files s) (path :: dirs s)
                 (polls s) (interval s) (usedTools s)).

Definition storeFile (path content : string) : M unit :=
  fun s => (Returned tt,
            mkSt (trace s) ((path, content) :: files s) (dirs s)
                 (polls s) (interval s) (usedTools s)).

(** [fs.readFileSync(path)]: the content, or an error when there is no
    such file. *)
Definition readFileSync (path : string) : M string :=
  emit (EvReadFile path) ;;;
  s <- getSt ;;
  match lookupFile path (files s) with
  | Some c => ret c
  | None =>
      throw (newError ("ENOENT: no such file or directory, open '" ++ path ++ "'"))
  end.

(** Reading a property of a parsed document: a [TypeError] on [null] and
    [undefined], [undefined] on other values that are not objects. *)
Definition getMember (v : value) (k : string) : M value :=
  match v with
  | VObj o => ret (prop o k)
  | VUndefined | VNull =>
      throw (mkJsError "TypeError" ("Cannot read properties of undefined (reading '" ++ k ++ "')"))
  | _ => ret VUndefined
  end.

Definition statusToString (n : N) : string :=
  NilZero.string_of_uint (N.to_uint n).

(* ================================================================== *)
(** ** The node *)

(** lodash [flatten] (one level); [undefined] flattens to the empty
    array. *)
Definition flatten (tools : option (list ToolItem)) : list Tool :=
  match tools with
  | None => []
  | Some l =>
      flat_map (fun item => match item with
                            | OneTool t => [t]
                            | ToolArray ts => ts
                            end) l
  end.

(** Lines 310-319. *)
Definition formatToOpenAIAssistantTool (tool : Tool) : JsObject :=
  [ ("type", VStr "function");
    ("function", VObj [ ("name", VStr (tool_name tool));
                        ("description", VStr (tool_description tool));
                        ("parameters", tool_jsonSchema tool) ]) ].

(** The comparator handed to [uniqWith] at line 145. *)
Definition isEqualTool (a b : JsObject) : bool := isEqual (VObj a) (VObj b).

(** The predicate of the [filter] at line 146. *)
Definition keepTool (tool : JsObject) : bool :=
  negb (strictEqStr (prop tool "type") "function" && negb (truthy (prop tool "function"))).

(** Lines 145-146: the list handed to [assistants.update]. *)
Definition filteredTools (remote formatted : list JsObject) : list JsObject :=
  filter keepTool (uniqWith (remote ++ formatted) isEqualTool).

Definition nd_selectedAssistant (nodeData : NodeData) : maybeString :=
  match inputs nodeData with
  | Some i => selectedAssistant i
  | None => None
  end.

Definition nd_tools (nodeData : NodeData) : option (list ToolItem) :=
  match inputs nodeData with
  | Some i => tools_input i
  | None => None
  end.

Definition nd_sessionId (nodeData : NodeData) : maybeString :=
  match inputs nodeData with
  | Some i => sessionId_input i
  | None => None
  end.

(** [assistant.credential ?? ''] *)
Definition credentialOrEmpty (a : Assistant) : string :=
  match assistant_credential a with
  | Some c => c
  | None => ""
  end.

Definition processingError (state threadId runId : string) : string :=
  ("Error processing thread: " ++ state ++ ", Thread ID: " ++ threadId
     ++ ", Run ID: " ++ runId)%string.

Definition imgHTML (base64String filename : string) : string :=
  ("<img src=" ++ String "034" "data:image/png;base64," ++ base64String
     ++ String "034" " width=" ++ String "034" "100%" ++ String "034" " height="
     ++ String "034" "max-content" ++ String "034" " alt=" ++ String "034" filename
     ++ String "034" " /><br/>")%string.

Section Node.

Variable w : World.

(** *** [downloadFile], lines 282-308 *)
Definition downloadFile (fileObj : FileObject) (filePath dirPath openAIApiKey : string)
    : M unit :=
  tryCatch
    (let url := ("https://api.openai.com/v1/files/" ++ file_obj_id fileObj ++ "/content")%string in
     response <- call (EvFetch url) (fetch w url openAIApiKey) ;;
     (if negb (resp_ok response)
      then throw (newError ("HTTP error! status: " ++ statusToString (resp_status response)))
      else ret tt) ;;;
     (* the promise around the write stream *)
     present <- existsSync dirPath ;;
     (if negb present then mkdirSync (path_dirname w filePath) else ret tt) ;;;
     emit (EvWriteFile filePath) ;;;
     match pipe w filePath (resp_body response) with
     | PipeEnd flushed =>
         match flushed with
         | Some n => storeFile filePath (substring 0 n (resp_body response))
         | None => ret tt
         end
     | PipeError e left_in_file =>
         match left_in_file with
         | Some partial => storeFile filePath partial
         | None => ret tt
         end ;;;
         throw e
     | PipeStall => hang
     end ;;;
     emit (EvLog ConsoleLog ("File downloaded and written to " ++ filePath)))
    (fun error =>
       emit (EvLog ConsoleError
               ("Error downloading or writing the file: " ++ errorToString error))).

(** *** [clearSessionMemory], lines 79-116 *)
Definition clearSessionMemory (nodeData : NodeData) (options : Options) : M unit :=
  let selectedAssistantId := nd_selectedAssistant nodeData in
  let sessionId := nd_sessionId nodeData in
  assistant <- call (EvFindAssistant selectedAssistantId)
                    (findAssistant w selectedAssistantId) ;;
  match assistant with
  | None =>
      emit (EvLog LogError ("Assistant " ++ tmpl selectedAssistantId ++ " not found"))
  | Some assistant =>
      let continue (sessionId : maybeString) : M unit :=
        credentialData <- call (EvGetCredentialData (credentialOrEmpty assistant))
                               (getCredentialData w (credentialOrEmpty assistant)) ;;
        let openAIApiKey := getCredentialParam w "openAIApiKey" credentialData nodeData in
        if negb (truthyStr openAIApiKey)
        then emit (EvLog LogError "OpenAI ApiKey not found")
        else
          emit (EvLog LogInfo ("Clearing OpenAI Thread " ++ tmpl sessionId)) ;;;
          call (EvThreadsDel sessionId) (threads_del w sessionId) ;;;
          emit (EvLog LogInfo ("Successfully cleared OpenAI Thread " ++ tmpl sessionId))
      in
      if negb (truthyStr sessionId) && truthyStr (chatId options)
      then
        chatmsg <- call (EvFindChatMessage (chatId options))
                        (findChatMessage w (chatId options)) ;;
        match chatmsg with
        | None =>
            emit (EvLog LogError
                    ("Chat Message with Chat Id: " ++ tmpl (chatId options) ++ " not found"))
        | Some chatmsg => continue (Some (cm_sessionId chatmsg))
        end
      else continue sessionId
  end.

(** *** The interval callback, lines 178-231 *)

(** Lines 188-196: [tool_calls.forEach], parsing every call's arguments. *)
Fixpoint parseActions (tool_calls : list ToolCallRequest) (actions : list Action)
    : M (list Action) :=
  match tool_calls with
  | [] => ret actions
  | item :: rest =>
      args <- await (JSON_parse w (tc_function_arguments item)) ;;
      parseActions rest
        (actions ++ [mkAction (tc_function_name item) args (tc_id item)])
  end.

(** [tools.find((tool) => tool.name === name)] *)
Definition findTool (tools : list Tool) (name : string) : option Tool :=
  find (fun tool => String.eqb (tool_name tool) name) tools.

(** Lines 198-212: the [for] loop over [actions]. *)
Fixpoint callTools (tools : list Tool) (actions : list Action)
    (submitToolOutputs : list ToolOutput) : M (list ToolOutput) :=
  match actions with
  | [] => ret submitToolOutputs
  | action :: rest =>
      match findTool tools (act_tool action) with
      | None => callTools tools rest submitToolOutputs
      | Some tool =>
          toolOutput <- call (EvToolCall (tool_name tool) (act_toolInput action))
                             (tool_call tool (act_toolInput action)) ;;
          pushUsedTool (mkUsedTool (tool_name tool) (act_toolInput action) toolOutput) ;;;
          callTools tools rest
            (submitToolOutputs ++ [mkToolOutput (act_toolCallId action) toolOutput])
      end
  end.

(** What one run of the callback does to the promise: [Some (Ok state)]
    is [resolve(state)], [Some (Err e)] is [reject(e)], [None] is
    neither. *)
Definition callback (tools : list Tool) (threadId runId : string)
    : M (option (JsResult string)) :=
  n <- countPoll ;;
  run <- call (EvRunsRetrieve threadId runId) (runs_retrieve w n threadId runId) ;;
  let state := run_status run in
  if String.eqb state "completed" then
    clearInterval ;;;
    ret (Some (Ok state))
  else if String.eqb state "requires_action" then
    match run_required_action run with
    | Some tool_calls =>
        clearInterval ;;;
        actions <- parseActions tool_calls [] ;;
        submitToolOutputs <- callTools tools actions [] ;;
        match submitToolOutputs with
        | _ :: _ =>
            call (EvSubmitToolOutputs threadId runId submitToolOutputs)
                 (runs_submitToolOutputs w threadId runId submitToolOutputs) ;;;
            ret (Some (Ok state))
        | [] =>
            ret (Some (Err (newError
                   (processingError state threadId runId
                      ++ ". submit_tool_outputs.tool_calls are empty"))))
        end
    | None => ret None
    end
  else if String.eqb state "cancelled" || String.eqb state "expired"
          || String.eqb state "failed" then
    clearInterval ;;;
    ret (Some (Err (newError (processingError state threadId runId))))
  else ret None.

(** The timer firing [ticks] times at most.  A callback that throws
    leaves an unhandled rejection behind and settles nothing; the timer
    fires again only if it was not cleared.  Each firing is taken to
    finish before the next one starts. *)
Fixpoint fire (ticks : nat) (tools : list Tool) (threadId runId : string) : M string :=
  match ticks with
  | O => outOfFuel
  | S ticks' =>
      settled <- tryCatch (callback tools threadId runId)
                          (fun e => emit (EvUnhandledRejection e) ;;; ret None) ;;
      match settled with
      | Some (Ok state) => ret state
      | Some (Err e) => throw e
      | None =>
          s <- getSt ;;
          if interval s then fire ticks' tools threadId runId else hang
      end
  end.

(** Lines 176-233: [promise(threadId, runId)]. *)
Definition promise (ticks : nat) (tools : list Tool) (threadId runId : string) : M string :=
  setInterval ;;;
  fire ticks tools threadId runId.

(** Lines 237-239: [while (state === 'requires_action')]. *)
Fixpoint whileRequiresAction (rounds ticks : nat) (tools : list Tool)
    (threadId runId : string) (state : string) : M string :=
  if String.eqb state "requires_action" then
    match rounds with
    | O => outOfFuel
    | S rounds' =>
        state' <- promise ticks tools threadId runId ;;
        whileRequiresAction rounds' ticks tools threadId runId state'
    end
  else ret state.

(** *** Response assembly, lines 247-269 *)
Fixpoint renderContent (content : list ContentPart) (openAIApiKey : string)
    (returnVal : string) : M string :=
  match content with
  | [] => ret returnVal
  | TextPart text_value :: rest =>
      renderContent rest openAIApiKey (returnVal ++ text_value)
  | ImageFilePart fileId :: rest =>
      fileObj <- call (EvFilesRetrieve fileId) (files_retrieve w fileId) ;;
      let dirPath := path_join w [getUserHome w; ".flowise"; "openai-assistant"] in
      let filePath := path_join w [getUserHome w; ".flowise"; "openai-assistant";
                                   (file_filename fileObj ++ ".png")%string] in
      downloadFile fileObj filePath dirPath openAIApiKey ;;;
      bitmap <- readFileSync filePath ;;
      let base64String := toBase64 w bitmap in
      renderContent rest openAIApiKey
        (returnVal ++ imgHTML base64String (file_filename fileObj))
  | OtherPart _ :: _ =>
      throw (mkJsError "TypeError" "Cannot read properties of undefined (reading 'file_id')")
  end.

(** Lines 241-275: listing the messages and assembling the answer. *)
Definition assemble (openAIApiKey : string) (openAIAssistantId : value)
    (threadId : string) (runThread : Run) : M RunResult :=
  messages <- call (EvMessagesList threadId) (messages_list w threadId) ;;
  let messageData := match page_data messages with
                     | Some d => d
                     | None => []
                     end in
  let assistantMessages :=
    filter (fun msg => String.eqb (msg_role msg) "assistant") messageData in
  match assistantMessages with
  | [] => ret (ResString "")
  | first :: _ =>
      returnVal <- renderContent (msg_content first) openAIApiKey "" ;;
      s <- getSt ;;
      ret (ResObject
             (mkResultObject returnVal (usedTools s)
                (mkAssistantEcho openAIAssistantId threadId (run_id runThread) messageData)))
  end.

(** Lines 174-275: polling the run, then assembling the answer. *)
Definition pollAndAssemble (fuel : nat) (tools : list Tool) (openAIApiKey : string)
    (openAIAssistantId : value) (threadId : string) (runThread : Run) : M RunResult :=
  newUsedTools ;;;
  state <- promise fuel tools threadId (run_id runThread) ;;
  whileRequiresAction fuel fuel tools threadId (run_id runThread) state ;;;
  assemble openAIApiKey openAIAssistantId threadId runThread.

(** Lines 139-275: the body of the [try]. *)
Definition runBody (fuel : nat) (tools : list Tool) (formattedTools : list JsObject)
    (assistant : Assistant) (openAIApiKey : string) (input : string) (options : Options)
    : M RunResult :=
  assistantDetails <- await (JSON_parse w (assistant_details assistant)) ;;
  openAIAssistantId <- getMember assistantDetails "id" ;;
  retrievedAssistant <- call (EvAssistantsRetrieve openAIAssistantId)
                             (assistants_retrieve w openAIAssistantId) ;;
  match formattedTools with
  | _ :: _ =>
      let filtered := filteredTools (ra_tools retrievedAssistant) formattedTools in
      call (EvAssistantsUpdate openAIAssistantId filtered)
           (assistants_update w openAIAssistantId filtered)
  | [] => ret tt
  end ;;;
  chatmessage <- call (EvFindChatMessage (chatId options))
                      (findChatMessage w (chatId options)) ;;
  thread <- match chatmessage with
            | None => call EvThreadsCreate (threads_create w)
            | Some chatmessage =>
                call (EvThreadsRetrieve (cm_sessionId chatmessage))
                     (threads_retrieve w (cm_sessionId chatmessage))
            end ;;
  let threadId := thread_id thread in
  call (EvMessagesCreate threadId input) (messages_create w threadId input) ;;;
  runThread <- call (EvRunsCreate threadId (ra_id retrievedAssistant))
                    (runs_create w threadId (ra_id retrievedAssistant)) ;;
  pollAndAssemble fuel tools openAIApiKey openAIAssistantId threadId runThread.

(** *** [run], lines 118-279.  [fuel] bounds the timer ticks of each
    promise and the rounds of the [while] loop. *)
Definition run (fuel : nat) (nodeData : NodeData) (input : string) (options : Options)
    : M (RunResult) :=
  let selectedAssistantId := nd_selectedAssistant nodeData in
  let tools := flatten (nd_tools nodeData) in
  let formattedTools := map formatToOpenAIAssistantTool tools in
  assistant <- call (EvFindAssistant selectedAssistantId)
                    (findAssistant w selectedAssistantId) ;;
  match assistant with
  | None => throw (newError ("Assistant " ++ tmpl selectedAssistantId ++ " not found"))
  | Some assistant =>
      credentialData <- call (EvGetCredentialData (credentialOrEmpty assistant))
                             (getCredentialData w (credentialOrEmpty assistant)) ;;
      let openAIApiKey := getCredentialParam w "openAIApiKey" credentialData nodeData in
      if negb (truthyStr openAIApiKey)
      then throw (newError "OpenAI ApiKey not found")
      else
        tryCatch
          (runBody fuel tools formattedTools assistant (tmpl openAIApiKey) input options)
          (fun error => throw (newError (errorToString error)))
  end.

End Node.

(** The state an invocation starts in, given the file cache it finds. *)
Definition initialSt (fs : list (string * string)) (ds : list string) : St :=
  mkSt [] fs ds 0 false [].

(* ================================================================== *)
(** ** The load method *)

(** [INodeOptionsValue]: an entry of the list offered for selection. *)
Record INodeOptionsValue : Type := mkOption {
  opt_label : value;
  opt_name : string;
  opt_description : value
}.

Section LoadMethods.

Variable w : World.

(** Lines 62-70: the [for] loop over the stored assistants. *)
Fixpoint listLoop (assistants : list Assistant) (returnData : list INodeOptionsValue)
    : M (list INodeOptionsValue) :=
  match assistants with
  | [] => ret returnData
  | assistant :: rest =>
      assistantDetails <- await (JSON_parse w (assistant_details assistant)) ;;
      label <- getMember assistantDetails "name" ;;
      description <- getMember assistantDetails "instructions" ;;
      listLoop rest (returnData ++ [mkOption label (assistant_id assistant) description])
  end.

(** [loadMethods.listAssistants], lines 50-72.  [appDataSource] is [None]
    when [options.appDataSource] is [undefined] (or falsy), else it is
    what [find()] on the repository of assistants gives. *)
Definition listAssistants (appDataSource : option (JsResult (list Assistant)))
    : M (list INodeOptionsValue) :=
  match appDataSource with
  | None => ret []
  | Some found =>
      assistants <- await found ;;
      listLoop assistants []
  end.

End LoadMethods.

(* ================================================================== *)
(** ** Sample collaborators

    Concrete tools and worlds on which the statements below are
    exercised. *)
Module Sample.

Definition quote : string := String "034" "".

(** The stored [details] blob of the sample assistant. *)
Definition details : string :=
  ("{" ++ quote ++ "id" ++ quote ++ ":" ++ quote ++ "asst_1" ++ quote ++ "}")%string.

(** [JSON.parse] restricted to the three documents the samples use. *)
Definition parse (s : string) : JsResult value :=
  if String.eqb s "{}" then Ok (VObj [])
  else if String.eqb s details then Ok (VObj [("id", VStr "asst_1")])
  else Err (mkJsError "SyntaxError" "Unexpected end of JSON input").

Definition join (parts : list string) : string := String.concat "/" parts.

Definition objectSchema : value := VObj [("type", VStr "object")].

Definition calculator : Tool :=
  mkTool "calculator" "evaluates an expression" objectSchema (fun _ => Ok "42").

Definition search : Tool :=
  mkTool "search" "searches the web"
    (VObj [("type", VStr "object"); ("additionalProperties", VBool false)])
    (fun _ => Ok "found").


Definition storedAssistant : Assistant :=
  mkAssistant "a-1" (Some "cred-1") details.

Definition nodeDataWith (tools : option (list ToolItem)) : NodeData :=
  mkNodeData (Some (mkNodeInputs (Some "a-1") tools None)).

Definition options : Options := mkOptions (Some "chat-1").

Definition callReq (id name args : string) : ToolCallRequest :=
  mkToolCallRequest id name args.

Definition running (status : string) : JsResult Run :=
  Ok (mkRun "run_1" status None).

Definition requiring (calls : list ToolCallRequest) : JsResult Run :=
  Ok (mkRun "run_1" "requires_action" (Some calls)).

(** The answers to successive polls: the members of [script] in turn,
    then [completed] for ever. *)
Definition scripted (script : list (JsResult Run)) (n : nat) : JsResult Run :=
  nth n script (running "completed").

Definition answer (text : string) : MessagesPage :=
  mkMessagesPage (Some [mkMessage "assistant" [TextPart text]; mkMessage "user" [TextPart "hi"]]).

(** A world with a stored assistant and a working remote API, in which
    the remaining answers are the arguments. *)
Definition world (remoteTools : list JsObject) (chat : option ChatMessage)
    (script : list (JsResult Run)) (page : MessagesPage)
    (fetched : JsResult Response) (deleted : JsResult unit) : World :=
  {| findAssistant := fun id =>
       Ok (match id with
           | Some x => if String.eqb x "a-1" then Some storedAssistant else None
           | None => None
           end);
     findChatMessage := fun _ => Ok chat;
     getCredentialData := fun _ => Ok (VObj [("openAIApiKey", VStr "sk-1")]);
     getCredentialParam := fun k data _ =>
       match data with
       | VObj o => match prop o k with VStr x => Some x | _ => None end
       | _ => None
       end;
     getUserHome := "/home/u";
     JSON_parse := parse;
     path_join := join;
     path_dirname := fun _ => "/home/u/.flowise/openai-assistant";
     toBase64 := fun bytes => ("b64:" ++ bytes)%string;
     assistants_retrieve := fun _ => Ok (mkRemoteAssistant "asst_1" remoteTools);
     assistants_update := fun _ _ => Ok tt;
     threads_create := Ok (mkThread "thread_new");
     threads_retrieve := fun session => Ok (mkThread session);
     threads_del := fun _ => deleted;
     messages_create := fun _ _ => Ok tt;
     runs_create := fun _ _ => Ok (mkRun "run_1" "queued" None);
     runs_retrieve := fun n _ _ => scripted script n;
     runs_submitToolOutputs := fun _ _ _ => Ok tt;
     messages_list := fun _ => Ok page;
     files_retrieve := fun file => Ok (mkFileObject file "plot");
     fetch := fun _ _ => fetched;
     pipe := fun _ body => PipeEnd (Some (String.length body)) |}.

Definition plain : World :=
  world [] None [] (answer "Hello") (Err (newError "offline")) (Ok tt).

End Sample.

(* ================================================================== *)
(** ** Vocabulary of the statements

    Predicates on lists of tools and on logs of calls, the hypotheses
    under which an invocation reaches its phases, and the sample worlds
    the statements are exercised on. *)

(** A list in which no member is related by the comparator to a member
    before it, built from the left as [baseUniq] builds its result. *)
Inductive KeptOnce {A : Type} (comparator : A -> A -> bool) : list A -> Prop :=
| KeptOnce_nil : KeptOnce comparator []
| KeptOnce_snoc : forall l v,
    KeptOnce comparator l ->
    arrayIncludesWith l v comparator = false ->
    KeptOnce comparator (l ++ [v]).

(** [out] is the de-duplicated union of the members of [array]: it only
    holds members of [array], every member of [array] is in it or is
    related to one of its members, and no member of it is related to a
    member before it. *)
Definition DedupedUnion {A : Type} (comparator : A -> A -> bool)
    (array out : list A) : Prop :=
  (forall x, In x out -> In x array) /\
  (forall x, In x array -> In x out \/ exists y, In y out /\ comparator x y = true) /\
  (forall before y after, out = before ++ y :: after ->
     forall x, In x before -> comparator y x = false).

(** An entry of type [function] that has no [function] body. *)
Definition lacksFunctionBody (tool : JsObject) : Prop :=
  prop tool "type" = VStr "function" /\ truthy (prop tool "function") = false.

(** [m] only adds calls that satisfy [P] to the log, however it ends. *)
Definition appends {A : Type} (P : Event -> bool) (m : M A) : Prop :=
  forall s, exists evs,
    trace (snd (m s)) = trace s ++ evs /\ forallb P evs = true.

(** The calls made once the run has been created: polling, tools, the
    message list and the image cache. *)
Definition lateEvent (ev : Event) : bool :=
  match ev with
  | EvSetInterval | EvClearInterval | EvRunsRetrieve _ _ | EvToolCall _ _
  | EvSubmitToolOutputs _ _ _ | EvUnhandledRejection _ | EvMessagesList _
  | EvFilesRetrieve _ | EvFetch _ | EvMkdir _ | EvWriteFile _ | EvReadFile _
  | EvLog ConsoleError _ | EvLog ConsoleLog _ => true
  | _ => false
  end.

Definition isUpdate (ev : Event) : bool :=
  match ev with
  | EvAssistantsUpdate _ _ => true
  | _ => false
  end.

Definition notUpdate (ev : Event) : bool := negb (isUpdate ev).

(** How [clearSessionMemory] gets the session to delete (lines 94-103):
    the [sessionId] input when there is one (or when there is no
    [chatId]), else the session of the stored chat message. *)
Definition SessionResolves (w : World) (nodeData : NodeData) (options : Options)
    (session : maybeString) (lookups : list Event) : Prop :=
  (negb (truthyStr (nd_sessionId nodeData)) && truthyStr (chatId options) = false /\
   session = nd_sessionId nodeData /\ lookups = []) \/
  (negb (truthyStr (nd_sessionId nodeData)) && truthyStr (chatId options) = true /\
   exists chatmsg,
     findChatMessage w (chatId options) = Ok (Some chatmsg) /\
     session = Some (cm_sessionId chatmsg) /\
     lookups = [EvFindChatMessage (chatId options)]).

(** A world in which the stored chat message names a thread that the
    remote API refuses to delete. *)
Definition undeletable : World :=
  Sample.world [] (Some (mkChatMessage "thread_9")) [] (Sample.answer "Hello")
    (Err (newError "offline"))
    (Err (mkJsError "NotFoundError" "No thread found with id 'thread_9'")).

(** What the collaborators answer while [run] resolves the assistant
    and starts the remote run. *)
Record Setup : Type := mkSetup {
  su_assistant : Assistant;
  su_key : string;
  su_details : JsObject;
  su_remote : RemoteAssistant;
  su_chat : option ChatMessage;
  su_thread : Thread;
  su_run : Run
}.

(** The formatted local tools, line 124. *)
Definition formattedToolsOf (nodeData : NodeData) : list JsObject :=
  map formatToOpenAIAssistantTool (flatten (nd_tools nodeData)).

(** Lines 126-142 succeed: the stored assistant is found, its credential
    gives a non-empty API key, its details parse to an object, and the
    remote assistant named there is retrieved. *)
Definition Resolves (w : World) (nodeData : NodeData) (su : Setup) : Prop :=
  findAssistant w (nd_selectedAssistant nodeData) = Ok (Some (su_assistant su)) /\
  (exists credentialData,
     getCredentialData w (credentialOrEmpty (su_assistant su)) = Ok credentialData /\
     getCredentialParam w "openAIApiKey" credentialData nodeData = Some (su_key su)) /\
  String.eqb (su_key su) "" = false /\
  JSON_parse w (assistant_details (su_assistant su)) = Ok (VObj (su_details su)) /\
  assistants_retrieve w (prop (su_details su) "id") = Ok (su_remote su).

(** Lines 126-172 succeed: moreover the update of the remote tools (when
    there is one), the chat message lookup, the creation or retrieval of
    the thread, the posting of the message and the creation of the run
    all succeed. *)
Definition Starts (w : World) (nodeData : NodeData) (input : string)
    (options : Options) (su : Setup) : Prop :=
  Resolves w nodeData su /\
  (formattedToolsOf nodeData = [] \/
   assistants_update w (prop (su_details su) "id")
     (filteredTools (ra_tools (su_remote su)) (formattedToolsOf nodeData)) = Ok tt) /\
  findChatMessage w (chatId options) = Ok (su_chat su) /\
  match su_chat su with
  | None => threads_create w = Ok (su_thread su)
  | Some chatmessage => threads_retrieve w (cm_sessionId chatmessage) = Ok (su_thread su)
  end /\
  messages_create w (thread_id (su_thread su)) input = Ok tt /\
  runs_create w (thread_id (su_thread su)) (ra_id (su_remote su)) = Ok (su_run su).

(** The calls of lines 126-142. *)
Definition resolveTrace (nodeData : NodeData) (su : Setup) : list Event :=
  [ EvFindAssistant (nd_selectedAssistant nodeData);
    EvGetCredentialData (credentialOrEmpty (su_assistant su));
    EvAssistantsRetrieve (prop (su_details su) "id") ].

(** The call of lines 144-148. *)
Definition updateTrace (nodeData : NodeData) (su : Setup) : list Event :=
  match formattedToolsOf nodeData with
  | [] => []
  | _ :: _ =>
      [ EvAssistantsUpdate (prop (su_details su) "id")
          (filteredTools (ra_tools (su_remote su)) (formattedToolsOf nodeData)) ]
  end.

(** The calls of lines 150-172. *)
Definition threadTrace (input : string) (options : Options) (su : Setup) : list Event :=
  [ EvFindChatMessage (chatId options);
    match su_chat su with
    | None => EvThreadsCreate
    | Some chatmessage => EvThreadsRetrieve (cm_sessionId chatmessage)
    end;
    EvMessagesCreate (thread_id (su_thread su)) input;
    EvRunsCreate (thread_id (su_thread su)) (ra_id (su_remote su)) ].

Definition startTrace (nodeData : NodeData) (input : string) (options : Options)
    (su : Setup) : list Event :=
  resolveTrace nodeData su ++ updateTrace nodeData su ++ threadTrace input options su.

(** The handler of the [catch] at lines 276-278. *)
Definition rethrow (error : JsError) : M RunResult :=
  throw (newError (errorToString error)).

(** The state after [n] more polls that logged [evs], left the timer
    armed or not ([b]) and recorded [recs] in [usedTools]. *)
Definition after (evs : list Event) (n : nat) (b : bool) (recs : list IUsedTool)
    (s : St) : St :=
  mkSt (trace s ++ evs) (files s) (dirs s) (n + polls s) b (usedTools s ++ recs).

(** The arguments of a tool call as [JSON.parse] reads them. *)
Definition parses (w : World) (item : ToolCallRequest) : bool :=
  match JSON_parse w (tc_function_arguments item) with
  | Ok _ => true
  | Err _ => false
  end.

Definition parsedArguments (w : World) (item : ToolCallRequest) : value :=
  match JSON_parse w (tc_function_arguments item) with
  | Ok v => v
  | Err _ => VUndefined
  end.

(** The [actions] array of lines 187-196 when every call parses. *)
Definition actionsOf (w : World) (tool_calls : list ToolCallRequest) : list Action :=
  map (fun item => mkAction (tc_function_name item) (parsedArguments w item) (tc_id item))
      tool_calls.

(** The actions that name a local tool, each with the tool found for it,
    in the order of the actions. *)
Definition matched (tools : list Tool) (actions : list Action) : list (Action * Tool) :=
  flat_map (fun action => match findTool tools (act_tool action) with
                          | Some tool => [(action, tool)]
                          | None => []
                          end) actions.

Definition succeeds (m : Action * Tool) : bool :=
  match tool_call (snd m) (act_toolInput (fst m)) with
  | Ok _ => true
  | Err _ => false
  end.

Definition outputOf (m : Action * Tool) : string :=
  match tool_call (snd m) (act_toolInput (fst m)) with
  | Ok out => out
  | Err _ => ""
  end.

Definition toolCallEvent (m : Action * Tool) : Event :=
  EvToolCall (tool_name (snd m)) (act_toolInput (fst m)).

Definition toolOutputOf (m : Action * Tool) : ToolOutput :=
  mkToolOutput (act_toolCallId (fst m)) (outputOf m).

Definition usedToolOf (m : Action * Tool) : IUsedTool :=
  mkUsedTool (tool_name (snd m)) (act_toolInput (fst m)) (outputOf m).

(** A poll that settles nothing: the retrieval failed, or the status is
    none of those the callback acts on, or it is [requires_action]
    without a required action. *)
Definition waiting (r : JsResult Run) : bool :=
  match r with
  | Err _ => true
  | Ok run =>
      if String.eqb (run_status run) "completed" then false
      else if String.eqb (run_status run) "requires_action" then
        match run_required_action run with
        | Some _ => false
        | None => true
        end
      else negb (String.eqb (run_status run) "cancelled"
                 || String.eqb (run_status run) "expired"
                 || String.eqb (run_status run) "failed")
  end.

(** What such a poll logs. *)
Definition waitEvents1 (threadId runId : string) (r : JsResult Run) : list Event :=
  EvRunsRetrieve threadId runId ::
  match r with
  | Err e => [EvUnhandledRejection e]
  | Ok _ => []
  end.

(** The polls number [n], ..., [n + k - 1] all settle nothing. *)
Fixpoint allWaiting (w : World) (threadId runId : string) (n k : nat) : bool :=
  match k with
  | O => true
  | S k' => waiting (runs_retrieve w n threadId runId)
            && allWaiting w threadId runId (S n) k'
  end.

Fixpoint waitEvents (w : World) (threadId runId : string) (n k : nat) : list Event :=
  match k with
  | O => []
  | S k' => waitEvents1 threadId runId (runs_retrieve w n threadId runId)
            ++ waitEvents w threadId runId (S n) k'
  end.

Definition isTerminal (status : string) : bool :=
  String.eqb status "cancelled" || String.eqb status "expired"
  || String.eqb status "failed".

Definition emptyCallsError (threadId runId : string) : JsError :=
  newError (processingError "requires_action" threadId runId
              ++ ". submit_tool_outputs.tool_calls are empty").

(** The state in which the timer of the first promise starts firing. *)
Definition started (nodeData : NodeData) (input : string) (options : Options)
    (su : Setup) (s : St) : St :=
  mkSt (trace s ++ startTrace nodeData input options su ++ [EvSetInterval])
       (files s) (dirs s) (polls s) true [].

Definition isText (part : ContentPart) : bool :=
  match part with
  | TextPart _ => true
  | _ => false
  end.

(** The text values of the parts, concatenated. *)
Fixpoint textOf (content : list ContentPart) : string :=
  match content with
  | [] => ""
  | TextPart v :: rest => (v ++ textOf rest)%string
  | _ :: rest => textOf rest
  end.

(** The answers of a sample world during the start of the run. *)
Definition sampleSetup (remoteTools : list JsObject) (chat : option ChatMessage) : Setup :=
  mkSetup Sample.storedAssistant "sk-1" [("id", VStr "asst_1")]
    (mkRemoteAssistant "asst_1" remoteTools) chat
    (match chat with
     | None => mkThread "thread_new"
     | Some chatmessage => mkThread (cm_sessionId chatmessage)
     end)
    (mkRun "run_1" "queued" None).

(** The request names no local tool. *)
Definition unmatchedCall (tools : list Tool) (item : ToolCallRequest) : bool :=
  match findTool tools (tc_function_name item) with
  | Some _ => false
  | None => true
  end.

(** A world whose first poll asks for a tool that is not local, with
    arguments that are not JSON. *)
Definition unparseable : World :=
  Sample.world [] None [Sample.requiring [Sample.callReq "call_1" "weather" "{"]]
    (Sample.answer "Hello") (Err (newError "offline")) (Ok tt).





(** A world whose first poll asks for the calculator, for a tool that is
    not local, and for the search tool; the second poll finds the run
    completed. *)
Definition askingTwice : World :=
  Sample.world [] None
    [Sample.requiring [Sample.callReq "call_1" "calculator" "{}";
                       Sample.callReq "call_2" "weather" "{}";
                       Sample.callReq "call_3" "search" "{}"]]
    (Sample.answer "Hello") (Err (newError "offline")) (Ok tt).

Definition calculatorAndSearch : NodeData :=
  Sample.nodeDataWith (Some [OneTool Sample.calculator; ToolArray [Sample.search]]).

Definition isThreadsCreate (ev : Event) : bool :=
  match ev with
  | EvThreadsCreate => true
  | _ => false
  end.

Definition isThreadsRetrieve (ev : Event) : bool :=
  match ev with
  | EvThreadsRetrieve _ => true
  | _ => false
  end.

Definition isRunsCreate (ev : Event) : bool :=
  match ev with
  | EvRunsCreate _ _ => true
  | _ => false
  end.

(** The calculator as the remote assistant has it registered: the same
    entry as the formatted local tool, with its properties in another
    order. *)
Definition remoteCalculator : JsObject :=
  [ ("function", VObj [ ("parameters", Sample.objectSchema);
                        ("name", VStr "calculator");
                        ("description", VStr "evaluates an expression") ]);
    ("type", VStr "function") ].

(** Whenever [m] returns, the value it returns satisfies [Q]. *)
Definition ensures {A : Type} (Q : A -> Prop) (m : M A) : Prop :=
  forall s a s', m s = (Returned a, s') -> Q a.

(** The listed messages of a page: [messages.data ?? []]. *)
Definition messageDataOf (page : MessagesPage) : list Message :=
  match page_data page with
  | Some d => d
  | None => []
  end.

Definition assistantMessagesOf (page : MessagesPage) : list Message :=
  filter (fun msg => String.eqb (msg_role msg) "assistant") (messageDataOf page).

(** The two values [run] can resolve to: the empty string when the
    thread lists no assistant message, else the result object echoing
    the thread and the listed messages. *)
Definition ResultShape (w : World) (r : RunResult) : Prop :=
  match r with
  | ResString text =>
      text = "" /\
      exists threadId page,
        messages_list w threadId = Ok page /\ assistantMessagesOf page = []
  | ResObject o =>
      exists page,
        messages_list w (echo_threadId (res_assistant o)) = Ok page /\
        assistantMessagesOf page <> [] /\
        echo_messages (res_assistant o) = messageDataOf page
  end.

(** A world whose thread lists only the message of the user. *)
Definition silent : World :=
  Sample.world [] None [] (mkMessagesPage (Some [mkMessage "user" [TextPart "hi"]]))
    (Err (newError "offline")) (Ok tt).

(** The download of the file does not get its content: [fetch] rejects,
    or the response is not [ok]. *)
Definition downloadFails (w : World) (fileObj : FileObject) (key : string) : Prop :=
  let url := ("https://api.openai.com/v1/files/" ++ file_obj_id fileObj ++ "/content")%string in
  (exists e, fetch w url key = Err e) \/
  (exists response, fetch w url key = Ok response /\ resp_ok response = false).

(** The path of the cache file of an image, lines 258-259. *)
Definition cachePath (w : World) (fileObj : FileObject) : string :=
  path_join w [getUserHome w; ".flowise"; "openai-assistant";
               (file_filename fileObj ++ ".png")%string].

Definition cacheDir (w : World) : string :=
  path_join w [getUserHome w; ".flowise"; "openai-assistant"].

(** A world whose assistant answers with a text and an image, and whose
    file download is refused. *)
Definition refusedImage : World :=
  Sample.world [] None []
    (mkMessagesPage (Some [mkMessage "assistant" [TextPart "See: "; ImageFilePart "file_1"]]))
    (Ok (mkResponse false 404 "")) (Ok tt).

(** A document no object of which owns a property twice, at any depth:
    what JavaScript objects are. *)
Fixpoint nodupKeys (keys : list string) : bool :=
  match keys with
  | [] => true
  | k :: rest => negb (existsb (String.eqb k) rest) && nodupKeys rest
  end.

Fixpoint wellFormed (v : value) : bool :=
  match v with
  | VArr l => forallb wellFormed l
  | VObj l => nodupKeys (map fst l) && forallb (fun kv => wellFormed (snd kv)) l
  | _ => true
  end.

(** The details of a stored assistant parse to an object. *)
Definition detailsObject (w : World) (assistant : Assistant) : bool :=
  match JSON_parse w (assistant_details assistant) with
  | Ok (VObj _) => true
  | _ => false
  end.

Definition detailsOf (w : World) (assistant : Assistant) : JsObject :=
  match JSON_parse w (assistant_details assistant) with
  | Ok (VObj o) => o
  | _ => []
  end.

(** The entry [listAssistants] makes of a stored assistant. *)
Definition optionOf (w : World) (assistant : Assistant) : INodeOptionsValue :=
  mkOption (prop (detailsOf w assistant) "name") (assistant_id assistant)
           (prop (detailsOf w assistant) "instructions").

(** The calls [clearSessionMemory] can make. *)
Definition teardownEvent (ev : Event) : bool :=
  match ev with
  | EvFindAssistant _ | EvFindChatMessage _ | EvGetCredentialData _
  | EvThreadsDel _ | EvLog LogError _ | EvLog LogInfo _ => true
  | _ => false
  end.

Definition isThreadsDel (ev : Event) : bool :=
  match ev with
  | EvThreadsDel _ => true
  | _ => false
  end.

(** A world like [w] whose [JSON.parse] is [parse]. *)
Definition withParse (w : World) (parse : string -> JsResult value) : World :=
  mkWorld (findAssistant w) (findChatMessage w) (getCredentialData w)
    (getCredentialParam w) (getUserHome w) parse (path_join w) (path_dirname w)
    (toBase64 w) (assistants_retrieve w) (assistants_update w) (threads_create w)
    (threads_retrieve w) (threads_del w) (messages_create w) (runs_create w)
    (runs_retrieve w) (runs_submitToolOutputs w) (messages_list w)
    (files_retrieve w) (fetch w) (pipe w).

(** Three stored assistants: two whose details are the documents
    [helper] and [tutor], one whose details are cut short. *)
Definition catalogueParse (s : string) : JsResult value :=
  if String.eqb s "helper"
  then Ok (VObj [("id", VStr "asst_1"); ("name", VStr "Helper");
                 ("instructions", VStr "Be brief")])
  else if String.eqb s "tutor"
  then Ok (VObj [("id", VStr "asst_2"); ("name", VStr "Tutor")])
  else Err (mkJsError "SyntaxError" "Unexpected end of JSON input").

Definition catalogue : World := withParse Sample.plain catalogueParse.

(** A world whose credential holds an empty API key. *)
Definition keyless : World :=
  mkWorld (findAssistant Sample.plain) (findChatMessage Sample.plain)
    (fun _ => Ok (VObj [("openAIApiKey", VStr "")]))
    (getCredentialParam Sample.plain) (getUserHome Sample.plain)
    (JSON_parse Sample.plain) (path_join Sample.plain) (path_dirname Sample.plain)
    (toBase64 Sample.plain) (assistants_retrieve Sample.plain)
    (assistants_update Sample.plain) (threads_create Sample.plain)
    (threads_retrieve Sample.plain) (threads_del Sample.plain)
    (messages_create Sample.plain) (runs_create Sample.plain)
    (runs_retrieve Sample.plain) (runs_submitToolOutputs Sample.plain)
    (messages_list Sample.plain) (files_retrieve Sample.plain)
    (fetch Sample.plain) (pipe Sample.plain).

(** A world like [w] whose run answers every poll by [answers]. *)
Definition withPolls (w : World) (answers : nat -> JsResult Run) : World :=
  mkWorld (findAssistant w) (findChatMessage w) (getCredentialData w)
    (getCredentialParam w) (getUserHome w) (JSON_parse w) (path_join w)
    (path_dirname w) (toBase64 w) (assistants_retrieve w) (assistants_update w)
    (threads_create w) (threads_retrieve w) (threads_del w) (messages_create w)
    (runs_create w) (fun n _ _ => answers n) (runs_submitToolOutputs w)
    (messages_list w) (files_retrieve w) (fetch w) (pipe w).

(** A world whose run asks for an action it never names. *)
Definition stalled : World :=
  withPolls Sample.plain (fun _ => Ok (mkRun "run_1" "requires_action" None)).


(** An entry of the logger of the host. *)
Definition teardownLog (ev : Event) : bool :=
  match ev with
  | EvLog LogError _ | EvLog LogInfo _ => true
  | _ => false
  end.

Definition isToolCall (ev : Event) : bool :=
  match ev with
  | EvToolCall _ _ => true
  | _ => false
  end.

(** The call a used-tool record stands for. *)
Definition callOf (u : IUsedTool) : Event :=
  EvToolCall (ut_tool u) (ut_toolInput u).

(** From [s] to [s'] the log and [usedTools] only grew, and the tool
    calls added to the log are those of the records added to
    [usedTools], in order. *)
Definition Tracks (s s' : St) : Prop :=
  exists evs recs,
    trace s' = trace s ++ evs /\
    usedTools s' = usedTools s ++ recs /\
    filter isToolCall evs = map callOf recs.

Definition notToolCall (ev : Event) : bool := negb (isToolCall ev).

(** When [m] returns a result object, the tool calls [m] added to the
    log are those of its [usedTools], in order. *)
Definition resultTracked (m : M RunResult) : Prop :=
  forall s,
    match m s with
    | (Returned (ResObject o), s') =>
        exists evs,
          trace s' = trace s ++ evs /\
          filter isToolCall evs = map callOf (res_usedTools o)
    | _ => True
    end.

(** [m] keeps the correspondence when it returns, and leaves the timer
    as it found it when it returns or throws. *)
Definition tracking {A : Type} (m : M A) : Prop :=
  forall s,
    match m s with
    | (Returned _, s') => Tracks s s' /\ interval s' = interval s
    | (Threw _, s') => interval s' = interval s
    | _ => True
    end.

(** [m] keeps the correspondence when it returns. *)
Definition tracked {A : Type} (m : M A) : Prop :=
  forall s,
    match m s with
    | (Returned _, s') => Tracks s s'
    | _ => True
    end.

(** A world whose stored chat message names a thread that the remote
    API no longer has. *)
Definition staleSession : World :=
  mkWorld (findAssistant Sample.plain)
    (fun _ => Ok (Some (mkChatMessage "thread_gone")))
    (getCredentialData Sample.plain)
    (getCredentialParam Sample.plain) (getUserHome Sample.plain)
    (JSON_parse Sample.plain) (path_join Sample.plain) (path_dirname Sample.plain)
    (toBase64 Sample.plain) (assistants_retrieve Sample.plain)
    (assistants_update Sample.plain) (threads_create Sample.plain)
    (fun _ => Err (mkJsError "NotFoundError" "No thread found with id 'thread_gone'"))
    (threads_del Sample.plain)
    (messages_create Sample.plain) (runs_create Sample.plain)
    (runs_retrieve Sample.plain) (runs_submitToolOutputs Sample.plain)
    (messages_list Sample.plain) (files_retrieve Sample.plain)
    (fetch Sample.plain) (pipe Sample.plain).

(** What the cache file of an image holds when the body of its download
    has ended: the bytes flushed so far, or what it held before ([old])
    when the write stream has not opened it. *)
Definition fileAfterEnd (flushed : option nat) (body : string) (old : option string)
    : option string :=
  match flushed with
  | Some n => Some (substring 0 n body)
  | None => old
  end.

(** A world like [w] whose downloads are answered by [fetched] and whose
    write stream ends as [piped]. *)
Definition withPipe (w : World) (fetched : JsResult Response) (piped : PipeOutcome)
    : World :=
  mkWorld (findAssistant w) (findChatMessage w) (getCredentialData w)
    (getCredentialParam w) (getUserHome w) (JSON_parse w) (path_join w)
    (path_dirname w) (toBase64 w) (assistants_retrieve w) (assistants_update w)
    (threads_create w) (threads_retrieve w) (threads_del w) (messages_create w)
    (runs_create w) (runs_retrieve w) (runs_submitToolOutputs w)
    (messages_list w) (files_retrieve w) (fun _ _ => fetched) (fun _ _ => piped).

(** A round of the polling: [fst r] polls that settle nothing, then a
    poll that asks for the tool calls [snd r], which are answered and
    submitted. *)
Definition Round : Type := (nat * list ToolCallRequest)%type.

Definition roundCalls (w : World) (tools : list Tool) (r : Round)
    : list (Action * Tool) :=
  matched tools (actionsOf w (snd r)).

(** From poll number [n] on, the run goes through the rounds [rs]: in
    each of them the requests parse, at least one names a local tool,
    every matched tool answers and the submission is accepted. *)
Fixpoint RoundsAnswered (w : World) (tools : list Tool) (threadId runId : string)
    (n : nat) (rs : list Round) : Prop :=
  match rs with
  | [] => True
  | r :: rest =>
      allWaiting w threadId runId n (fst r) = true /\
      (exists asking,
         runs_retrieve w (fst r + n) threadId runId = Ok asking /\
         run_status asking = "requires_action" /\
         run_required_action asking = Some (snd r)) /\
      forallb (parses w) (snd r) = true /\
      forallb succeeds (roundCalls w tools r) = true /\
      roundCalls w tools r <> [] /\
      runs_submitToolOutputs w threadId runId (map toolOutputOf (roundCalls w tools r))
        = Ok tt /\
      RoundsAnswered w tools threadId runId (S (fst r + n)) rest
  end.

(** The polls made during the rounds. *)
Fixpoint roundsPolls (rs : list Round) : nat :=
  match rs with
  | [] => 0
  | r :: rest => roundsPolls rest + S (fst r)
  end.

(** What the rounds log, up to the timer of the next promise being set. *)
Fixpoint roundsEvents (w : World) (tools : list Tool) (threadId runId : string)
    (n : nat) (rs : list Round) : list Event :=
  match rs with
  | [] => []
  | r :: rest =>
      waitEvents w threadId runId n (fst r)
        ++ [EvRunsRetrieve threadId runId; EvClearInterval]
        ++ map toolCallEvent (roundCalls w tools r)
        ++ [EvSubmitToolOutputs threadId runId (map toolOutputOf (roundCalls w tools r))]
        ++ [EvSetInterval]
        ++ roundsEvents w tools threadId runId (S (fst r + n)) rest
  end.

(** The records the rounds add to [usedTools]. *)
Definition roundsRecords (w : World) (tools : list Tool) (rs : list Round)
    : list IUsedTool :=
  flat_map (fun r => map usedToolOf (roundCalls w tools r)) rs.

(** Every round ends within [ticks] firings of its timer. *)
Definition roundsWithin (ticks : nat) (rs : list Round) : bool :=
  forallb (fun r : Round => Nat.ltb (fst r) ticks) rs.

(** A world whose first poll asks for the calculator and whose second
    poll is answered by [next]. *)
Definition calculatorThen (next : JsResult Run) : World :=
  Sample.world [] None
    [Sample.requiring [Sample.callReq "call_1" "calculator" "{}"]; next]
    (Sample.answer "Hello") (Err (newError "offline")) (Ok tt).

Definition calculatorRound : Round :=
  (0, [Sample.callReq "call_1" "calculator" "{}"]).

Definition calculatorOnly : NodeData :=
  Sample.nodeDataWith (Some [OneTool Sample.calculator]).

(* ================================================================== *)
(** ** What [uniqWith] computes *)

Section UniqWith.

Variable A : Type.
Variable comparator : A -> A -> bool.

Lemma baseUniq_extends (array result : list A) :
  exists added, baseUniq comparator result array = result ++ added.
Proof.
  revert result.
  induction array as [|v rest IH]; intro result; simpl.
  - exists []. now rewrite app_nil_r.
  - destruct (arrayIncludesWith result v comparator).
    + apply IH.
    + destruct (IH (result ++ [v])) as [added E].
      exists (v :: added). rewrite E, <- app_assoc. reflexivity.
Qed.

Lemma baseUniq_members (array result : list A) (x : A) :
  In x (baseUniq comparator result array) -> In x result \/ In x array.
Proof.
  revert result.
  induction array as [|v rest IH]; intro result; simpl.
  - auto.
  - destruct (arrayIncludesWith result v comparator); intro Hin.
    + destruct (IH _ Hin); auto.
    + destruct (IH _ Hin) as [Hr | Hr]; auto.
      apply in_app_or in Hr. destruct Hr as [Hr | [Hr | []]]; auto.
Qed.

Lemma baseUniq_keeps_result (array result : list A) (x : A) :
  In x result -> In x (baseUniq comparator result array).
Proof.
  intro Hin.
  destruct (baseUniq_extends array result) as [added E].
  rewrite E. apply in_or_app. now left.
Qed.

Lemma baseUniq_covers (array result : list A) (x : A) :
  In x array ->
  In x (baseUniq comparator result array) \/
  exists y, In y (baseUniq comparator result array) /\ comparator x y = true.
Proof.
  revert result.
  induction array as [|v rest IH]; intros result Hin; simpl in *.
  - contradiction.
  - destruct Hin as [-> | Hin].
    + destruct (arrayIncludesWith result x comparator) eqn:E.
      * right. unfold arrayIncludesWith in E.
        apply existsb_exists in E. destruct E as [y [Hy Hc]].
        exists y. split; [now apply baseUniq_keeps_result | exact Hc].
      * left. apply baseUniq_keeps_result. apply in_or_app. right. now left.
    + destruct (arrayIncludesWith result v comparator); now apply IH.
Qed.

Lemma baseUniq_keptOnce (array result : list A) :
  KeptOnce comparator result -> KeptOnce comparator (baseUniq comparator result array).
Proof.
  revert result.
  induction array as [|v rest IH]; intros result K; simpl.
  - exact K.
  - destruct (arrayIncludesWith result v comparator) eqn:E.
    + now apply IH.
    + apply IH. now constructor.
Qed.

Lemma keptOnce_split (l : list A) :
  KeptOnce comparator l ->
  forall before y after, l = before ++ y :: after ->
    forall x, In x before -> comparator y x = false.
Proof.
  induction 1 as [|l v K IH Hv]; intros before y after E x Hx.
  - destruct before; discriminate.
  - destruct after as [|z after'] using rev_ind.
    + apply app_inj_tail in E. destruct E as [-> ->].
      unfold arrayIncludesWith in Hv.
      destruct (comparator y x) eqn:C; [|reflexivity].
      assert (existsb (fun seen => comparator y seen) before = true) as T
        by (apply existsb_exists; eauto).
      congruence.
    + clear IHafter'.
      change (before ++ y :: after' ++ [z]) with (before ++ (y :: after') ++ [z]) in E.
      rewrite app_assoc in E.
      apply app_inj_tail in E. destruct E as [E _].
      exact (IH _ _ _ E x Hx).
Qed.

Lemma uniqWith_dedupedUnion (array : list A) :
  DedupedUnion comparator array (uniqWith array comparator).
Proof.
  unfold DedupedUnion, uniqWith. repeat split.
  - intros x Hin. apply baseUniq_members in Hin. destruct Hin as [[] | Hin]; exact Hin.
  - intros x Hin. now apply baseUniq_covers.
  - apply keptOnce_split. apply baseUniq_keptOnce. constructor.
Qed.

End UniqWith.

Lemma keepTool_false_iff (tool : JsObject) :
  keepTool tool = false <-> lacksFunctionBody tool.
Proof.
  unfold keepTool, lacksFunctionBody, strictEqStr.
  destruct (prop tool "type") as [| |b|z|t|l|l]; simpl;
    try (split; [discriminate | intros [H _]; discriminate]).
  destruct (String.eqb_spec t "function") as [-> | N]; simpl.
  - destruct (truthy (prop tool "function")); simpl; split; intro H;
      try discriminate; auto.
    destruct H; discriminate.
  - split; [discriminate | intros [H _]; congruence].
Qed.

(** A formatted local tool always carries its function body. *)
Lemma keepTool_formatted (tool : Tool) :
  keepTool (formatToOpenAIAssistantTool tool) = true.
Proof. reflexivity. Qed.

(** A remote entry deeply equal to a formatted local tool carries a
    function body as well. *)
Lemma keepTool_of_isEqual (tool : Tool) (remote : JsObject) :
  isEqualTool (formatToOpenAIAssistantTool tool) remote = true ->
  keepTool remote = true.
Proof.
  unfold isEqualTool, formatToOpenAIAssistantTool, keepTool, prop.
  cbn [isEqual].
  intro H. apply andb_prop in H. destruct H as [_ H].
  destruct (lookupProp "type" remote) as [ty|]; [|discriminate].
  apply andb_prop in H. destruct H as [Hty H].
  destruct (lookupProp "function" remote) as [fn|]; [|discriminate].
  apply andb_prop in H. destruct H as [Hfn _].
  destruct fn; try discriminate.
  simpl. now rewrite andb_false_r.
Qed.

(** Lines 145-146 on remote tools [[A]] and local tools [[a; b]] where
    the formatted [a] is deeply equal to [A]. *)
Lemma filteredTools_one_known (A : JsObject) (a b : Tool) :
  isEqualTool (formatToOpenAIAssistantTool a) A = true ->
  filteredTools [A] (map formatToOpenAIAssistantTool [a; b]) =
    A :: (if isEqualTool (formatToOpenAIAssistantTool b) A
          then [] else [formatToOpenAIAssistantTool b]).
Proof.
  intro H.
  pose proof (keepTool_of_isEqual a A H) as KA.
  unfold filteredTools, uniqWith. cbn [map app baseUniq arrayIncludesWith existsb].
  cbn [app]. cbn [existsb]. rewrite H. cbn [orb].
  destruct (isEqualTool (formatToOpenAIAssistantTool b) A); cbn [orb app filter].
  - now rewrite KA.
  - rewrite KA. now rewrite keepTool_formatted.
Qed.

(* ================================================================== *)
(** ** Reasoning about the log of calls *)

Lemma logged_logged (e1 e2 : list Event) (s : St) :
  logged e2 (logged e1 s) = logged (e1 ++ e2) s.
Proof. unfold logged; simpl. now rewrite app_assoc. Qed.

Lemma call_ok {A : Type} (ev : Event) (a : A) (s : St) :
  call ev (Ok a) s = (Returned a, logged [ev] s).
Proof. reflexivity. Qed.

Lemma call_err {A : Type} (ev : Event) (e : JsError) (s : St) :
  @call A ev (Err e) s = (Threw e, logged [ev] s).
Proof. reflexivity. Qed.

Section Appends.

Variable P : Event -> bool.

Lemma appends_nothing {A : Type} (m : M A) :
  (forall s, trace (snd (m s)) = trace s) -> appends P m.
Proof.
  intros H s. exists []. rewrite H, app_nil_r. auto.
Qed.

Lemma appends_ret {A : Type} (a : A) : appends P (ret a).
Proof. now apply appends_nothing. Qed.

Lemma appends_throw {A : Type} (e : JsError) : appends P (@throw A e).
Proof. now apply appends_nothing. Qed.

Lemma appends_hang {A : Type} : appends P (@hang A).
Proof. now apply appends_nothing. Qed.

Lemma appends_outOfFuel {A : Type} : appends P (@outOfFuel A).
Proof. now apply appends_nothing. Qed.

Lemma appends_getSt : appends P getSt.
Proof. now apply appends_nothing. Qed.

Lemma appends_await {A : Type} (r : JsResult A) : appends P (await r).
Proof. destruct r; now apply appends_nothing. Qed.

Lemma appends_emit (ev : Event) : P ev = true -> appends P (emit ev).
Proof.
  intros H s. exists [ev]. simpl. now rewrite H.
Qed.

Lemma appends_bind {A B : Type} (m : M A) (k : A -> M B) :
  appends P m -> (forall a, appends P (k a)) -> appends P (bind m k).
Proof.
  intros Hm Hk s. unfold bind.
  destruct (Hm s) as [evs1 [E1 F1]].
  destruct (m s) as [[a|e| |] s1]; simpl in E1;
    try (exists evs1; simpl; now split).
  destruct (Hk a s1) as [evs2 [E2 F2]].
  exists (evs1 ++ evs2). split.
  - now rewrite E2, E1, app_assoc.
  - rewrite forallb_app, F1, F2. reflexivity.
Qed.

Lemma appends_tryCatch {A : Type} (m : M A) (handler : JsError -> M A) :
  appends P m -> (forall e, appends P (handler e)) -> appends P (tryCatch m handler).
Proof.
  intros Hm Hh s. unfold tryCatch.
  destruct (Hm s) as [evs1 [E1 F1]].
  destruct (m s) as [[a|e| |] s1]; simpl in E1;
    try (exists evs1; simpl; now split).
  destruct (Hh e s1) as [evs2 [E2 F2]].
  exists (evs1 ++ evs2). split.
  - now rewrite E2, E1, app_assoc.
  - rewrite forallb_app, F1, F2. reflexivity.
Qed.

Lemma appends_call {A : Type} (ev : Event) (r : JsResult A) :
  P ev = true -> appends P (call ev r).
Proof.
  intro H. unfold call. apply appends_bind.
  - now apply appends_emit.
  - intros _. apply appends_await.
Qed.

Lemma appends_setInterval : P EvSetInterval = true -> appends P setInterval.
Proof. intros H s. exists [EvSetInterval]. simpl. now rewrite H. Qed.

Lemma appends_clearInterval : P EvClearInterval = true -> appends P clearInterval.
Proof. intros H s. exists [EvClearInterval]. simpl. now rewrite H. Qed.

Lemma appends_mkdirSync (path : string) :
  P (EvMkdir path) = true -> appends P (mkdirSync path).
Proof. intros H s. exists [EvMkdir path]. simpl. now rewrite H. Qed.

End Appends.

Lemma appends_weaken {A : Type} (P Q : Event -> bool) (m : M A) :
  (forall ev, P ev = true -> Q ev = true) -> appends P m -> appends Q m.
Proof.
  intros HPQ Hm s. destruct (Hm s) as [evs [E F]].
  exists evs. split; [exact E|].
  rewrite forallb_forall in *. auto.
Qed.

(** One step of a proof that a computation only appends events of a
    kind: descend into the computation. *)
Ltac frame_step :=
  lazymatch goal with
  | |- appends _ (bind _ _) => apply appends_bind; [|intro]
  | |- appends _ (ret _) => apply appends_ret
  | |- appends _ (throw _) => apply appends_throw
  | |- appends _ hang => apply appends_hang
  | |- appends _ outOfFuel => apply appends_outOfFuel
  | |- appends _ getSt => apply appends_getSt
  | |- appends _ (await _) => apply appends_await
  | |- appends _ (emit _) => apply appends_emit; reflexivity
  | |- appends _ (call _ _) => apply appends_call; reflexivity
  | |- appends _ setInterval => apply appends_setInterval; reflexivity
  | |- appends _ clearInterval => apply appends_clearInterval; reflexivity
  | |- appends _ (mkdirSync _) => apply appends_mkdirSync; reflexivity
  | |- appends _ (tryCatch _ _) => apply appends_tryCatch; [|intro]
  | |- appends _ (pushUsedTool _) => now apply appends_nothing
  | |- appends _ newUsedTools => now apply appends_nothing
  | |- appends _ countPoll => now apply appends_nothing
  | |- appends _ (existsSync _) => now apply appends_nothing
  | |- appends _ (storeFile _ _) => now apply appends_nothing
  | |- appends _ (readFileSync _) => unfold readFileSync
  | |- appends _ (getMember _ _) => unfold getMember
  | |- appends _ (match ?x with _ => _ end) => destruct x
  end.

Ltac frame := repeat frame_step.

Section Frames.

Variable w : World.

Lemma downloadFile_appends (P : Event -> bool) fileObj filePath dirPath key :
  (forall ev, lateEvent ev = true -> P ev = true) ->
  appends P (downloadFile w fileObj filePath dirPath key).
Proof.
  intro HP. apply appends_weaken with (P := lateEvent); [exact HP|].
  unfold downloadFile. cbv zeta. frame.
Qed.

Lemma parseActions_appends (P : Event -> bool) tool_calls actions :
  appends P (parseActions w tool_calls actions).
Proof.
  revert actions. induction tool_calls as [|item rest IH]; intro actions; simpl.
  - frame.
  - frame. apply IH.
Qed.

Lemma callTools_appends tools actions outs :
  appends lateEvent (callTools tools actions outs).
Proof.
  revert outs. induction actions as [|action rest IH]; intro outs; simpl.
  - frame.
  - destruct (findTool tools (act_tool action)); [|apply IH].
    frame. apply IH.
Qed.

Lemma callback_appends tools threadId runId :
  appends lateEvent (callback w tools threadId runId).
Proof.
  unfold callback. frame; try apply parseActions_appends; try apply callTools_appends.
Qed.

Lemma fire_appends ticks tools threadId runId :
  appends lateEvent (fire w ticks tools threadId runId).
Proof.
  induction ticks as [|ticks IH]; simpl.
  - frame.
  - frame; try apply callback_appends; try exact IH.
Qed.

Lemma promise_appends ticks tools threadId runId :
  appends lateEvent (promise w ticks tools threadId runId).
Proof. unfold promise. frame. apply fire_appends. Qed.

Lemma whileRequiresAction_appends rounds ticks tools threadId runId state :
  appends lateEvent (whileRequiresAction w rounds ticks tools threadId runId state).
Proof.
  revert state. induction rounds as [|rounds IH]; intro state; simpl.
  - frame.
  - frame; [apply promise_appends | apply IH].
Qed.

Lemma renderContent_appends content key returnVal :
  appends lateEvent (renderContent w content key returnVal).
Proof.
  revert returnVal. induction content as [|part rest IH]; intro returnVal; simpl.
  - frame.
  - destruct part; [apply IH| |frame].
    frame; try apply IH. now apply downloadFile_appends.
Qed.

Lemma assemble_appends key id threadId runThread :
  appends lateEvent (assemble w key id threadId runThread).
Proof.
  unfold assemble. cbv zeta. frame. apply renderContent_appends.
Qed.

Lemma pollAndAssemble_appends fuel tools key id threadId runThread :
  appends lateEvent (pollAndAssemble w fuel tools key id threadId runThread).
Proof.
  unfold pollAndAssemble.
  frame; try apply promise_appends; try apply whileRequiresAction_appends;
    try apply assemble_appends.
Qed.

End Frames.

(* ================================================================== *)
(** ** Properties of [run] and [clearSessionMemory] *)

Lemma late_notUpdate (ev : Event) : lateEvent ev = true -> notUpdate ev = true.
Proof. destruct ev; simpl; auto; discriminate. Qed.

Lemma run_without_tools_appends (w : World) fuel nodeData input options :
  flatten (nd_tools nodeData) = [] ->
  appends notUpdate (run w fuel nodeData input options).
Proof.
  intro H. unfold run, runBody. cbv zeta. rewrite H. cbn [map].
  frame.
  apply appends_weaken with (P := lateEvent); [exact late_notUpdate|].
  apply pollAndAssemble_appends.
Qed.

(** C8.  When the local tool list is empty (absent, empty, or made of
    empty arrays only), an invocation of [run] makes no
    [assistants.update] call, whatever the collaborators answer and
    however the invocation ends: the calls it adds to the log contain no
    update, so the tool configuration of the remote assistant is not
    written. *)
Theorem C8_no_update_without_local_tools :
  forall (w : World) (fuel : nat) (nodeData : NodeData) (input : string)
         (options : Options) (s : St),
    flatten (nd_tools nodeData) = [] ->
    exists evs,
      trace (snd (run w fuel nodeData input options s)) = trace s ++ evs /\
      forall id tools, ~ In (EvAssistantsUpdate id tools) evs.
Proof.
  intros w fuel nodeData input options s H.
  destruct (run_without_tools_appends w fuel nodeData input options H s) as [evs [E F]].
  exists evs. split; [exact E|].
  intros id tools Hin.
  rewrite forallb_forall in F. specialize (F _ Hin). discriminate.
Qed.

Lemma C8_witness :
  flatten (nd_tools (Sample.nodeDataWith (Some [ToolArray []]))) = [] /\
  exists evs,
    trace (snd (run Sample.plain 3 (Sample.nodeDataWith (Some [ToolArray []])) "hi"
                    Sample.options (initialSt [] []))) = trace (initialSt [] []) ++ evs /\
    forall id tools, ~ In (EvAssistantsUpdate id tools) evs.
Proof.
  split; [reflexivity|].
  apply (C8_no_update_without_local_tools Sample.plain 3
           (Sample.nodeDataWith (Some [ToolArray []])) "hi" Sample.options
           (initialSt [] [])).
  reflexivity.
Defined.

(* ------------------------------------------------------------------ *)
(** *** Session teardown *)

(** C9, counterexample.  The stored assistant, the chat message and the
    API key all resolve, the remote deletion of the thread fails: the
    error reaches the caller of [clearSessionMemory]. *)
Lemma C9_counterexample :
  threads_del undeletable (Some "thread_9")
    = Err (mkJsError "NotFoundError" "No thread found with id 'thread_9'") /\
  fst (clearSessionMemory undeletable (Sample.nodeDataWith None) Sample.options
         (initialSt [] []))
    = Threw (mkJsError "NotFoundError" "No thread found with id 'thread_9'").
Proof. split; reflexivity. Qed.

(** C9, as amended.  [clearSessionMemory] reports the three resolution
    failures by logging only and returns normally: a missing stored
    assistant, a missing chat message record, a missing API key.  Once
    everything resolves it deletes the remote thread; a failure of that
    deletion is not caught and is thrown to the caller, and only a
    successful deletion makes the function return. *)
Theorem C9_session_teardown_reporting :
  forall (w : World) (nodeData : NodeData) (options : Options) (s : St),
    let selected := nd_selectedAssistant nodeData in
    (findAssistant w selected = Ok None ->
     clearSessionMemory w nodeData options s =
       (Returned tt,
        logged [EvFindAssistant selected;
                EvLog LogError ("Assistant " ++ tmpl selected ++ " not found")] s)) /\
    (forall assistant,
       findAssistant w selected = Ok (Some assistant) ->
       negb (truthyStr (nd_sessionId nodeData)) && truthyStr (chatId options) = true ->
       findChatMessage w (chatId options) = Ok None ->
       clearSessionMemory w nodeData options s =
         (Returned tt,
          logged [EvFindAssistant selected;
                  EvFindChatMessage (chatId options);
                  EvLog LogError ("Chat Message with Chat Id: "
                                    ++ tmpl (chatId options) ++ " not found")] s)) /\
    (forall assistant session lookups credentialData,
       findAssistant w selected = Ok (Some assistant) ->
       SessionResolves w nodeData options session lookups ->
       getCredentialData w (credentialOrEmpty assistant) = Ok credentialData ->
       (truthyStr (getCredentialParam w "openAIApiKey" credentialData nodeData) = false ->
        clearSessionMemory w nodeData options s =
          (Returned tt,
           logged ([EvFindAssistant selected] ++ lookups ++
                   [EvGetCredentialData (credentialOrEmpty assistant);
                    EvLog LogError "OpenAI ApiKey not found"]) s)) /\
       (truthyStr (getCredentialParam w "openAIApiKey" credentialData nodeData) = true ->
        clearSessionMemory w nodeData options s =
          match threads_del w session with
          | Ok _ =>
              (Returned tt,
               logged ([EvFindAssistant selected] ++ lookups ++
                       [EvGetCredentialData (credentialOrEmpty assistant);
                        EvLog LogInfo ("Clearing OpenAI Thread " ++ tmpl session);
                        EvThreadsDel session;
                        EvLog LogInfo ("Successfully cleared OpenAI Thread "
                                         ++ tmpl session)]) s)
          | Err e =>
              (Threw e,
               logged ([EvFindAssistant selected] ++ lookups ++
                       [EvGetCredentialData (credentialOrEmpty assistant);
                        EvLog LogInfo ("Clearing OpenAI Thread " ++ tmpl session);
                        EvThreadsDel session]) s)
          end)).
Proof.
  intros w nodeData options s selected.
  split; [|split].
  - intro H. unfold clearSessionMemory. fold selected.
    unfold bind at 1. rewrite H, call_ok.
    unfold emit. now rewrite logged_logged.
  - intros assistant H Hc Hm. unfold clearSessionMemory. fold selected.
    unfold bind at 1. rewrite H, call_ok. cbv zeta. rewrite Hc.
    unfold bind at 1. rewrite Hm, call_ok.
    unfold emit. now rewrite !logged_logged.
  - intros assistant session lookups credentialData H HS Hcred.
    assert (forall sid st,
              bind (call (EvGetCredentialData (credentialOrEmpty assistant))
                      (getCredentialData w (credentialOrEmpty assistant)))
                   (fun credentialData0 =>
                      if negb (truthyStr (getCredentialParam w "openAIApiKey"
                                            credentialData0 nodeData))
                      then emit (EvLog LogError "OpenAI ApiKey not found")
                      else
                        emit (EvLog LogInfo ("Clearing OpenAI Thread " ++ tmpl sid)) ;;;
                        call (EvThreadsDel sid) (threads_del w sid) ;;;
                        emit (EvLog LogInfo ("Successfully cleared OpenAI Thread "
                                               ++ tmpl sid))) st
              = if negb (truthyStr (getCredentialParam w "openAIApiKey"
                                      credentialData nodeData))
                then (Returned tt,
                      logged [EvGetCredentialData (credentialOrEmpty assistant);
                              EvLog LogError "OpenAI ApiKey not found"] st)
                else match threads_del w sid with
                     | Ok _ =>
                         (Returned tt,
                          logged [EvGetCredentialData (credentialOrEmpty assistant);
                                  EvLog LogInfo ("Clearing OpenAI Thread " ++ tmpl sid);
                                  EvThreadsDel sid;
                                  EvLog LogInfo ("Successfully cleared OpenAI Thread "
                                                   ++ tmpl sid)] st)
                     | Err e =>
                         (Threw e,
                          logged [EvGetCredentialData (credentialOrEmpty assistant);
                                  EvLog LogInfo ("Clearing OpenAI Thread " ++ tmpl sid);
                                  EvThreadsDel sid] st)
                     end) as Tail.
    { intros sid st. unfold bind at 1. rewrite Hcred, call_ok.
      destruct (negb (truthyStr (getCredentialParam w "openAIApiKey"
                                   credentialData nodeData))).
      - unfold emit. now rewrite logged_logged.
      - unfold bind, emit, call, bind, emit.
        destruct (threads_del w sid) as [u|e]; simpl; now rewrite !logged_logged. }
    assert (clearSessionMemory w nodeData options s
            = if negb (truthyStr (getCredentialParam w "openAIApiKey"
                                    credentialData nodeData))
              then (Returned tt,
                    logged ([EvFindAssistant selected] ++ lookups ++
                            [EvGetCredentialData (credentialOrEmpty assistant);
                             EvLog LogError "OpenAI ApiKey not found"]) s)
              else match threads_del w session with
                   | Ok _ =>
                       (Returned tt,
                        logged ([EvFindAssistant selected] ++ lookups ++
                                [EvGetCredentialData (credentialOrEmpty assistant);
                                 EvLog LogInfo ("Clearing OpenAI Thread " ++ tmpl session);
                                 EvThreadsDel session;
                                 EvLog LogInfo ("Successfully cleared OpenAI Thread "
                                                  ++ tmpl session)]) s)
                   | Err e =>
                       (Threw e,
                        logged ([EvFindAssistant selected] ++ lookups ++
                                [EvGetCredentialData (credentialOrEmpty assistant);
                                 EvLog LogInfo ("Clearing OpenAI Thread " ++ tmpl session);
                                 EvThreadsDel session]) s)
                   end) as Main.
    { unfold clearSessionMemory. fold selected.
      unfold bind at 1. rewrite H, call_ok. cbv zeta.
      destruct HS as [[Hc [-> ->]] | [Hc [chatmsg [Hm [-> ->]]]]]; rewrite Hc.
      - rewrite Tail.
        destruct (negb (truthyStr (getCredentialParam w "openAIApiKey"
                                     credentialData nodeData))).
        + now rewrite logged_logged.
        + destruct (threads_del w (nd_sessionId nodeData));
            now rewrite logged_logged.
      - unfold bind at 1. rewrite Hm, call_ok. rewrite Tail.
        destruct (negb (truthyStr (getCredentialParam w "openAIApiKey"
                                     credentialData nodeData))).
        + now rewrite !logged_logged.
        + destruct (threads_del w (Some (cm_sessionId chatmsg)));
            now rewrite !logged_logged. }
    split; intro Hk; rewrite Main, Hk; reflexivity.
Qed.

Lemma C9_witness :
  clearSessionMemory undeletable (Sample.nodeDataWith None) Sample.options
    (initialSt [] [])
  = (Threw (mkJsError "NotFoundError" "No thread found with id 'thread_9'"),
     logged [EvFindAssistant (Some "a-1");
             EvFindChatMessage (Some "chat-1");
             EvGetCredentialData "cred-1";
             EvLog LogInfo "Clearing OpenAI Thread thread_9";
             EvThreadsDel (Some "thread_9")] (initialSt [] [])).
Proof.
  destruct (C9_session_teardown_reporting undeletable (Sample.nodeDataWith None)
              Sample.options (initialSt [] [])) as [_ [_ H]].
  assert (SessionResolves undeletable (Sample.nodeDataWith None) Sample.options
            (Some "thread_9") [EvFindChatMessage (Some "chat-1")]) as R.
  { right. split; [reflexivity|].
    exists (mkChatMessage "thread_9"). repeat split; reflexivity. }
  destruct (H Sample.storedAssistant (Some "thread_9")
              [EvFindChatMessage (Some "chat-1")]
              (VObj [("openAIApiKey", VStr "sk-1")]) eq_refl R eq_refl) as [_ H2].
  exact (H2 eq_refl).
Defined.

(* ------------------------------------------------------------------ *)
(** *** Reaching the polling phase *)

Ltac run_call H := unfold bind at 1; rewrite H, call_ok; cbv beta iota.

Lemma truthyStr_key (key : string) :
  String.eqb key "" = false -> negb (truthyStr (Some key)) = false.
Proof. intro H. simpl. now rewrite H. Qed.

Lemma run_starts (w : World) fuel nodeData input options su s :
  Starts w nodeData input options su ->
  run w fuel nodeData input options s =
    tryCatch
      (pollAndAssemble w fuel (flatten (nd_tools nodeData)) (su_key su)
         (prop (su_details su) "id") (thread_id (su_thread su)) (su_run su))
      rethrow
      (logged (startTrace nodeData input options su) s).
Proof.
  intros [[Ha [[cred [Hc Hk]] [Hne [Hp Hr]]]] [Hu [Hm [Ht [Hmsg Hrun]]]]].
  unfold run. cbv zeta.
  run_call Ha. run_call Hc. rewrite Hk, (truthyStr_key _ Hne).
  unfold tryCatch, runBody. fold (formattedToolsOf nodeData).
  unfold bind at 1. rewrite Hp. cbn [await ret].
  unfold bind at 1. cbn [getMember ret].
  run_call Hr.
  unfold startTrace, updateTrace, threadTrace, resolveTrace.
  destruct (formattedToolsOf nodeData) as [|f fs] eqn:Ef.
  - unfold bind at 1. cbn [ret].
    run_call Hm.
    destruct (su_chat su) as [chatmessage|];
      run_call Ht; run_call Hmsg; run_call Hrun;
      rewrite !logged_logged; reflexivity.
  - destruct Hu as [Hu | Hu]; [discriminate|].
    run_call Hu. run_call Hm.
    destruct (su_chat su) as [chatmessage|];
      run_call Ht; run_call Hmsg; run_call Hrun;
      rewrite !logged_logged; reflexivity.
Qed.

(* ------------------------------------------------------------------ *)
(** *** One firing of the timer *)

Ltac st_eq :=
  unfold after, logged, armed;
  cbn [trace files dirs polls interval usedTools];
  rewrite <- ?app_assoc, ?app_nil_r; cbn [app];
  try reflexivity; f_equal; try reflexivity; try lia.

Lemma after_after evs1 n1 b1 recs1 evs2 n2 b2 recs2 s :
  after evs2 n2 b2 recs2 (after evs1 n1 b1 recs1 s)
  = after (evs1 ++ evs2) (n2 + n1) b2 (recs1 ++ recs2) s.
Proof. unfold after; simpl. f_equal; rewrite ?app_assoc; try reflexivity; lia. Qed.

Section Polling.

Variable w : World.

Lemma parseActions_ok tool_calls actions s :
  forallb (parses w) tool_calls = true ->
  parseActions w tool_calls actions s
  = (Returned (actions ++ actionsOf w tool_calls), s).
Proof.
  revert actions. induction tool_calls as [|item rest IH]; intros actions H; simpl in *.
  - now rewrite app_nil_r.
  - apply andb_prop in H. destruct H as [Hi Hr].
    unfold parses in Hi. unfold parsedArguments.
    unfold bind. destruct (JSON_parse w (tc_function_arguments item)) as [v|e];
      [|discriminate].
    cbn [await ret]. rewrite (IH _ Hr), <- app_assoc. reflexivity.
Qed.


Lemma callTools_matched_cons tools action rest :
  matched tools (action :: rest)
  = match findTool tools (act_tool action) with
    | Some tool => (action, tool) :: matched tools rest
    | None => matched tools rest
    end.
Proof.
  unfold matched; simpl. now destruct (findTool tools (act_tool action)).
Qed.

Lemma callTools_ok tools actions outs s :
  forallb succeeds (matched tools actions) = true ->
  callTools tools actions outs s
  = (Returned (outs ++ map toolOutputOf (matched tools actions)),
     after (map toolCallEvent (matched tools actions)) 0 (interval s)
           (map usedToolOf (matched tools actions)) s).
Proof.
  revert outs s. induction actions as [|action rest IH]; intros outs s H.
  - simpl. rewrite app_nil_r. unfold ret. f_equal. destruct s; st_eq.
  - rewrite callTools_matched_cons in *. simpl.
    destruct (findTool tools (act_tool action)) as [tool|] eqn:F.
    + simpl in H. apply andb_prop in H. destruct H as [Ht Hr].
      unfold succeeds in Ht. simpl in Ht.
      unfold bind at 1. unfold call, bind, emit.
      destruct (tool_call tool (act_toolInput action)) as [out|e] eqn:E;
        [|discriminate].
      cbn [await ret]. unfold pushUsedTool. rewrite (IH _ _ Hr).
      assert (outputOf (action, tool) = out) as Ho
        by (unfold outputOf; cbn [fst snd]; now rewrite E).
      cbn [map]. unfold toolOutputOf at 2, usedToolOf at 2, toolCallEvent at 2.
      rewrite Ho. cbn [fst snd].
      rewrite <- app_assoc. f_equal. st_eq.
    + now apply IH.
Qed.


End Polling.

Section Firing.

Variable w : World.
Variable tools : list Tool.
Variables threadId runId : string.

Let retrieved : list Event := [EvRunsRetrieve threadId runId].
Let cleared : list Event := [EvRunsRetrieve threadId runId; EvClearInterval].

Lemma callback_polls s :
  callback w tools threadId runId s
  = bind (call (EvRunsRetrieve threadId runId)
               (runs_retrieve w (polls s) threadId runId))
         (fun run =>
            let state := run_status run in
            if String.eqb state "completed" then
              clearInterval ;;;
              ret (Some (Ok state))
            else if String.eqb state "requires_action" then
              match run_required_action run with
              | Some tool_calls =>
                  clearInterval ;;;
                  actions <- parseActions w tool_calls [] ;;
                  submitToolOutputs <- callTools tools actions [] ;;
                  match submitToolOutputs with
                  | _ :: _ =>
                      call (EvSubmitToolOutputs threadId runId submitToolOutputs)
                           (runs_submitToolOutputs w threadId runId submitToolOutputs) ;;;
                      ret (Some (Ok state))
                  | [] =>
                      ret (Some (Err (newError
                             (processingError state threadId runId
                                ++ ". submit_tool_outputs.tool_calls are empty"))))
                  end
              | None => ret None
              end
            else if String.eqb state "cancelled" || String.eqb state "expired"
                    || String.eqb state "failed" then
              clearInterval ;;;
              ret (Some (Err (newError (processingError state threadId runId))))
            else ret None)
         (after [] 1 (interval s) [] s).
Proof.
  unfold callback. unfold bind at 1. unfold countPoll.
  replace (after [] 1 (interval s) [] s)
    with (mkSt (trace s) (files s) (dirs s) (S (polls s)) (interval s) (usedTools s))
    by (unfold after; simpl; now rewrite !app_nil_r).
  reflexivity.
Qed.

Lemma callback_retrieve_fails s e :
  runs_retrieve w (polls s) threadId runId = Err e ->
  callback w tools threadId runId s
  = (Threw e, after retrieved 1 (interval s) [] s).
Proof.
  intro H. rewrite callback_polls. unfold bind. rewrite H, call_err.
  f_equal. st_eq.
Qed.

Lemma callback_completed s run :
  runs_retrieve w (polls s) threadId runId = Ok run ->
  run_status run = "completed" ->
  callback w tools threadId runId s
  = (Returned (Some (Ok "completed")), after cleared 1 false [] s).
Proof.
  intros H Hs. rewrite callback_polls. unfold bind at 1. rewrite H, call_ok.
  cbv beta iota zeta. rewrite Hs. cbn [String.eqb Ascii.eqb Bool.eqb].
  unfold bind, clearInterval, ret. f_equal. st_eq.
Qed.

Lemma callback_terminal s run :
  runs_retrieve w (polls s) threadId runId = Ok run ->
  isTerminal (run_status run) = true ->
  callback w tools threadId runId s
  = (Returned (Some (Err (newError (processingError (run_status run) threadId runId)))),
     after cleared 1 false [] s).
Proof.
  intros H Hs. rewrite callback_polls. unfold bind at 1. rewrite H, call_ok.
  cbv beta iota zeta. unfold isTerminal in Hs.
  destruct (String.eqb_spec (run_status run) "completed") as [E|_].
  { rewrite E in Hs. discriminate. }
  destruct (String.eqb_spec (run_status run) "requires_action") as [E|_].
  { rewrite E in Hs. discriminate. }
  rewrite Hs.
  unfold bind, clearInterval, ret. f_equal. st_eq.
Qed.

Lemma callback_waiting s run :
  runs_retrieve w (polls s) threadId runId = Ok run ->
  waiting (Ok run) = true ->
  callback w tools threadId runId s
  = (Returned None, after retrieved 1 (interval s) [] s).
Proof.
  intros H Hw. rewrite callback_polls. unfold bind at 1. rewrite H, call_ok.
  cbv beta iota zeta. unfold waiting in Hw.
  destruct (String.eqb (run_status run) "completed"); [discriminate|].
  destruct (String.eqb (run_status run) "requires_action").
  - destruct (run_required_action run); [discriminate|].
    unfold ret. f_equal. st_eq.
  - apply negb_true_iff in Hw. rewrite Hw.
    unfold ret. f_equal. st_eq.
Qed.

(** The callback on a poll that asks for tool calls, up to the end of the
    [for] loop. *)
Lemma callback_requires s run tool_calls :
  runs_retrieve w (polls s) threadId runId = Ok run ->
  run_status run = "requires_action" ->
  run_required_action run = Some tool_calls ->
  callback w tools threadId runId s
  = bind (actions <- parseActions w tool_calls [] ;;
          callTools tools actions [])
         (fun submitToolOutputs =>
            match submitToolOutputs with
            | _ :: _ =>
                call (EvSubmitToolOutputs threadId runId submitToolOutputs)
                     (runs_submitToolOutputs w threadId runId submitToolOutputs) ;;;
                ret (Some (Ok "requires_action"))
            | [] => ret (Some (Err (emptyCallsError threadId runId)))
            end)
         (after cleared 1 false [] s).
Proof.
  intros H Hs Hr. rewrite callback_polls. unfold bind at 1. rewrite H, call_ok.
  cbv beta iota zeta. rewrite Hs, Hr. cbn [String.eqb Ascii.eqb Bool.eqb].
  unfold bind at 1. unfold clearInterval.
  replace (armed false (logged [EvClearInterval]
             (logged [EvRunsRetrieve threadId runId] (after [] 1 (interval s) [] s))))
    with (after cleared 1 false [] s) by st_eq.
  unfold bind. destruct (parseActions w tool_calls [] (after cleared 1 false [] s))
    as [[actions|e| |] s1]; try reflexivity.
Qed.

End Firing.

Section Fire.

Variable w : World.
Variable tools : list Tool.
Variables threadId runId : string.

Let cleared : list Event := [EvRunsRetrieve threadId runId; EvClearInterval].

Lemma fire_unfold ticks s :
  fire w (S ticks) tools threadId runId s
  = bind (tryCatch (callback w tools threadId runId)
                   (fun e => emit (EvUnhandledRejection e) ;;; ret None))
         (fun settled =>
            match settled with
            | Some (Ok state) => ret state
            | Some (Err e) => throw e
            | None =>
                s <- getSt ;;
                if interval s then fire w ticks tools threadId runId else hang
            end) s.
Proof. reflexivity. Qed.

Lemma fire_completed ticks s run :
  runs_retrieve w (polls s) threadId runId = Ok run ->
  run_status run = "completed" ->
  fire w (S ticks) tools threadId runId s
  = (Returned "completed", after cleared 1 false [] s).
Proof.
  intros H Hs. rewrite fire_unfold. unfold bind, tryCatch.
  now rewrite (callback_completed w tools threadId runId s H Hs).
Qed.

Lemma fire_terminal ticks s run :
  runs_retrieve w (polls s) threadId runId = Ok run ->
  isTerminal (run_status run) = true ->
  fire w (S ticks) tools threadId runId s
  = (Threw (newError (processingError (run_status run) threadId runId)),
     after cleared 1 false [] s).
Proof.
  intros H Hs. rewrite fire_unfold. unfold bind, tryCatch.
  now rewrite (callback_terminal w tools threadId runId s H Hs).
Qed.

Lemma fire_waits ticks s :
  waiting (runs_retrieve w (polls s) threadId runId) = true ->
  interval s = true ->
  fire w (S ticks) tools threadId runId s
  = fire w ticks tools threadId runId
      (after (waitEvents1 threadId runId (runs_retrieve w (polls s) threadId runId))
             1 true [] s).
Proof.
  intros Hw Hi. rewrite fire_unfold. unfold bind at 1. unfold tryCatch.
  destruct (runs_retrieve w (polls s) threadId runId) as [run|e] eqn:H.
  - rewrite (callback_waiting w tools threadId runId s H Hw).
    unfold bind, getSt. cbn [interval after]. rewrite Hi.
    f_equal.
  - rewrite (callback_retrieve_fails w tools threadId runId s H).
    unfold bind at 1. unfold emit, ret, bind, getSt.
    cbn [interval after logged]. rewrite Hi.
    f_equal. st_eq.
Qed.

Lemma fire_waits_many k ticks s :
  allWaiting w threadId runId (polls s) k = true ->
  interval s = true ->
  fire w (k + ticks) tools threadId runId s
  = fire w ticks tools threadId runId
      (after (waitEvents w threadId runId (polls s) k) k true [] s).
Proof.
  revert s. induction k as [|k IH]; intros s Hw Hi.
  - simpl. f_equal. destruct s. unfold after; simpl in *.
    rewrite !app_nil_r. now subst.
  - simpl in Hw. apply andb_prop in Hw. destruct Hw as [H1 Hk].
    change (S k + ticks) with (S (k + ticks)).
    rewrite (fire_waits _ _ H1 Hi).
    rewrite IH.
    + rewrite after_after. cbn [waitEvents polls after].
      f_equal. st_eq.
    + cbn [polls after]. exact Hk.
    + reflexivity.
Qed.

(** The poll asks for tool calls, every call parses, every matched tool
    answers and the submission is accepted. *)
Lemma fire_requires_submits ticks s run tool_calls :
  runs_retrieve w (polls s) threadId runId = Ok run ->
  run_status run = "requires_action" ->
  run_required_action run = Some tool_calls ->
  forallb (parses w) tool_calls = true ->
  forallb succeeds (matched tools (actionsOf w tool_calls)) = true ->
  matched tools (actionsOf w tool_calls) <> [] ->
  runs_submitToolOutputs w threadId runId
    (map toolOutputOf (matched tools (actionsOf w tool_calls))) = Ok tt ->
  fire w (S ticks) tools threadId runId s
  = (Returned "requires_action",
     after (cleared ++ map toolCallEvent (matched tools (actionsOf w tool_calls))
              ++ [EvSubmitToolOutputs threadId runId
                    (map toolOutputOf (matched tools (actionsOf w tool_calls)))])
           1 false (map usedToolOf (matched tools (actionsOf w tool_calls))) s).
Proof.
  intros H Hs Hr Hp Hok Hne Hsub. rewrite fire_unfold. unfold bind at 1. unfold tryCatch.
  rewrite (callback_requires w tools threadId runId s H Hs Hr).
  unfold bind at 1. unfold bind at 1.
  rewrite (parseActions_ok w _ _ _ Hp). cbn [app].
  rewrite (callTools_ok _ _ _ _ Hok). cbn [app].
  destruct (matched tools (actionsOf w tool_calls)) as [|m ms] eqn:M;
    [congruence|].
  cbn [map]. cbn [map] in Hsub.
  unfold bind at 1. rewrite Hsub, call_ok. cbv beta iota.
  unfold ret. f_equal. rewrite after_after. st_eq.
Qed.

(** The poll asks for tool calls, every call parses and none names a
    local tool. *)
Lemma fire_requires_unmatched ticks s run tool_calls :
  runs_retrieve w (polls s) threadId runId = Ok run ->
  run_status run = "requires_action" ->
  run_required_action run = Some tool_calls ->
  forallb (parses w) tool_calls = true ->
  matched tools (actionsOf w tool_calls) = [] ->
  fire w (S ticks) tools threadId runId s
  = (Threw (emptyCallsError threadId runId), after cleared 1 false [] s).
Proof.
  intros H Hs Hr Hp Hm. rewrite fire_unfold. unfold bind at 1. unfold tryCatch.
  rewrite (callback_requires w tools threadId runId s H Hs Hr).
  unfold bind at 1. unfold bind at 1.
  rewrite (parseActions_ok w _ _ _ Hp). cbn [app].
  rewrite callTools_ok by (now rewrite Hm).
  rewrite Hm. cbn [map app]. unfold ret, throw.
  f_equal. rewrite after_after. st_eq.
Qed.



Lemma promise_unfold ticks s :
  promise w ticks tools threadId runId s
  = fire w ticks tools threadId runId (after [EvSetInterval] 0 true [] s).
Proof.
  unfold promise, bind, setInterval. f_equal. st_eq.
Qed.

End Fire.

(* ------------------------------------------------------------------ *)
(** *** From the start of the run to its first poll *)

Lemma run_polling (w : World) fuel nodeData input options su s :
  Starts w nodeData input options su ->
  run w fuel nodeData input options s =
    tryCatch
      (state <- fire w fuel (flatten (nd_tools nodeData))
                  (thread_id (su_thread su)) (run_id (su_run su)) ;;
       whileRequiresAction w fuel fuel (flatten (nd_tools nodeData))
         (thread_id (su_thread su)) (run_id (su_run su)) state ;;;
       assemble w (su_key su) (prop (su_details su) "id")
         (thread_id (su_thread su)) (su_run su))
      rethrow
      (started nodeData input options su s).
Proof.
  intro H. rewrite (run_starts fuel s H).
  unfold tryCatch, pollAndAssemble.
  unfold bind at 1. unfold newUsedTools.
  unfold bind at 1. rewrite promise_unfold.
  replace (after [EvSetInterval] 0 true []
             (mkSt (trace (logged (startTrace nodeData input options su) s))
                   (files (logged (startTrace nodeData input options su) s))
                   (dirs (logged (startTrace nodeData input options su) s))
                   (polls (logged (startTrace nodeData input options su) s))
                   (interval (logged (startTrace nodeData input options su) s)) []))
    with (started nodeData input options su s)
    by (unfold started, after, logged;
        cbn [trace files dirs polls interval usedTools app Nat.add];
        rewrite <- app_assoc; reflexivity).
  reflexivity.
Qed.

Lemma errorToString_processing state threadId runId rest :
  errorToString (newError (processingError state threadId runId ++ rest))
  = ("Error: " ++ processingError state threadId runId ++ rest)%string.
Proof. reflexivity. Qed.

Lemma string_app_assoc (a b c : string) :
  ((a ++ b) ++ c)%string = (a ++ (b ++ c))%string.
Proof. induction a as [|ch a IH]; simpl; [reflexivity | now rewrite IH]. Qed.

Lemma renderContent_text (w : World) content key returnVal s :
  forallb isText content = true ->
  renderContent w content key returnVal s
  = (Returned (returnVal ++ textOf content)%string, s).
Proof.
  revert returnVal. induction content as [|part rest IH]; intros returnVal H; simpl.
  - unfold ret. f_equal. f_equal.
    induction returnVal as [|ch r IHr]; simpl; [reflexivity | now rewrite <- IHr].
  - destruct part; simpl in H; try discriminate.
    rewrite (IH _ H). now rewrite string_app_assoc.
Qed.

Lemma sample_starts remoteTools chat script page fetched deleted tools input :
  Starts (Sample.world remoteTools chat script page fetched deleted)
    (Sample.nodeDataWith tools) input Sample.options (sampleSetup remoteTools chat).
Proof.
  unfold Starts, Resolves. repeat split; try reflexivity.
  - exists (VObj [("openAIApiKey", VStr "sk-1")]). split; reflexivity.
  - right. reflexivity.
  - destruct chat; reflexivity.
Qed.

(* ------------------------------------------------------------------ *)
(** *** Rounds of tool calls before the poll that settles the run *)

Section Rounds.

Variable w : World.
Variable tools : list Tool.
Variables threadId runId : string.

(** One more turn of the [while] loop: a new promise, whose timer is set
    and then fires. *)
Lemma while_again_then {B : Type} (K : string -> M B) loops ticks s :
  bind (whileRequiresAction w (S loops) ticks tools threadId runId "requires_action") K s
  = bind (fire w ticks tools threadId runId)
         (fun state =>
            bind (whileRequiresAction w loops ticks tools threadId runId state) K)
         (after [EvSetInterval] 0 true [] s).
Proof.
  change (whileRequiresAction w (S loops) ticks tools threadId runId "requires_action")
    with (bind (promise w ticks tools threadId runId)
               (fun state' => whileRequiresAction w loops ticks tools threadId runId state')).
  unfold bind. rewrite promise_unfold.
  destruct (fire w ticks tools threadId runId (after [EvSetInterval] 0 true [] s))
    as [[state|e| |] s1]; reflexivity.
Qed.

(** The rounds [rs] take a promise whose timer is set through as many
    turns of the [while] loop, to a promise whose timer is set. *)
Lemma rounds_answered {B : Type} (K : string -> M B) (rs : list Round) :
  forall (s : St) (loops ticks : nat),
    interval s = true ->
    RoundsAnswered w tools threadId runId (polls s) rs ->
    roundsWithin ticks rs = true ->
    bind (fire w ticks tools threadId runId)
         (fun state =>
            bind (whileRequiresAction w (length rs + loops) ticks tools threadId runId state)
                 K) s
    = bind (fire w ticks tools threadId runId)
           (fun state =>
              bind (whileRequiresAction w loops ticks tools threadId runId state) K)
           (after (roundsEvents w tools threadId runId (polls s) rs)
                  (roundsPolls rs) true (roundsRecords w tools rs) s).
Proof.
  induction rs as [|[k calls] rest IH]; intros s loops ticks Hi HR HT.
  - cbn [length Nat.add roundsEvents roundsPolls roundsRecords flat_map].
    f_equal. destruct s. unfold after. cbn in *. rewrite !app_nil_r. now subst.
  - cbn [RoundsAnswered fst snd] in HR.
    destruct HR as (HW & (asking & HA & Hst & Hra) & Hp & Hok & Hne & Hsub & Hrest).
    cbn [roundsWithin forallb fst] in HT. apply andb_prop in HT.
    destruct HT as [Hk HT]. apply Nat.ltb_lt in Hk.
    unfold bind at 1.
    replace ticks with (k + S (ticks - k - 1)) at 1 by lia.
    rewrite fire_waits_many by assumption.
    unfold roundCalls in *. cbn [snd] in *.
    erewrite fire_requires_submits
      by (first [exact HA | exact Hst | exact Hra | exact Hp | exact Hok
                | exact Hne | exact Hsub]).
    cbn [length Nat.add].
    rewrite while_again_then.
    rewrite IH; [|reflexivity|exact Hrest|exact HT].
    f_equal.
    cbn [roundsEvents roundsPolls roundsRecords flat_map fst snd].
    unfold roundCalls. cbn [snd].
    rewrite !after_after.
    cbn [polls after Nat.add].
    unfold after. cbn [trace files dirs polls interval usedTools].
    f_equal; [rewrite <- !app_assoc; reflexivity | lia].
Qed.

End Rounds.

(** An invocation that has started the run, up to the promise that
    follows the rounds [rs]. *)
Lemma run_rounds (w : World) fuel nodeData input options su s rs :
  Starts w nodeData input options su ->
  RoundsAnswered w (flatten (nd_tools nodeData)) (thread_id (su_thread su))
    (run_id (su_run su)) (polls s) rs ->
  length rs <= fuel ->
  roundsWithin fuel rs = true ->
  run w fuel nodeData input options s =
    tryCatch
      (state <- fire w fuel (flatten (nd_tools nodeData))
                  (thread_id (su_thread su)) (run_id (su_run su)) ;;
       whileRequiresAction w (fuel - length rs) fuel (flatten (nd_tools nodeData))
         (thread_id (su_thread su)) (run_id (su_run su)) state ;;;
       assemble w (su_key su) (prop (su_details su) "id")
         (thread_id (su_thread su)) (su_run su))
      rethrow
      (after (roundsEvents w (flatten (nd_tools nodeData)) (thread_id (su_thread su))
                (run_id (su_run su)) (polls s) rs)
             (roundsPolls rs) true (roundsRecords w (flatten (nd_tools nodeData)) rs)
             (started nodeData input options su s)).
Proof.
  intros HS HR Hl HT.
  rewrite (run_polling fuel s HS).
  unfold tryCatch.
  replace (whileRequiresAction w fuel fuel)
    with (whileRequiresAction w (length rs + (fuel - length rs)) fuel)
    by (f_equal; lia).
  rewrite rounds_answered; [reflexivity | reflexivity | exact HR | exact HT].
Qed.

(* ------------------------------------------------------------------ *)
(** *** Terminal statuses *)

(** C6.  Whenever a poll finds the run [cancelled], [expired] or
    [failed], the timer is cleared and the promise is rejected with an
    error naming the status, the thread and the run; no further call is
    made.  For an invocation that has started the run and whose first
    [k] polls settled nothing, this means: [run] throws [Error] with the
    message "Error: Error processing thread: <status>, Thread ID:
    <thread>, Run ID: <run>" after [k + 1] polls, without listing the
    messages and without returning any text.  The same holds when the
    status is found by a later promise, awaited in the [while] loop:
    after any number of rounds of answered tool calls and [k] more polls
    that settled nothing, [run] throws that error at the next poll; the
    tools that were called appear in no result. *)
Theorem C6_terminal_status_fails :
  (forall (w : World) (tools : list Tool) (threadId runId : string)
          (ticks : nat) (s : St) (snapshot : Run),
      runs_retrieve w (polls s) threadId runId = Ok snapshot ->
      isTerminal (run_status snapshot) = true ->
      fire w (S ticks) tools threadId runId s
      = (Threw (newError (processingError (run_status snapshot) threadId runId)),
         after [EvRunsRetrieve threadId runId; EvClearInterval] 1 false [] s)) /\
  (forall (w : World) (fuel : nat) (nodeData : NodeData) (input : string)
          (options : Options) (su : Setup) (s : St) (k : nat) (snapshot : Run),
      let threadId := thread_id (su_thread su) in
      let runId := run_id (su_run su) in
      Starts w nodeData input options su ->
      allWaiting w threadId runId (polls s) k = true ->
      runs_retrieve w (k + polls s) threadId runId = Ok snapshot ->
      isTerminal (run_status snapshot) = true ->
      k < fuel ->
      run w fuel nodeData input options s
      = (Threw (newError ("Error: " ++ processingError (run_status snapshot) threadId runId)),
         after (waitEvents w threadId runId (polls s) k
                  ++ [EvRunsRetrieve threadId runId; EvClearInterval])
               (S k) false [] (started nodeData input options su s))) /\
  (forall (w : World) (fuel : nat) (nodeData : NodeData) (input : string)
          (options : Options) (su : Setup) (s : St) (rs : list Round) (k : nat)
          (snapshot : Run),
      let threadId := thread_id (su_thread su) in
      let runId := run_id (su_run su) in
      let tools := flatten (nd_tools nodeData) in
      let n := roundsPolls rs + polls s in
      Starts w nodeData input options su ->
      RoundsAnswered w tools threadId runId (polls s) rs ->
      allWaiting w threadId runId n k = true ->
      runs_retrieve w (k + n) threadId runId = Ok snapshot ->
      isTerminal (run_status snapshot) = true ->
      length rs <= fuel ->
      roundsWithin fuel rs = true ->
      k < fuel ->
      run w fuel nodeData input options s
      = (Threw (newError ("Error: " ++ processingError (run_status snapshot) threadId runId)),
         after (roundsEvents w tools threadId runId (polls s) rs
                  ++ waitEvents w threadId runId n k
                  ++ [EvRunsRetrieve threadId runId; EvClearInterval])
               (S k + roundsPolls rs) false (roundsRecords w tools rs)
               (started nodeData input options su s))).
Proof.
  split; [|split].
  - intros. now apply fire_terminal.
  - intros w fuel nodeData input options su s k snapshot threadId runId HS HW HR HT Hk.
    rewrite (run_polling fuel s HS).
    replace fuel with (k + S (fuel - k - 1)) by lia.
    unfold tryCatch. unfold bind at 1.
    fold threadId runId.
    rewrite fire_waits_many by (try reflexivity; exact HW).
    erewrite fire_terminal by (first [exact HR | exact HT]).
    unfold rethrow, throw. f_equal. rewrite after_after. st_eq.
  - intros w fuel nodeData input options su s rs k snapshot threadId runId tools n
           HS HA HW HR HT Hl Hw Hk.
    rewrite (@run_rounds w fuel nodeData input options su s rs HS HA Hl Hw).
    fold threadId runId tools.
    unfold tryCatch. unfold bind at 1.
    replace (fire w fuel) with (fire w (k + S (fuel - k - 1))) by (f_equal; lia).
    rewrite fire_waits_many by (try reflexivity; exact HW).
    erewrite fire_terminal by (first [exact HR | exact HT]).
    unfold rethrow, throw. f_equal. rewrite !after_after.
    unfold after. cbn [trace files dirs polls interval usedTools started].
    f_equal. now rewrite !app_nil_r.
Qed.

Lemma C6_witness :
  run (calculatorThen (Sample.running "failed")) 3 calculatorOnly "hi" Sample.options
      (initialSt [] [])
  = (Threw (newError
       "Error: Error processing thread: failed, Thread ID: thread_new, Run ID: run_1"),
     after [EvRunsRetrieve "thread_new" "run_1"; EvClearInterval;
            EvToolCall "calculator" (VObj []);
            EvSubmitToolOutputs "thread_new" "run_1" [mkToolOutput "call_1" "42"];
            EvSetInterval;
            EvRunsRetrieve "thread_new" "run_1"; EvClearInterval]
           2 false [mkUsedTool "calculator" (VObj []) "42"]
           (started calculatorOnly "hi" Sample.options (sampleSetup [] None)
              (initialSt [] []))).
Proof.
  apply (proj2 (proj2 C6_terminal_status_fails)
           (calculatorThen (Sample.running "failed")) 3 calculatorOnly "hi"
           Sample.options (sampleSetup [] None) (initialSt [] [])
           [calculatorRound] 0 (mkRun "run_1" "failed" None)).
  - apply sample_starts.
  - cbn. repeat split; try reflexivity.
    + exists (mkRun "run_1" "requires_action"
                (Some [Sample.callReq "call_1" "calculator" "{}"])).
      repeat split; reflexivity.
    + discriminate.
  - reflexivity.
  - reflexivity.
  - reflexivity.
  - cbn. lia.
  - reflexivity.
  - lia.
Defined.

(* ------------------------------------------------------------------ *)
(** *** Tool calls that name no local tool *)

Lemma matched_none (w : World) tools tool_calls :
  forallb (unmatchedCall tools) tool_calls = true ->
  matched tools (actionsOf w tool_calls) = [].
Proof.
  induction tool_calls as [|item rest IH]; intro H.
  - reflexivity.
  - simpl in H. apply andb_prop in H. destruct H as [Hi Hr].
    unfold unmatchedCall in Hi.
    change (actionsOf w (item :: rest))
      with (mkAction (tc_function_name item) (parsedArguments w item)
              (tc_id item) :: actionsOf w rest).
    rewrite callTools_matched_cons. cbn [act_tool].
    destruct (findTool tools (tc_function_name item)); [discriminate|].
    now apply IH.
Qed.

(** C4, counterexample.  The first poll asks for one tool call, which
    names no local tool and whose arguments are not valid JSON:
    [JSON.parse] throws inside the callback (line 192) before any tool
    is looked up, nothing settles the promise, and the invocation never
    ends instead of failing with an error. *)
Lemma C4_counterexample :
  runs_retrieve unparseable 0 "thread_new" "run_1"
    = Sample.requiring [Sample.callReq "call_1" "weather" "{"] /\
  forallb (unmatchedCall [Sample.calculator])
    [Sample.callReq "call_1" "weather" "{"] = true /\
  fst (run unparseable 3 (Sample.nodeDataWith (Some [OneTool Sample.calculator]))
         "hi" Sample.options (initialSt [] [])) = Hung.
Proof. repeat split; reflexivity. Qed.

(** C4, as amended.  When a poll returns [requires_action] with
    tool-call requests whose arguments all parse as JSON and none of
    which names a local tool, no tool is called and nothing is
    submitted: the timer is cleared and the promise is rejected with
    "Error processing thread: requires_action, Thread ID: <thread>, Run
    ID: <run>. submit_tool_outputs.tool_calls are empty".  For an
    invocation that has started the run and whose first [k] polls settled
    nothing, [run] throws [Error] with that message behind "Error: ".
    The same holds when such a poll comes in a later promise, awaited in
    the [while] loop: after any number of rounds of answered tool calls
    and [k] more polls that settled nothing, [run] throws that error and
    returns no result. *)
Theorem C4_unmatched_calls_fail :
  (forall (w : World) (tools : list Tool) (threadId runId : string)
          (ticks : nat) (s : St) (snapshot : Run) (tool_calls : list ToolCallRequest),
      runs_retrieve w (polls s) threadId runId = Ok snapshot ->
      run_status snapshot = "requires_action" ->
      run_required_action snapshot = Some tool_calls ->
      forallb (parses w) tool_calls = true ->
      forallb (unmatchedCall tools) tool_calls = true ->
      fire w (S ticks) tools threadId runId s
      = (Threw (newError
                  ("Error processing thread: requires_action, Thread ID: " ++ threadId
                     ++ ", Run ID: " ++ runId
                     ++ ". submit_tool_outputs.tool_calls are empty")),
         after [EvRunsRetrieve threadId runId; EvClearInterval] 1 false [] s)) /\
  (forall (w : World) (fuel : nat) (nodeData : NodeData) (input : string)
          (options : Options) (su : Setup) (s : St) (k : nat) (snapshot : Run)
          (tool_calls : list ToolCallRequest),
      let threadId := thread_id (su_thread su) in
      let runId := run_id (su_run su) in
      Starts w nodeData input options su ->
      allWaiting w threadId runId (polls s) k = true ->
      runs_retrieve w (k + polls s) threadId runId = Ok snapshot ->
      run_status snapshot = "requires_action" ->
      run_required_action snapshot = Some tool_calls ->
      forallb (parses w) tool_calls = true ->
      forallb (unmatchedCall (flatten (nd_tools nodeData))) tool_calls = true ->
      k < fuel ->
      run w fuel nodeData input options s
      = (Threw (newError
                  ("Error: Error processing thread: requires_action, Thread ID: "
                     ++ threadId ++ ", Run ID: " ++ runId
                     ++ ". submit_tool_outputs.tool_calls are empty")),
         after (waitEvents w threadId runId (polls s) k
                  ++ [EvRunsRetrieve threadId runId; EvClearInterval])
               (S k) false [] (started nodeData input options su s))) /\
  (forall (w : World) (fuel : nat) (nodeData : NodeData) (input : string)
          (options : Options) (su : Setup) (s : St) (rs : list Round) (k : nat)
          (snapshot : Run) (tool_calls : list ToolCallRequest),
      let threadId := thread_id (su_thread su) in
      let runId := run_id (su_run su) in
      let tools := flatten (nd_tools nodeData) in
      let n := roundsPolls rs + polls s in
      Starts w nodeData input options su ->
      RoundsAnswered w tools threadId runId (polls s) rs ->
      allWaiting w threadId runId n k = true ->
      runs_retrieve w (k + n) threadId runId = Ok snapshot ->
      run_status snapshot = "requires_action" ->
      run_required_action snapshot = Some tool_calls ->
      forallb (parses w) tool_calls = true ->
      forallb (unmatchedCall tools) tool_calls = true ->
      length rs <= fuel ->
      roundsWithin fuel rs = true ->
      k < fuel ->
      run w fuel nodeData input options s
      = (Threw (newError
                  ("Error: Error processing thread: requires_action, Thread ID: "
                     ++ threadId ++ ", Run ID: " ++ runId
                     ++ ". submit_tool_outputs.tool_calls are empty")),
         after (roundsEvents w tools threadId runId (polls s) rs
                  ++ waitEvents w threadId runId n k
                  ++ [EvRunsRetrieve threadId runId; EvClearInterval])
               (S k + roundsPolls rs) false (roundsRecords w tools rs)
               (started nodeData input options su s))).
Proof.
  assert (forall threadId runId,
            emptyCallsError threadId runId
            = newError ("Error processing thread: requires_action, Thread ID: "
                          ++ threadId ++ ", Run ID: " ++ runId
                          ++ ". submit_tool_outputs.tool_calls are empty")) as Msg.
  { intros. unfold emptyCallsError, processingError. f_equal.
    rewrite !string_app_assoc. reflexivity. }
  split; [|split].
  - intros w tools threadId runId ticks s snapshot tool_calls H Hs Hr Hp Hu.
    rewrite <- Msg.
    now apply fire_requires_unmatched with (run := snapshot) (tool_calls := tool_calls);
      try apply matched_none.
  - intros w fuel nodeData input options su s k snapshot tool_calls threadId runId
           HS HW HR Hst Hra Hp Hu Hk.
    rewrite (run_polling fuel s HS).
    replace fuel with (k + S (fuel - k - 1)) by lia.
    unfold tryCatch. unfold bind at 1.
    fold threadId runId.
    rewrite fire_waits_many by (try reflexivity; exact HW).
    erewrite fire_requires_unmatched
      by (first [exact HR | exact Hst | exact Hra | exact Hp
                | apply matched_none; exact Hu]).
    unfold rethrow, throw. rewrite Msg. f_equal. rewrite after_after. st_eq.
  - intros w fuel nodeData input options su s rs k snapshot tool_calls threadId runId
           tools n HS HA HW HR Hst Hra Hp Hu Hl Hw Hk.
    rewrite (@run_rounds w fuel nodeData input options su s rs HS HA Hl Hw).
    fold threadId runId tools.
    unfold tryCatch. unfold bind at 1.
    replace (fire w fuel) with (fire w (k + S (fuel - k - 1))) by (f_equal; lia).
    rewrite fire_waits_many by (try reflexivity; exact HW).
    erewrite fire_requires_unmatched
      by (first [exact HR | exact Hst | exact Hra | exact Hp
                | apply matched_none; exact Hu]).
    unfold rethrow, throw. rewrite Msg. f_equal. rewrite !after_after.
    unfold after. cbn [trace files dirs polls interval usedTools started].
    f_equal. now rewrite !app_nil_r.
Qed.

Lemma C4_witness :
  run (calculatorThen (Sample.requiring [Sample.callReq "call_2" "weather" "{}"]))
      3 calculatorOnly "hi" Sample.options (initialSt [] [])
  = (Threw (newError
       ("Error: Error processing thread: requires_action, Thread ID: "
          ++ "thread_new" ++ ", Run ID: " ++ "run_1"
          ++ ". submit_tool_outputs.tool_calls are empty")),
     after [EvRunsRetrieve "thread_new" "run_1"; EvClearInterval;
            EvToolCall "calculator" (VObj []);
            EvSubmitToolOutputs "thread_new" "run_1" [mkToolOutput "call_1" "42"];
            EvSetInterval;
            EvRunsRetrieve "thread_new" "run_1"; EvClearInterval]
           2 false [mkUsedTool "calculator" (VObj []) "42"]
           (started calculatorOnly "hi" Sample.options (sampleSetup [] None)
              (initialSt [] []))).
Proof.
  apply (proj2 (proj2 C4_unmatched_calls_fail)
           (calculatorThen (Sample.requiring [Sample.callReq "call_2" "weather" "{}"]))
           3 calculatorOnly "hi" Sample.options (sampleSetup [] None) (initialSt [] [])
           [calculatorRound] 0
           (mkRun "run_1" "requires_action"
              (Some [Sample.callReq "call_2" "weather" "{}"]))
           [Sample.callReq "call_2" "weather" "{}"]).
  - apply sample_starts.
  - cbn. repeat split; try reflexivity.
    + exists (mkRun "run_1" "requires_action"
                (Some [Sample.callReq "call_1" "calculator" "{}"])).
      repeat split; reflexivity.
    + discriminate.
  - reflexivity.
  - reflexivity.
  - reflexivity.
  - reflexivity.
  - reflexivity.
  - reflexivity.
  - cbn. lia.
  - reflexivity.
  - lia.
Defined.

(* ------------------------------------------------------------------ *)
(** *** Exceptions inside the callback *)








(* ------------------------------------------------------------------ *)
(** *** Tool calls that are answered *)

Lemma whileRequiresAction_done (w : World) rounds ticks tools threadId runId s :
  whileRequiresAction w rounds ticks tools threadId runId "completed" s
  = (Returned "completed", s).
Proof. destruct rounds; reflexivity. Qed.


(** The answer assembled from a first assistant message made of text
    parts only. *)
Lemma assemble_text (w : World) key id threadId runThread page first others s :
  messages_list w threadId = Ok page ->
  filter (fun msg => String.eqb (msg_role msg) "assistant")
         (match page_data page with Some d => d | None => [] end) = first :: others ->
  forallb isText (msg_content first) = true ->
  assemble w key id threadId runThread s
  = (Returned (ResObject
       (mkResultObject (textOf (msg_content first)) (usedTools s)
          (mkAssistantEcho id threadId (run_id runThread)
             (match page_data page with Some d => d | None => [] end)))),
     logged [EvMessagesList threadId] s).
Proof.
  intros Hl Hf Ht. unfold assemble.
  unfold bind at 1. rewrite Hl, call_ok. cbv beta iota zeta. rewrite Hf.
  unfold bind at 1. rewrite (renderContent_text w _ _ _ _ Ht).
  reflexivity.
Qed.



(* ------------------------------------------------------------------ *)
(** *** Thread selection *)

Lemma filter_none {A : Type} (P Q : A -> bool) (l : list A) :
  forallb P l = true ->
  (forall x, P x = true -> Q x = false) ->
  filter Q l = [].
Proof.
  intros F H. induction l as [|x l IH]; simpl in *.
  - reflexivity.
  - apply andb_prop in F. destruct F as [Fx Fl].
    rewrite (H _ Fx). now apply IH.
Qed.

Lemma run_started_trace (w : World) fuel nodeData input options su s :
  Starts w nodeData input options su ->
  exists later,
    trace (snd (run w fuel nodeData input options s))
      = trace s ++ startTrace nodeData input options su ++ later /\
    forallb lateEvent later = true.
Proof.
  intro HS. rewrite (run_starts fuel s HS).
  assert (appends lateEvent
            (tryCatch
               (pollAndAssemble w fuel (flatten (nd_tools nodeData)) (su_key su)
                  (prop (su_details su) "id") (thread_id (su_thread su)) (su_run su))
               rethrow)) as A.
  { apply appends_tryCatch; [apply pollAndAssemble_appends|].
    intro e. apply appends_throw. }
  destruct (A (logged (startTrace nodeData input options su) s)) as [later [E F]].
  exists later. split; [|exact F].
  rewrite E. unfold logged. cbn [trace]. now rewrite <- app_assoc.
Qed.

(** C7.  For an invocation whose calls up to the creation of the run
    succeed: when the store has no chat message for the chat id, exactly
    one [threads.create] call is made, no thread is retrieved, and the
    run is created on the new thread; when the store has one, no
    [threads.create] call is made, the thread is retrieved by the stored
    session identifier, and the run is created on that thread, whose id
    is the session identifier as the API returns the thread it is asked
    for.  Either way exactly one [runs.create] call is made, on the id of
    the retrieved remote assistant. *)
Theorem C7_thread_selection :
  forall (w : World) (fuel : nat) (nodeData : NodeData) (input : string)
         (options : Options) (su : Setup) (s : St),
    Starts w nodeData input options su ->
    exists evs,
      trace (snd (run w fuel nodeData input options s)) = trace s ++ evs /\
      filter isRunsCreate evs
        = [EvRunsCreate (thread_id (su_thread su)) (ra_id (su_remote su))] /\
      match su_chat su with
      | None =>
          threads_create w = Ok (su_thread su) /\
          filter isThreadsCreate evs = [EvThreadsCreate] /\
          filter isThreadsRetrieve evs = []
      | Some chatmessage =>
          threads_retrieve w (cm_sessionId chatmessage) = Ok (su_thread su) /\
          filter isThreadsCreate evs = [] /\
          filter isThreadsRetrieve evs = [EvThreadsRetrieve (cm_sessionId chatmessage)] /\
          (thread_id (su_thread su) = cm_sessionId chatmessage ->
           filter isRunsCreate evs
             = [EvRunsCreate (cm_sessionId chatmessage) (ra_id (su_remote su))])
      end.
Proof.
  intros w fuel nodeData input options su s HS.
  destruct (run_started_trace fuel s HS) as [later [E F]].
  exists (startTrace nodeData input options su ++ later).
  split; [exact E|].
  assert (filter isRunsCreate later = []) as L1
    by (apply (filter_none lateEvent); [exact F | now intros []]).
  assert (filter isThreadsCreate later = []) as L2
    by (apply (filter_none lateEvent); [exact F | now intros []]).
  assert (filter isThreadsRetrieve later = []) as L3
    by (apply (filter_none lateEvent); [exact F | now intros []]).
  destruct HS as [_ [_ [_ [Ht _]]]].
  rewrite !filter_app, L1, L2, L3.
  unfold startTrace, updateTrace, threadTrace, resolveTrace.
  destruct (formattedToolsOf nodeData); destruct (su_chat su) as [chatmessage|];
    cbn [filter app isRunsCreate isThreadsCreate isThreadsRetrieve];
    repeat split; try exact Ht; try reflexivity;
    intro Hid; now rewrite Hid.
Qed.

Lemma C7_witness :
  exists evs,
    trace (snd (run (Sample.world [] (Some (mkChatMessage "thread_7")) []
                       (Sample.answer "Hello") (Err (newError "offline")) (Ok tt))
                    3 (Sample.nodeDataWith None) "hi" Sample.options (initialSt [] [])))
      = trace (initialSt [] []) ++ evs /\
    filter isRunsCreate evs = [EvRunsCreate "thread_7" "asst_1"] /\
    threads_retrieve (Sample.world [] (Some (mkChatMessage "thread_7")) []
                        (Sample.answer "Hello") (Err (newError "offline")) (Ok tt))
      "thread_7" = Ok (mkThread "thread_7") /\
    filter isThreadsCreate evs = [] /\
    filter isThreadsRetrieve evs = [EvThreadsRetrieve "thread_7"] /\
    ("thread_7" = "thread_7" ->
     filter isRunsCreate evs = [EvRunsCreate "thread_7" "asst_1"]).
Proof.
  apply (@C7_thread_selection
           (Sample.world [] (Some (mkChatMessage "thread_7")) []
              (Sample.answer "Hello") (Err (newError "offline")) (Ok tt))
           3 (Sample.nodeDataWith None) "hi" Sample.options
           (sampleSetup [] (Some (mkChatMessage "thread_7"))) (initialSt [] [])).
  apply sample_starts.
Defined.

(* ------------------------------------------------------------------ *)
(** *** Tool-list reconciliation *)

Lemma tryCatch_bind_ok {A B : Type} (m : M A) (k : A -> M B) (h : JsError -> M B)
    (a : A) (s s' : St) :
  m s = (Returned a, s') ->
  tryCatch (bind m k) h s = tryCatch (k a) h s'.
Proof. intro H. unfold tryCatch, bind. now rewrite H. Qed.

Lemma tryCatch_call_first {A B : Type} (P : Event -> bool) (ev : Event)
    (r : JsResult A) (k : A -> M B) (h : JsError -> M B) (s : St) :
  (forall a, appends P (k a)) ->
  (forall e, appends P (h e)) ->
  exists later,
    trace (snd (tryCatch (bind (call ev r) k) h s)) = trace s ++ [ev] ++ later /\
    forallb P later = true.
Proof.
  intros Hk Hh. destruct r as [a|e].
  - rewrite (@tryCatch_bind_ok _ _ (call ev (Ok a)) k h a s (logged [ev] s)
               (call_ok ev a s)).
    assert (appends P (tryCatch (k a) h)) as T by (now apply appends_tryCatch).
    destruct (T (logged [ev] s)) as [later [E F]].
    exists later. split; [|exact F]. rewrite E. unfold logged. cbn [trace].
    now rewrite <- app_assoc.
  - unfold tryCatch, bind. rewrite call_err.
    destruct (Hh e (logged [ev] s)) as [later [E F]].
    exists later. split; [|exact F]. rewrite E. unfold logged. cbn [trace].
    now rewrite <- app_assoc.
Qed.

Lemma run_pushes_filteredTools (w : World) fuel nodeData input options su s :
  Resolves w nodeData su ->
  formattedToolsOf nodeData <> [] ->
  exists later,
    trace (snd (run w fuel nodeData input options s))
      = trace s ++ resolveTrace nodeData su
          ++ [EvAssistantsUpdate (prop (su_details su) "id")
                (filteredTools (ra_tools (su_remote su)) (formattedToolsOf nodeData))]
          ++ later /\
    forallb notUpdate later = true.
Proof.
  intros [Ha [[cred [Hc Hk]] [Hne [Hp Hr]]]] Hf.
  unfold run. cbv zeta.
  run_call Ha. run_call Hc. rewrite Hk, (truthyStr_key _ Hne).
  unfold runBody. fold (formattedToolsOf nodeData).
  erewrite tryCatch_bind_ok by (rewrite Hp; reflexivity).
  erewrite tryCatch_bind_ok by reflexivity.
  erewrite tryCatch_bind_ok by (rewrite Hr; apply call_ok).
  destruct (formattedToolsOf nodeData) as [|f fs] eqn:Ef; [congruence|].
  match goal with
  | |- context [tryCatch (bind (call ?ev ?r) ?k) ?h ?st] =>
      destruct (@tryCatch_call_first _ _ notUpdate ev r k h st) as [later [E F]]
  end.
  - intros []. cbv zeta. frame.
    apply appends_weaken with (P := lateEvent); [exact late_notUpdate|].
    apply pollAndAssemble_appends.
  - intro e. apply appends_throw.
  - exists later. split; [|exact F].
    rewrite E. unfold resolveTrace, logged. cbn [trace].
    rewrite <- !app_assoc. reflexivity.
Qed.

(** C1.  When the local tool list is not empty and the assistant
    resolves, [run] makes exactly one [assistants.update] call, and the
    tool list it pushes is the list of the remote tools followed by the
    formatted local tools, de-duplicated with deep equality (and not by
    name: two local tools that differ, whatever their names, both stay),
    from which the entries of type [function] without a function body
    are removed.  For remote tools [[A]] and local tools [[a; b]] whose
    formatted [a] is deeply equal to [A], the pushed list is [A] followed
    by the formatted [b], unless that is deeply equal to [A] as well. *)
Theorem C1_tool_list_reconciliation :
  (forall (w : World) (fuel : nat) (nodeData : NodeData) (input : string)
          (options : Options) (su : Setup) (s : St),
      Resolves w nodeData su ->
      formattedToolsOf nodeData <> [] ->
      exists later,
        trace (snd (run w fuel nodeData input options s))
          = trace s ++ resolveTrace nodeData su
              ++ [EvAssistantsUpdate (prop (su_details su) "id")
                    (filteredTools (ra_tools (su_remote su))
                       (formattedToolsOf nodeData))]
              ++ later /\
        (forall id tools, ~ In (EvAssistantsUpdate id tools) later)) /\
  (forall (remote formatted : list JsObject),
      exists merged,
        DedupedUnion isEqualTool (remote ++ formatted) merged /\
        filteredTools remote formatted = filter keepTool merged /\
        (forall tool, In tool (filteredTools remote formatted) <->
                      In tool merged /\ ~ lacksFunctionBody tool)) /\
  (forall (A : JsObject) (a b : Tool),
      isEqualTool (formatToOpenAIAssistantTool a) A = true ->
      filteredTools [A] (map formatToOpenAIAssistantTool [a; b])
      = A :: (if isEqualTool (formatToOpenAIAssistantTool b) A
              then [] else [formatToOpenAIAssistantTool b])) /\
  (forall (a b : Tool),
      isEqualTool (formatToOpenAIAssistantTool b) (formatToOpenAIAssistantTool a) = false ->
      filteredTools [] (map formatToOpenAIAssistantTool [a; b])
      = [formatToOpenAIAssistantTool a; formatToOpenAIAssistantTool b]).
Proof.
  split; [|split; [|split]].
  - intros w fuel nodeData input options su s HR Hne.
    destruct (@run_pushes_filteredTools w fuel nodeData input options su s HR Hne)
      as [later [E F]].
    exists later. split; [exact E|].
    intros id tools Hin. rewrite forallb_forall in F. specialize (F _ Hin). discriminate.
  - intros remote formatted.
    exists (uniqWith (remote ++ formatted) isEqualTool).
    split; [apply uniqWith_dedupedUnion|]. split; [reflexivity|].
    intro tool. unfold filteredTools. rewrite filter_In.
    rewrite <- keepTool_false_iff.
    destruct (keepTool tool); split; intros [H1 H2]; split; auto; try discriminate;
      now elim H2.
  - intros A a b H. now apply filteredTools_one_known.
  - intros a b H. unfold filteredTools, uniqWith.
    cbn [map app baseUniq arrayIncludesWith existsb]. cbn [app existsb].
    rewrite H. cbn [orb app filter]. now rewrite !keepTool_formatted.
Qed.

Lemma C1_witness :
  exists later,
    trace (snd (run (Sample.world [remoteCalculator] None [] (Sample.answer "Hello")
                       (Err (newError "offline")) (Ok tt))
                    3 calculatorAndSearch "hi" Sample.options (initialSt [] [])))
      = [ EvFindAssistant (Some "a-1");
          EvGetCredentialData "cred-1";
          EvAssistantsRetrieve (VStr "asst_1");
          EvAssistantsUpdate (VStr "asst_1")
            [remoteCalculator; formatToOpenAIAssistantTool Sample.search] ] ++ later /\
    (forall id tools, ~ In (EvAssistantsUpdate id tools) later).
Proof.
  destruct (proj1 C1_tool_list_reconciliation
              (Sample.world [remoteCalculator] None [] (Sample.answer "Hello")
                 (Err (newError "offline")) (Ok tt))
              3 calculatorAndSearch "hi" Sample.options
              (sampleSetup [remoteCalculator] None) (initialSt [] []))
    as [later [E F]].
  - apply (proj1 (sample_starts [remoteCalculator] None [] (Sample.answer "Hello")
                    (Err (newError "offline")) (Ok tt)
                    (Some [OneTool Sample.calculator; ToolArray [Sample.search]]) "hi")).
  - discriminate.
  - exists later. split; [|exact F].
    rewrite E.
    change (formattedToolsOf calculatorAndSearch)
      with (map formatToOpenAIAssistantTool [Sample.calculator; Sample.search]).
    change (ra_tools (su_remote (sampleSetup [remoteCalculator] None)))
      with [remoteCalculator].
    rewrite (proj1 (proj2 (proj2 C1_tool_list_reconciliation))
               remoteCalculator Sample.calculator Sample.search eq_refl).
    reflexivity.
Defined.

(* ------------------------------------------------------------------ *)
(** *** What [run] resolves to *)

Lemma ensures_ret {A : Type} (Q : A -> Prop) (a : A) : Q a -> ensures Q (ret a).
Proof. intros H s a' s' E. injection E as <- _. exact H. Qed.

Lemma ensures_throw {A : Type} (Q : A -> Prop) (e : JsError) : ensures Q (throw e).
Proof. intros s a s' E. discriminate. Qed.

Lemma ensures_bind {A B : Type} (Q : B -> Prop) (m : M A) (k : A -> M B) :
  (forall a, ensures Q (k a)) -> ensures Q (bind m k).
Proof.
  intros H s b s' E. unfold bind in E.
  destruct (m s) as [[a|e| |] s1]; try discriminate.
  exact (H a s1 b s' E).
Qed.

Lemma ensures_bind_call {A B : Type} (Q : B -> Prop) (ev : Event) (r : JsResult A)
    (k : A -> M B) :
  (forall a, r = Ok a -> ensures Q (k a)) -> ensures Q (bind (call ev r) k).
Proof.
  intros H s b s' E. unfold bind in E. destruct r as [a|e].
  - rewrite call_ok in E. exact (H a eq_refl _ b s' E).
  - rewrite call_err in E. discriminate.
Qed.

Lemma ensures_tryCatch {A : Type} (Q : A -> Prop) (m : M A) (h : JsError -> M A) :
  ensures Q m -> (forall e, ensures Q (h e)) -> ensures Q (tryCatch m h).
Proof.
  intros Hm Hh s a s' E. unfold tryCatch in E.
  destruct (m s) as [[a1|e| |] s1] eqn:Em; try discriminate.
  - injection E as <- <-. exact (Hm s a1 s1 Em).
  - exact (Hh e s1 a s' E).
Qed.

Lemma assemble_ensures (w : World) key id threadId runThread :
  ensures (ResultShape w) (assemble w key id threadId runThread).
Proof.
  unfold assemble. apply ensures_bind_call. intros page Hp. cbv zeta.
  fold (messageDataOf page). fold (assistantMessagesOf page).
  destruct (assistantMessagesOf page) as [|first others] eqn:E.
  - apply ensures_ret. split; [reflexivity|]. now exists threadId, page.
  - apply ensures_bind. intro returnVal. apply ensures_bind. intro st.
    apply ensures_ret. exists page. cbn. rewrite E. repeat split; auto. discriminate.
Qed.

Lemma run_ensures (w : World) fuel nodeData input options :
  ensures (ResultShape w) (run w fuel nodeData input options).
Proof.
  unfold run. cbv zeta. apply ensures_bind. intros [assistant|];
    [|apply ensures_throw].
  apply ensures_bind. intro credentialData.
  destruct (negb (truthyStr (getCredentialParam w "openAIApiKey" credentialData nodeData)));
    [apply ensures_throw|].
  apply ensures_tryCatch; [|intro; apply ensures_throw].
  unfold runBody. do 8 (apply ensures_bind; intro).
  unfold pollAndAssemble. do 3 (apply ensures_bind; intro).
  apply assemble_ensures.
Qed.

(** C3, counterexample.  The run completes and the thread lists no
    message of the assistant: [run] resolves to the empty string, which
    is neither an error nor the result object. *)
Lemma C3_counterexample :
  fst (run silent 3 (Sample.nodeDataWith None) "hi" Sample.options (initialSt [] []))
  = Returned (ResString "").
Proof. reflexivity. Qed.

(** C3, as amended.  An invocation of [run] that settles either throws
    an error, or returns the empty string, which it does only when the
    listed messages of the thread hold no message of the assistant, or
    returns the result object [{text, usedTools, assistant}], whose
    [assistant.messages] are the listed messages of
    [assistant.threadId].  (An invocation can also never settle.) *)
Theorem C3_output_shapes :
  forall (w : World) (fuel : nat) (nodeData : NodeData) (input : string)
         (options : Options) (s : St),
    (exists e, fst (run w fuel nodeData input options s) = Threw e) \/
    (fst (run w fuel nodeData input options s) = Returned (ResString "") /\
     exists threadId page,
       messages_list w threadId = Ok page /\ assistantMessagesOf page = []) \/
    (exists o page,
       fst (run w fuel nodeData input options s) = Returned (ResObject o) /\
       messages_list w (echo_threadId (res_assistant o)) = Ok page /\
       assistantMessagesOf page <> [] /\
       echo_messages (res_assistant o) = messageDataOf page) \/
    fst (run w fuel nodeData input options s) = Hung \/
    fst (run w fuel nodeData input options s) = OutOfFuel.
Proof.
  intros w fuel nodeData input options s.
  pose proof (@run_ensures w fuel nodeData input options s) as H.
  destruct (run w fuel nodeData input options s) as [[r|e| |] s'] eqn:E; cbn [fst].
  - specialize (H r s' eq_refl). destruct r as [text|o]; simpl in H.
    + destruct H as [-> H]. right. left. split; [reflexivity | exact H].
    + destruct H as [page H]. right. right. left. exists o, page. split; [reflexivity | exact H].
  - left. now exists e.
  - right. right. right. now left.
  - right. right. right. now right.
Qed.

(* ------------------------------------------------------------------ *)
(** *** Image files whose download fails *)

Lemma downloadFile_fails (w : World) fileObj filePath dirPath key s :
  downloadFails w fileObj key ->
  exists msg,
    downloadFile w fileObj filePath dirPath key s
    = (Returned tt,
       logged [EvFetch ("https://api.openai.com/v1/files/" ++ file_obj_id fileObj
                          ++ "/content");
               EvLog ConsoleError msg] s).
Proof.
  unfold downloadFails. cbv zeta.
  intros [[e H] | [response [H Hok]]]; unfold downloadFile; cbv zeta;
    unfold tryCatch; unfold bind at 1; rewrite H.
  - rewrite call_err. unfold emit.
    eexists. now rewrite logged_logged.
  - rewrite call_ok. unfold bind at 1. rewrite Hok. cbn [negb throw].
    unfold emit. eexists. now rewrite logged_logged.
Qed.

(** C2, the code against the claim.  When the download of an image file
    fails, [downloadFile] catches the failure, logs it and returns, and
    leaves the file cache as it was; but [run] then reads the cache file
    all the same.  If the file is not there the read throws and the
    invocation fails; if a file is there its content is embedded, so the
    markup of the image is not omitted either. *)
Theorem C2_failed_download_then_read :
  forall (w : World) (fileId : string) (rest : list ContentPart) (key returnVal : string)
         (s : St) (fileObj : FileObject),
    files_retrieve w fileId = Ok fileObj ->
    downloadFails w fileObj key ->
    (exists msg,
       downloadFile w fileObj (cachePath w fileObj) (cacheDir w) key
         (logged [EvFilesRetrieve fileId] s)
       = (Returned tt,
          logged [EvFilesRetrieve fileId;
                  EvFetch ("https://api.openai.com/v1/files/" ++ file_obj_id fileObj
                             ++ "/content");
                  EvLog ConsoleError msg] s)) /\
    (lookupFile (cachePath w fileObj) (files s) = None ->
     fst (renderContent w (ImageFilePart fileId :: rest) key returnVal s)
     = Threw (newError ("ENOENT: no such file or directory, open '"
                          ++ cachePath w fileObj ++ "'"))) /\
    (forall bitmap,
       lookupFile (cachePath w fileObj) (files s) = Some bitmap ->
       exists s',
         renderContent w (ImageFilePart fileId :: rest) key returnVal s
         = renderContent w rest key
             (returnVal ++ imgHTML (toBase64 w bitmap) (file_filename fileObj)) s').
Proof.
  intros w fileId rest key returnVal s fileObj Hf Hd.
  destruct (@downloadFile_fails w fileObj (cachePath w fileObj) (cacheDir w) key
              (logged [EvFilesRetrieve fileId] s) Hd) as [msg E].
  split; [exists msg; rewrite E; now rewrite logged_logged|].
  assert (renderContent w (ImageFilePart fileId :: rest) key returnVal s
            = bind (readFileSync (cachePath w fileObj))
                   (fun bitmap =>
                      renderContent w rest key
                        (returnVal ++ imgHTML (toBase64 w bitmap) (file_filename fileObj)))
                   (logged [EvFilesRetrieve fileId;
                            EvFetch ("https://api.openai.com/v1/files/"
                                       ++ file_obj_id fileObj ++ "/content");
                            EvLog ConsoleError msg] s)) as R.
  { cbn [renderContent]. unfold bind at 1. rewrite Hf, call_ok.
    cbv beta iota zeta. fold (cachePath w fileObj). fold (cacheDir w).
    unfold bind at 1. rewrite E. rewrite logged_logged. reflexivity. }
  split.
  - intro Hn. rewrite R. unfold bind at 1. unfold readFileSync.
    unfold bind at 1 2. unfold emit, getSt. cbn [files logged]. now rewrite Hn.
  - intros bitmap Hb. eexists. rewrite R. unfold bind at 1. unfold readFileSync.
    unfold bind at 1 2. unfold emit, getSt. cbn [files logged]. rewrite Hb.
    reflexivity.
Qed.

Lemma C2_witness :
  run refusedImage 3 (Sample.nodeDataWith None) "hi" Sample.options (initialSt [] [])
  = (Threw (newError
       "Error: ENOENT: no such file or directory, open '/home/u/.flowise/openai-assistant/plot.png'"),
     logged [EvMessagesList "thread_new";
             EvFilesRetrieve "file_1";
             EvFetch "https://api.openai.com/v1/files/file_1/content";
             EvLog ConsoleError
               "Error downloading or writing the file: Error: HTTP error! status: 404";
             EvReadFile "/home/u/.flowise/openai-assistant/plot.png"]
       (after [EvRunsRetrieve "thread_new" "run_1"; EvClearInterval] 1 false []
          (started (Sample.nodeDataWith None) "hi" Sample.options
             (sampleSetup [] None) (initialSt [] [])))) /\
  fst (renderContent refusedImage [ImageFilePart "file_1"] "sk-1" "See: "
         (initialSt [] []))
  = Threw (newError
      "ENOENT: no such file or directory, open '/home/u/.flowise/openai-assistant/plot.png'").
Proof.
  split; [reflexivity|].
  apply (proj1 (proj2 (@C2_failed_download_then_read refusedImage "file_1" [] "sk-1"
                         "See: " (initialSt [] []) (mkFileObject "file_1" "plot")
                         eq_refl
                         (or_intror (ex_intro _ (mkResponse false 404 "")
                                       (conj eq_refl eq_refl)))))).
  reflexivity.
Defined.

(* ================================================================== *)
(** ** Further properties *)

(* ------------------------------------------------------------------ *)
(** *** Listing the stored assistants *)

Lemma listLoop_ok (w : World) assistants returnData s :
  forallb (detailsObject w) assistants = true ->
  listLoop w assistants returnData s
  = (Returned (returnData ++ map (optionOf w) assistants), s).
Proof.
  revert returnData. induction assistants as [|assistant rest IH];
    intros returnData H; cbn [listLoop map].
  - now rewrite app_nil_r.
  - cbn [forallb] in H. apply andb_prop in H. destruct H as [Ha Hr].
    unfold optionOf at 1, detailsOf. unfold detailsObject in Ha.
    unfold bind at 1.
    destruct (JSON_parse w (assistant_details assistant)) as [[| | | | | |o]|e];
      try discriminate.
    cbn [await ret]. unfold bind at 1. cbn [getMember ret].
    unfold bind at 1. cbn [getMember ret].
    rewrite (IH _ Hr), <- app_assoc. reflexivity.
Qed.

(** X1.  With a data source, [listAssistants] offers one entry per
    stored assistant, in the order of the store: its [name] is the id of
    the assistant, its [label] and [description] are the [name] and
    [instructions] of the parsed details ([undefined] when the details
    have none).  Without a data source it offers the empty list. *)
Theorem X1_listAssistants_one_entry_each :
  forall (w : World) (assistants : list Assistant) (s : St),
    forallb (detailsObject w) assistants = true ->
    listAssistants w (Some (Ok assistants)) s
    = (Returned (map (optionOf w) assistants), s) /\
    map opt_name (map (optionOf w) assistants) = map assistant_id assistants /\
    listAssistants w None s = (Returned [], s).
Proof.
  intros w assistants s H. repeat split.
  - unfold listAssistants. unfold bind. cbn [await ret].
    now rewrite (listLoop_ok w assistants [] s H).
  - rewrite map_map. reflexivity.
Qed.

Lemma X1_witness :
  listAssistants catalogue
    (Some (Ok [mkAssistant "a-1" None "helper"; mkAssistant "a-2" None "tutor"]))
    (initialSt [] [])
  = (Returned [mkOption (VStr "Helper") "a-1" (VStr "Be brief");
               mkOption (VStr "Tutor") "a-2" VUndefined],
     initialSt [] []).
Proof.
  apply (proj1 (X1_listAssistants_one_entry_each catalogue
                  [mkAssistant "a-1" None "helper"; mkAssistant "a-2" None "tutor"]
                  (initialSt [] []) eq_refl)).
Defined.

(** X2.  One stored assistant whose details are not valid JSON makes
    [listAssistants] throw the error of [JSON.parse]: the entries made
    of the assistants before it are lost, and the assistants after it
    are not looked at. *)
Theorem X2_listAssistants_malformed_details :
  forall (w : World) (good : list Assistant) (bad : Assistant) (rest : list Assistant)
         (e : JsError) (s : St),
    forallb (detailsObject w) good = true ->
    JSON_parse w (assistant_details bad) = Err e ->
    listAssistants w (Some (Ok (good ++ bad :: rest))) s = (Threw e, s).
Proof.
  intros w good bad rest e s Hg Hb.
  unfold listAssistants. unfold bind at 1. cbn [await ret].
  assert (forall returnData,
            listLoop w (good ++ bad :: rest) returnData s = (Threw e, s)) as L.
  { induction good as [|assistant good IH]; intro returnData.
    - cbn [app listLoop]. unfold bind at 1. rewrite Hb. reflexivity.
    - cbn [forallb] in Hg. apply andb_prop in Hg. destruct Hg as [Ha Hg].
      unfold detailsObject in Ha. cbn [app listLoop]. unfold bind at 1.
      destruct (JSON_parse w (assistant_details assistant)) as [[| | | | | |o]|e'];
        try discriminate.
      cbn [await ret]. unfold bind at 1. cbn [getMember ret].
      unfold bind at 1. cbn [getMember ret].
      now apply IH. }
  apply L.
Qed.

Lemma X2_witness :
  listAssistants catalogue
    (Some (Ok [mkAssistant "a-1" None "helper"; mkAssistant "a-3" None "{";
               mkAssistant "a-2" None "tutor"]))
    (initialSt [] [])
  = (Threw (mkJsError "SyntaxError" "Unexpected end of JSON input"), initialSt [] []).
Proof.
  apply (@X2_listAssistants_malformed_details catalogue
           [mkAssistant "a-1" None "helper"] (mkAssistant "a-3" None "{")
           [mkAssistant "a-2" None "tutor"]
           (mkJsError "SyntaxError" "Unexpected end of JSON input") (initialSt [] [])).
  - reflexivity.
  - reflexivity.
Defined.

(* ------------------------------------------------------------------ *)
(** *** Failures of [run] before and inside the [try] *)

(** X3.  When the store has no assistant for the selection, [run]
    throws "Assistant <id> not found" after the store lookup alone: the
    credential is not read and nothing is asked of the remote API. *)
Theorem X3_run_assistant_not_found :
  forall (w : World) (fuel : nat) (nodeData : NodeData) (input : string)
         (options : Options) (s : St),
    findAssistant w (nd_selectedAssistant nodeData) = Ok None ->
    run w fuel nodeData input options s
    = (Threw (newError ("Assistant " ++ tmpl (nd_selectedAssistant nodeData)
                          ++ " not found")),
       logged [EvFindAssistant (nd_selectedAssistant nodeData)] s).
Proof.
  intros w fuel nodeData input options s H.
  unfold run. cbv zeta. unfold bind at 1. rewrite H, call_ok. reflexivity.
Qed.

Lemma X3_witness :
  run Sample.plain 3 (mkNodeData None) "hi" Sample.options (initialSt [] [])
  = (Threw (newError "Assistant undefined not found"),
     logged [EvFindAssistant None] (initialSt [] [])).
Proof.
  apply (X3_run_assistant_not_found Sample.plain 3 (mkNodeData None) "hi"
           Sample.options (initialSt [] [])).
  reflexivity.
Defined.

(** X4.  When the credential of the stored assistant gives no API key
    (none, or the empty string), [run] throws "OpenAI ApiKey not found"
    after the two lookups: no client is made and nothing is asked of the
    remote API. *)
Theorem X4_run_key_not_found :
  forall (w : World) (fuel : nat) (nodeData : NodeData) (input : string)
         (options : Options) (s : St) (assistant : Assistant) (credentialData : value),
    findAssistant w (nd_selectedAssistant nodeData) = Ok (Some assistant) ->
    getCredentialData w (credentialOrEmpty assistant) = Ok credentialData ->
    truthyStr (getCredentialParam w "openAIApiKey" credentialData nodeData) = false ->
    run w fuel nodeData input options s
    = (Threw (newError "OpenAI ApiKey not found"),
       logged [EvFindAssistant (nd_selectedAssistant nodeData);
               EvGetCredentialData (credentialOrEmpty assistant)] s).
Proof.
  intros w fuel nodeData input options s assistant credentialData Ha Hc Hk.
  unfold run. cbv zeta. run_call Ha. run_call Hc. rewrite Hk. cbn [negb].
  unfold throw. now rewrite logged_logged.
Qed.

(** X5.  Whatever is thrown inside the [try] of [run] reaches the caller
    as a fresh [Error] whose message is the string form of what was
    thrown, with nothing done in between.  Conversely, every error of
    [run] is a rejection of one of the two lookups made before the
    [try], or one of the two "not found" errors, or such a wrapping of
    what the body of the [try] threw. *)
Theorem X5_run_errors_are_wrapped :
  forall (w : World) (fuel : nat) (nodeData : NodeData) (input : string)
         (options : Options) (s : St),
    let tools := flatten (nd_tools nodeData) in
    let body (assistant : Assistant) (credentialData : value) :=
      runBody w fuel tools (map formatToOpenAIAssistantTool tools) assistant
        (tmpl (getCredentialParam w "openAIApiKey" credentialData nodeData))
        input options
        (logged [EvFindAssistant (nd_selectedAssistant nodeData);
                 EvGetCredentialData (credentialOrEmpty assistant)] s) in
    (forall assistant credentialData cause,
       findAssistant w (nd_selectedAssistant nodeData) = Ok (Some assistant) ->
       getCredentialData w (credentialOrEmpty assistant) = Ok credentialData ->
       truthyStr (getCredentialParam w "openAIApiKey" credentialData nodeData) = true ->
       fst (body assistant credentialData) = Threw cause ->
       run w fuel nodeData input options s
       = (Threw (newError (errorToString cause)), snd (body assistant credentialData))) /\
    (forall e,
       fst (run w fuel nodeData input options s) = Threw e ->
       findAssistant w (nd_selectedAssistant nodeData) = Err e \/
       (exists assistant,
          findAssistant w (nd_selectedAssistant nodeData) = Ok (Some assistant) /\
          getCredentialData w (credentialOrEmpty assistant) = Err e) \/
       e = newError ("Assistant " ++ tmpl (nd_selectedAssistant nodeData) ++ " not found") \/
       e = newError "OpenAI ApiKey not found" \/
       (exists assistant credentialData cause,
          findAssistant w (nd_selectedAssistant nodeData) = Ok (Some assistant) /\
          getCredentialData w (credentialOrEmpty assistant) = Ok credentialData /\
          truthyStr (getCredentialParam w "openAIApiKey" credentialData nodeData) = true /\
          fst (body assistant credentialData) = Threw cause /\
          e = newError (errorToString cause))).
Proof.
  intros w fuel nodeData input options s tools body. split.
  - intros assistant credentialData cause Ha Hc Hk Hb.
    unfold run. cbv zeta. run_call Ha. run_call Hc. rewrite Hk. cbn [negb].
    rewrite logged_logged. cbn [app]. unfold tryCatch.
    fold tools. fold (body assistant credentialData).
    destruct (body assistant credentialData) as [[r|c| |] s1];
      cbn [fst] in Hb; try discriminate.
    injection Hb as ->. reflexivity.
  - intro e.
    unfold run. cbv zeta. unfold bind at 1.
    destruct (findAssistant w (nd_selectedAssistant nodeData)) as [[assistant|]|e0] eqn:Ha.
    + rewrite call_ok. cbv beta iota. unfold bind at 1.
      destruct (getCredentialData w (credentialOrEmpty assistant)) as [cred|e1] eqn:Hc.
      * rewrite call_ok. cbv beta iota.
        destruct (truthyStr (getCredentialParam w "openAIApiKey" cred nodeData)) eqn:Hk;
          cbn [negb].
        -- rewrite logged_logged. cbn [app]. unfold tryCatch.
           fold tools. fold (body assistant cred).
           destruct (body assistant cred) as [[r|cause| |] s1] eqn:Hb;
             cbn; intro H; try discriminate.
           injection H as <-. right. right. right. right.
           exists assistant, cred, cause. rewrite Hb. repeat split; auto.
        -- cbn. intro H. injection H as <-. right. right. right. now left.
      * rewrite call_err. cbn. intro H. injection H as <-.
        right. left. exists assistant. now split.
    + rewrite call_ok. cbn. intro H. injection H as <-. right. right. now left.
    + rewrite call_err. cbn. intro H. injection H as <-. now left.
Qed.

Lemma X4_witness :
  run keyless 3 (Sample.nodeDataWith None) "hi" Sample.options (initialSt [] [])
  = (Threw (newError "OpenAI ApiKey not found"),
     logged [EvFindAssistant (Some "a-1"); EvGetCredentialData "cred-1"]
       (initialSt [] [])).
Proof.
  apply (@X4_run_key_not_found keyless 3 (Sample.nodeDataWith None) "hi"
           Sample.options (initialSt [] []) Sample.storedAssistant
           (VObj [("openAIApiKey", VStr "")])).
  - reflexivity.
  - reflexivity.
  - reflexivity.
Defined.

Lemma X5_witness :
  run (withParse Sample.plain (fun _ => Err (mkJsError "SyntaxError" "Unexpected token")))
      3 (Sample.nodeDataWith None) "hi" Sample.options (initialSt [] [])
  = (Threw (newError "SyntaxError: Unexpected token"),
     logged [EvFindAssistant (Some "a-1"); EvGetCredentialData "cred-1"]
       (initialSt [] [])).
Proof.
  apply (proj1 (@X5_run_errors_are_wrapped
                  (withParse Sample.plain
                     (fun _ => Err (mkJsError "SyntaxError" "Unexpected token")))
                  3 (Sample.nodeDataWith None) "hi" Sample.options (initialSt [] []))
           Sample.storedAssistant (VObj [("openAIApiKey", VStr "sk-1")])
           (mkJsError "SyntaxError" "Unexpected token")).
  - reflexivity.
  - reflexivity.
  - reflexivity.
  - reflexivity.
Defined.

(* ------------------------------------------------------------------ *)
(** *** Runs that complete, runs that never do *)

(** X6.  For an invocation that has started the run: polls that settle
    nothing (statuses such as [queued] and [in_progress], rejected
    retrievals) are waited out, and when a poll finds the run
    [completed] without any tool having been asked for, [run] lists the
    messages once and returns the text parts of the first assistant
    message of the list, concatenated in order, with no used tool; later
    assistant messages and the messages of the user do not show. *)
Theorem X6_completed_run_returns_text :
  forall (w : World) (fuel : nat) (nodeData : NodeData) (input : string)
         (options : Options) (su : Setup) (s : St) (k : nat) (finished : Run)
         (page : MessagesPage) (first : Message) (others : list Message),
    let threadId := thread_id (su_thread su) in
    let runId := run_id (su_run su) in
    Starts w nodeData input options su ->
    allWaiting w threadId runId (polls s) k = true ->
    runs_retrieve w (k + polls s) threadId runId = Ok finished ->
    run_status finished = "completed" ->
    messages_list w threadId = Ok page ->
    assistantMessagesOf page = first :: others ->
    forallb isText (msg_content first) = true ->
    k < fuel ->
    run w fuel nodeData input options s
    = (Returned (ResObject
         (mkResultObject (textOf (msg_content first)) []
            (mkAssistantEcho (prop (su_details su) "id") threadId runId
               (messageDataOf page)))),
       after (waitEvents w threadId runId (polls s) k
                ++ [EvRunsRetrieve threadId runId; EvClearInterval;
                    EvMessagesList threadId])
             (S k) false [] (started nodeData input options su s)).
Proof.
  intros w fuel nodeData input options su s k finished page first others threadId runId
         HS HW HR Hst Hl Hf Ht Hk.
  rewrite (run_polling fuel s HS).
  fold threadId runId.
  unfold tryCatch. unfold bind at 1.
  replace (fire w fuel) with (fire w (k + S (fuel - k - 1))) by (f_equal; lia).
  rewrite fire_waits_many by (try reflexivity; exact HW).
  erewrite fire_completed by (first [exact HR | exact Hst]).
  unfold bind at 1. rewrite whileRequiresAction_done.
  rewrite (assemble_text w _ _ _ _ _ Hl Hf Ht).
  f_equal.
  unfold logged, after. cbn [trace files dirs polls interval usedTools started].
  f_equal; rewrite <- ?app_assoc; try reflexivity; lia.
Qed.

Lemma X6_witness :
  run (Sample.world [] None
         [Sample.running "queued"; Err (newError "timeout"); Sample.running "in_progress"]
         (mkMessagesPage
            (Some [mkMessage "user" [TextPart "again"];
                   mkMessage "assistant" [TextPart "Hello "; TextPart "world"];
                   mkMessage "assistant" [TextPart "older"]]))
         (Err (newError "offline")) (Ok tt))
      4 (Sample.nodeDataWith None) "hi" Sample.options (initialSt [] [])
  = (Returned (ResObject
       (mkResultObject "Hello world" []
          (mkAssistantEcho (VStr "asst_1") "thread_new" "run_1"
             [mkMessage "user" [TextPart "again"];
              mkMessage "assistant" [TextPart "Hello "; TextPart "world"];
              mkMessage "assistant" [TextPart "older"]]))),
     after [EvRunsRetrieve "thread_new" "run_1";
            EvRunsRetrieve "thread_new" "run_1";
            EvUnhandledRejection (newError "timeout");
            EvRunsRetrieve "thread_new" "run_1";
            EvRunsRetrieve "thread_new" "run_1"; EvClearInterval;
            EvMessagesList "thread_new"]
           4 false []
           (started (Sample.nodeDataWith None) "hi" Sample.options
              (sampleSetup [] None) (initialSt [] []))).
Proof.
  apply (@X6_completed_run_returns_text
           (Sample.world [] None
              [Sample.running "queued"; Err (newError "timeout");
               Sample.running "in_progress"]
              (mkMessagesPage
                 (Some [mkMessage "user" [TextPart "again"];
                        mkMessage "assistant" [TextPart "Hello "; TextPart "world"];
                        mkMessage "assistant" [TextPart "older"]]))
              (Err (newError "offline")) (Ok tt))
           4 (Sample.nodeDataWith None) "hi" Sample.options
           (sampleSetup [] None) (initialSt [] []) 3
           (mkRun "run_1" "completed" None)
           (mkMessagesPage
              (Some [mkMessage "user" [TextPart "again"];
                     mkMessage "assistant" [TextPart "Hello "; TextPart "world"];
                     mkMessage "assistant" [TextPart "older"]]))
           (mkMessage "assistant" [TextPart "Hello "; TextPart "world"])
           [mkMessage "assistant" [TextPart "older"]]).
  - apply sample_starts.
  - reflexivity.
  - reflexivity.
  - reflexivity.
  - reflexivity.
  - reflexivity.
  - reflexivity.
  - lia.
Defined.

Lemma allWaiting_always (w : World) threadId runId :
  (forall n, waiting (runs_retrieve w n threadId runId) = true) ->
  forall k n, allWaiting w threadId runId n k = true.
Proof.
  intros H k. induction k as [|k IH]; intro n; simpl.
  - reflexivity.
  - now rewrite H, IH.
Qed.

(** X7.  Polling has no bound of its own.  For an invocation that has
    started the run and whose polls never find a status the callback
    acts on (the run stays [queued], or is [requires_action] without a
    required action, or every retrieval is rejected), [run] is still
    polling after any number of timer ticks: after [fuel] ticks it has
    made [fuel] retrievals, the timer is armed, and nothing was returned
    or thrown. *)
Theorem X7_polling_has_no_bound :
  forall (w : World) (nodeData : NodeData) (input : string) (options : Options)
         (su : Setup) (s : St),
    let threadId := thread_id (su_thread su) in
    let runId := run_id (su_run su) in
    Starts w nodeData input options su ->
    (forall n, waiting (runs_retrieve w n threadId runId) = true) ->
    forall fuel,
      run w fuel nodeData input options s
      = (OutOfFuel,
         after (waitEvents w threadId runId (polls s) fuel) fuel true []
               (started nodeData input options su s)).
Proof.
  intros w nodeData input options su s threadId runId HS HW fuel.
  rewrite (run_polling fuel s HS).
  fold threadId runId.
  unfold tryCatch. unfold bind at 1.
  replace (fire w fuel) with (fire w (fuel + 0)) by (f_equal; lia).
  rewrite fire_waits_many
    by (try reflexivity; apply allWaiting_always; exact HW).
  reflexivity.
Qed.

Lemma stalled_starts :
  Starts stalled (Sample.nodeDataWith None) "hi" Sample.options (sampleSetup [] None).
Proof.
  unfold Starts, Resolves. repeat split; try reflexivity.
  - exists (VObj [("openAIApiKey", VStr "sk-1")]). split; reflexivity.
  - left. reflexivity.
Qed.

Lemma X7_witness :
  run stalled 5 (Sample.nodeDataWith None) "hi" Sample.options (initialSt [] [])
  = (OutOfFuel,
     after [EvRunsRetrieve "thread_new" "run_1"; EvRunsRetrieve "thread_new" "run_1";
            EvRunsRetrieve "thread_new" "run_1"; EvRunsRetrieve "thread_new" "run_1";
            EvRunsRetrieve "thread_new" "run_1"]
           5 true []
           (started (Sample.nodeDataWith None) "hi" Sample.options
              (sampleSetup [] None) (initialSt [] []))).
Proof.
  apply (@X7_polling_has_no_bound stalled (Sample.nodeDataWith None) "hi"
           Sample.options (sampleSetup [] None) (initialSt [] [])).
  - exact stalled_starts.
  - intro n. reflexivity.
Defined.




(* ------------------------------------------------------------------ *)
(** *** The image cache *)


(** What the cache file holds when the body has ended: the bytes flushed
    so far, or what it held before when the stream has not opened it. *)
Lemma downloadFile_body_ends (w : World) fileObj filePath dirPath key s response flushed :
  fetch w ("https://api.openai.com/v1/files/" ++ file_obj_id fileObj ++ "/content") key
    = Ok response ->
  resp_ok response = true ->
  pipe w filePath (resp_body response) = PipeEnd flushed ->
  downloadFile w fileObj filePath dirPath key s
  = (Returned tt,
     mkSt (trace s
             ++ [EvFetch ("https://api.openai.com/v1/files/" ++ file_obj_id fileObj
                            ++ "/content")]
             ++ (if existsDir dirPath (dirs s) then []
                 else [EvMkdir (path_dirname w filePath)])
             ++ [EvWriteFile filePath;
                 EvLog ConsoleLog ("File downloaded and written to " ++ filePath)])
          (match flushed with
           | Some n => (filePath, substring 0 n (resp_body response)) :: files s
           | None => files s
           end)
          (if existsDir dirPath (dirs s) then dirs s
           else path_dirname w filePath :: dirs s)
          (polls s) (interval s) (usedTools s)).
Proof.
  intros Hfetch Hok Hpipe.
  unfold downloadFile. cbv zeta. unfold tryCatch, bind, call, bind, emit, await.
  rewrite Hfetch. cbn [ret]. rewrite Hok. cbn [negb ret existsSync].
  unfold existsSync, logged. cbn [dirs trace files polls interval usedTools].
  destruct (existsDir dirPath (dirs s)); cbn [negb ret mkdirSync];
    unfold mkdirSync, storeFile, ret;
    cbn [dirs trace files polls interval usedTools];
    rewrite Hpipe; destruct flushed;
    cbn [dirs trace files polls interval usedTools];
    f_equal; f_equal; rewrite <- !app_assoc; reflexivity.
Qed.

Lemma lookupFile_after_end (path : string) (flushed : option nat) (body : string)
    (fs : list (string * string)) :
  lookupFile path (match flushed with
                   | Some n => (path, substring 0 n body) :: fs
                   | None => fs
                   end)
  = fileAfterEnd flushed body (lookupFile path fs).
Proof.
  destruct flushed; cbn [lookupFile fileAfterEnd]; [now rewrite String.eqb_refl | reflexivity].
Qed.

Lemma substring_all (n : nat) (body : string) :
  String.length body <= n -> substring 0 n body = body.
Proof.
  revert n. induction body as [|c body IH]; intros n H.
  - destruct n; reflexivity.
  - destruct n as [|n]; cbn in H; [lia|].
    cbn. rewrite IH by lia. reflexivity.
Qed.

(** X10.  [run] does not wait for the write stream: once the body of the
    download has ended it reads the cache file at once and embeds what
    the file holds at that moment.  That is the part of the fetched
    bytes flushed so far (all of them only when the flush is complete),
    or the older file of that name when the stream has not opened the
    file yet; with no file there, the read throws.  The cache directory
    is made only when it is not there. *)
Theorem X10_embedded_image_is_file_at_body_end :
  forall (w : World) (fileId : string) (rest : list ContentPart) (key returnVal : string)
         (s : St) (fileObj : FileObject) (response : Response) (flushed : option nat),
    files_retrieve w fileId = Ok fileObj ->
    fetch w ("https://api.openai.com/v1/files/" ++ file_obj_id fileObj ++ "/content") key
      = Ok response ->
    resp_ok response = true ->
    pipe w (cachePath w fileObj) (resp_body response) = PipeEnd flushed ->
    match fileAfterEnd flushed (resp_body response)
            (lookupFile (cachePath w fileObj) (files s)) with
    | Some bytes =>
        exists s',
          renderContent w (ImageFilePart fileId :: rest) key returnVal s
          = renderContent w rest key
              (returnVal ++ imgHTML (toBase64 w bytes) (file_filename fileObj)) s' /\
          lookupFile (cachePath w fileObj) (files s') = Some bytes /\
          dirs s' = (if existsDir (cacheDir w) (dirs s) then dirs s
                     else path_dirname w (cachePath w fileObj) :: dirs s) /\
          (forall n, flushed = Some n -> String.length (resp_body response) <= n ->
                     bytes = resp_body response)
    | None =>
        fst (renderContent w (ImageFilePart fileId :: rest) key returnVal s)
        = Threw (newError ("ENOENT: no such file or directory, open '"
                             ++ cachePath w fileObj ++ "'"))
    end.
Proof.
  intros w fileId rest key returnVal s fileObj response flushed Hf Hfetch Hok Hpipe.
  destruct (fileAfterEnd flushed (resp_body response)
              (lookupFile (cachePath w fileObj) (files s))) as [bytes|] eqn:E;
    [exists (logged [EvReadFile (cachePath w fileObj)]
              (snd (downloadFile w fileObj (cachePath w fileObj) (cacheDir w) key
                      (logged [EvFilesRetrieve fileId] s))))|];
    cbn [renderContent]; unfold bind at 1; rewrite Hf, call_ok; cbv beta iota zeta;
    fold (cachePath w fileObj); fold (cacheDir w);
    unfold bind at 1;
    rewrite (@downloadFile_body_ends w fileObj (cachePath w fileObj) (cacheDir w) key
               (logged [EvFilesRetrieve fileId] s) response flushed Hfetch Hok Hpipe);
    unfold bind at 1; unfold readFileSync; unfold bind at 1; unfold emit;
    unfold bind at 1; unfold getSt;
    cbn [files logged dirs trace polls interval usedTools snd];
    rewrite !lookupFile_after_end, E.
  - repeat split.
    intros n -> Hn. cbn [fileAfterEnd] in E. injection E as <-.
    now apply substring_all.
  - reflexivity.
Qed.

Lemma X10_witness :
  exists s',
    renderContent
      (withPipe Sample.plain (Ok (mkResponse true 200 "PNG-bytes")) (PipeEnd (Some 3)))
      [ImageFilePart "file_1"] "sk-1" "See: "
      (initialSt [("/home/u/.flowise/openai-assistant/plot.png", "stale")] [])
    = renderContent
        (withPipe Sample.plain (Ok (mkResponse true 200 "PNG-bytes")) (PipeEnd (Some 3)))
        [] "sk-1" ("See: " ++ imgHTML "b64:PNG" "plot") s' /\
    lookupFile "/home/u/.flowise/openai-assistant/plot.png" (files s') = Some "PNG" /\
    dirs s' = ["/home/u/.flowise/openai-assistant"] /\
    (forall n, Some 3 = Some n -> 9 <= n -> "PNG" = "PNG-bytes").
Proof.
  apply (@X10_embedded_image_is_file_at_body_end
           (withPipe Sample.plain (Ok (mkResponse true 200 "PNG-bytes")) (PipeEnd (Some 3)))
           "file_1" [] "sk-1" "See: "
           (initialSt [("/home/u/.flowise/openai-assistant/plot.png", "stale")] [])
           (mkFileObject "file_1" "plot") (mkResponse true 200 "PNG-bytes") (Some 3)).
  - reflexivity.
  - reflexivity.
  - reflexivity.
  - reflexivity.
Defined.

(* ------------------------------------------------------------------ *)
(** *** More on the reconciliation of the tool lists *)

Section UniqWithMore.

Variable A : Type.
Variable comparator : A -> A -> bool.

Lemma baseUniq_app (l1 l2 result : list A) :
  baseUniq comparator result (l1 ++ l2)
  = baseUniq comparator (baseUniq comparator result l1) l2.
Proof.
  revert result. induction l1 as [|v l1 IH]; intro result; simpl.
  - reflexivity.
  - destruct (arrayIncludesWith result v comparator); apply IH.
Qed.

Lemma baseUniq_of_keptOnce (l result : list A) :
  KeptOnce comparator (result ++ l) ->
  baseUniq comparator result l = result ++ l.
Proof.
  revert result. induction l as [|v l IH]; intros result K; simpl.
  - now rewrite app_nil_r.
  - assert (arrayIncludesWith result v comparator = false) as N.
    { unfold arrayIncludesWith.
      destruct (existsb (fun seen => comparator v seen) result) eqn:E; [|reflexivity].
      apply existsb_exists in E. destruct E as [x [Hx Hc]].
      rewrite (keptOnce_split K result v l eq_refl x Hx) in Hc. discriminate. }
    rewrite N. rewrite IH.
    + now rewrite <- app_assoc.
    + now rewrite <- app_assoc.
Qed.

Lemma baseUniq_absorbs (l result : list A) :
  (forall x, In x l -> arrayIncludesWith result x comparator = true) ->
  baseUniq comparator result l = result.
Proof.
  induction l as [|v l IH]; intro H; simpl.
  - reflexivity.
  - rewrite (H v (or_introl eq_refl)). apply IH. intros x Hx. apply H. now right.
Qed.

Lemma baseUniq_added_members (l result added : list A) :
  baseUniq comparator result l = result ++ added ->
  forall x, In x added -> In x l.
Proof.
  revert result added. induction l as [|v l IH]; intros result added Hb x Hx;
    simpl in Hb.
  - rewrite <- (app_nil_r result) in Hb at 1.
    apply app_inv_head in Hb. subst added. contradiction.
  - destruct (arrayIncludesWith result v comparator).
    + right. exact (IH result added Hb x Hx).
    + destruct (baseUniq_extends comparator l (result ++ [v])) as [added' Hb'].
      rewrite Hb', <- app_assoc in Hb. apply app_inv_head in Hb. subst added.
      destruct Hx as [<- | Hx]; [now left|].
      right. exact (IH (result ++ [v]) added' Hb' x Hx).
Qed.

Lemma keptOnce_filter (keep : A -> bool) (l : list A) :
  KeptOnce comparator l -> KeptOnce comparator (filter keep l).
Proof.
  induction 1 as [|l v K IH Hv].
  - constructor.
  - rewrite filter_app. cbn [filter]. destruct (keep v).
    + constructor; [exact IH|].
      unfold arrayIncludesWith in *.
      destruct (existsb (fun seen => comparator v seen) (filter keep l)) eqn:E;
        [|reflexivity].
      apply existsb_exists in E. destruct E as [x [Hx Hc]].
      apply filter_In in Hx. destruct Hx as [Hx _].
      assert (existsb (fun seen => comparator v seen) l = true) as T
        by (apply existsb_exists; eauto).
      congruence.
    + now rewrite app_nil_r.
Qed.

Lemma filter_filter (keep : A -> bool) (l : list A) :
  filter keep (filter keep l) = filter keep l.
Proof.
  induction l as [|x l IH]; simpl; [reflexivity|].
  destruct (keep x) eqn:E; simpl; [rewrite E|]; now rewrite ?IH.
Qed.

End UniqWithMore.

(** X12.  Reconciliation leaves the remote tools in front, in their
    order: the pushed list is what the remote list alone would give (its
    entries de-duplicated, the functions without a body dropped),
    followed by formatted local tools only.  Which local tools are given
    never removes or moves a remote tool. *)
Theorem X12_remote_tools_stay_in_front :
  forall (remote formatted : list JsObject),
    exists added,
      filteredTools remote formatted = filteredTools remote [] ++ added /\
      (forall tool, In tool added -> In tool formatted /\ keepTool tool = true).
Proof.
  intros remote formatted. unfold filteredTools, uniqWith.
  rewrite app_nil_r, baseUniq_app.
  destruct (baseUniq_extends isEqualTool formatted (baseUniq isEqualTool [] remote))
    as [added E].
  exists (filter keepTool added). split.
  - now rewrite E, filter_app.
  - intros tool Hin. apply filter_In in Hin. destruct Hin as [Hin Hk].
    split; [|exact Hk].
    exact (@baseUniq_added_members _ isEqualTool formatted _ added E tool Hin).
Qed.

Lemma formatted_tool_is_pushed (remote : list JsObject) (tools : list Tool) (tool : Tool) :
  In tool tools ->
  exists entry,
    In entry (filteredTools remote (map formatToOpenAIAssistantTool tools)) /\
    (entry = formatToOpenAIAssistantTool tool \/
     isEqualTool (formatToOpenAIAssistantTool tool) entry = true).
Proof.
  intro Hin.
  assert (In (formatToOpenAIAssistantTool tool)
            (remote ++ map formatToOpenAIAssistantTool tools)) as Hf
    by (apply in_or_app; right; now apply in_map).
  unfold filteredTools, uniqWith.
  destruct (baseUniq_covers isEqualTool _ [] _ Hf) as [H | [y [Hy Hc]]].
  - exists (formatToOpenAIAssistantTool tool). split; [|now left].
    apply filter_In. split; [exact H | apply keepTool_formatted].
  - exists y. split; [|now right].
    apply filter_In. split; [exact Hy | exact (keepTool_of_isEqual tool y Hc)].
Qed.

(** X13.  Reconciliation loses no local tool: for every local tool the
    pushed list holds its formatted entry, or an entry deeply equal to
    it. *)
Theorem X13_every_local_tool_is_pushed :
  forall (remote : list JsObject) (tools : list Tool) (tool : Tool),
    In tool tools ->
    exists entry,
      In entry (filteredTools remote (map formatToOpenAIAssistantTool tools)) /\
      (entry = formatToOpenAIAssistantTool tool \/
       isEqualTool (formatToOpenAIAssistantTool tool) entry = true).
Proof.
  intros remote tools tool Hin. now apply formatted_tool_is_pushed.
Qed.

Lemma X13_witness :
  exists entry,
    In entry (filteredTools [remoteCalculator]
                (map formatToOpenAIAssistantTool [Sample.calculator; Sample.search])) /\
    (entry = formatToOpenAIAssistantTool Sample.calculator \/
     isEqualTool (formatToOpenAIAssistantTool Sample.calculator) entry = true).
Proof.
  apply (X13_every_local_tool_is_pushed [remoteCalculator]
           [Sample.calculator; Sample.search] Sample.calculator).
  left. reflexivity.
Defined.

Lemma value_nested_ind (P : value -> Prop) :
  P VUndefined -> P VNull -> (forall b, P (VBool b)) -> (forall z, P (VNum z)) ->
  (forall s, P (VStr s)) ->
  (forall l, Forall P l -> P (VArr l)) ->
  (forall l, Forall (fun kv => P (snd kv)) l -> P (VObj l)) ->
  forall v, P v.
Proof.
  intros Hu Hn Hb Hz Hs Ha Ho.
  fix IH 1. intros [| |b|z|s|l|l];
    [exact Hu | exact Hn | apply Hb | apply Hz | apply Hs | | ].
  - apply Ha. induction l as [|x l IHl]; constructor; [apply IH | exact IHl].
  - apply Ho. induction l as [|[k x] l IHl]; constructor; [apply IH | exact IHl].
Qed.

(** Two objects with as many properties are deeply equal when every
    property of the first is owned by the second with a deeply equal
    value, in whatever order. *)
Lemma isEqual_objects (xs ys : list (string * value)) :
  length xs = length ys ->
  (forall k v, In (k, v) xs ->
     exists v', lookupProp k ys = Some v' /\ isEqual v v' = true) ->
  isEqual (VObj xs) (VObj ys) = true.
Proof.
  intros Hlen H. cbn [isEqual].
  rewrite (proj2 (Nat.eqb_eq _ _) Hlen). cbn [andb]. clear Hlen.
  induction xs as [|[k v] xs IH].
  - reflexivity.
  - destruct (H k v (or_introl eq_refl)) as [v' [Hl He]].
    rewrite Hl, He. cbn [andb]. apply IH.
    intros k0 v0 Hin. apply H. now right.
Qed.

Lemma lookupProp_nodup (l : list (string * value)) (k : string) (v : value) :
  nodupKeys (map fst l) = true -> In (k, v) l -> lookupProp k l = Some v.
Proof.
  induction l as [|[k' v'] l IH]; intros N Hin; [contradiction|].
  cbn [map fst nodupKeys] in N. apply andb_prop in N. destruct N as [Nk N].
  cbn [lookupProp]. destruct Hin as [E | Hin].
  - injection E as -> ->. now rewrite String.eqb_refl.
  - destruct (String.eqb_spec k k') as [->|_]; [|now apply IH].
    apply negb_true_iff in Nk.
    assert (existsb (String.eqb k') (map fst l) = true) as T.
    { apply existsb_exists. exists k'. split; [|apply String.eqb_refl].
      change k' with (fst (k', v)). now apply in_map. }
    congruence.
Qed.

(** On documents without a doubled property, [isEqual] relates every
    document to itself. *)
Lemma isEqual_refl (v : value) : wellFormed v = true -> isEqual v v = true.
Proof.
  induction v as [| |b|z|s|l IH|l IH] using value_nested_ind; intro W;
    try reflexivity.
  - destruct b; reflexivity.
  - apply Z.eqb_refl.
  - apply String.eqb_refl.
  - cbn [wellFormed] in W. induction l as [|x l IHl]; [reflexivity|].
    cbn [forallb] in W. apply andb_prop in W. destruct W as [Wx Wl].
    inversion IH as [|? ? Hx Hl]; subst.
    specialize (IHl Hl Wl). cbn [isEqual] in *. now rewrite (Hx Wx), IHl.
  - cbn [wellFormed] in W. apply andb_prop in W. destruct W as [N W].
    apply isEqual_objects; [reflexivity|].
    intros k v Hin. exists v. split; [now apply lookupProp_nodup|].
    rewrite Forall_forall in IH. rewrite forallb_forall in W.
    exact (IH (k, v) Hin (W (k, v) Hin)).
Qed.

Lemma isEqualTool_formatted_refl (tool : Tool) :
  wellFormed (tool_jsonSchema tool) = true ->
  isEqualTool (formatToOpenAIAssistantTool tool) (formatToOpenAIAssistantTool tool) = true.
Proof.
  intro W. unfold isEqualTool. apply isEqual_refl.
  unfold formatToOpenAIAssistantTool. cbn. now rewrite W.
Qed.

(** X11.  Reconciliation is idempotent: reconciling the list that was
    pushed with the same local tools (whose JSON schemas are documents
    without a doubled property) pushes that list again.  Invoking [run]
    repeatedly with the same tools does not grow the tool list of the
    remote assistant. *)
Theorem X11_reconciliation_is_idempotent :
  forall (remote : list JsObject) (tools : list Tool),
    (forall tool, In tool tools -> wellFormed (tool_jsonSchema tool) = true) ->
    filteredTools (filteredTools remote (map formatToOpenAIAssistantTool tools))
                  (map formatToOpenAIAssistantTool tools)
    = filteredTools remote (map formatToOpenAIAssistantTool tools).
Proof.
  intros remote tools W.
  set (formatted := map formatToOpenAIAssistantTool tools).
  set (pushed := filteredTools remote formatted).
  assert (KeptOnce isEqualTool pushed) as K.
  { unfold pushed, filteredTools, uniqWith. apply keptOnce_filter.
    apply baseUniq_keptOnce. constructor. }
  assert (forall x, In x formatted -> arrayIncludesWith pushed x isEqualTool = true) as C.
  { intros x Hx. unfold formatted in Hx. apply in_map_iff in Hx.
    destruct Hx as [tool [<- Ht]].
    destruct (formatted_tool_is_pushed remote tools tool Ht)
      as [entry [He [-> | Hc]]];
      unfold arrayIncludesWith; apply existsb_exists.
    - exists (formatToOpenAIAssistantTool tool). split; [exact He|].
      apply isEqualTool_formatted_refl. now apply W.
    - exists entry. now split. }
  unfold filteredTools at 1. unfold uniqWith.
  rewrite baseUniq_app.
  rewrite (baseUniq_of_keptOnce (comparator := isEqualTool) pushed []) by exact K.
  cbn [app]. rewrite (baseUniq_absorbs isEqualTool formatted pushed C).
  unfold pushed, filteredTools. apply filter_filter.
Qed.

Lemma X11_witness :
  filteredTools
    (filteredTools [remoteCalculator]
       (map formatToOpenAIAssistantTool [Sample.calculator; Sample.search]))
    (map formatToOpenAIAssistantTool [Sample.calculator; Sample.search])
  = filteredTools [remoteCalculator]
      (map formatToOpenAIAssistantTool [Sample.calculator; Sample.search]).
Proof.
  apply (X11_reconciliation_is_idempotent [remoteCalculator]
           [Sample.calculator; Sample.search]).
  intros tool [<- | [<- | []]]; reflexivity.
Defined.

(* ------------------------------------------------------------------ *)
(** *** What the two operations never do *)

(** X14.  [clearSessionMemory] only reads the store and the credential,
    logs through the logger of the host, and deletes: whatever the
    collaborators answer, it makes at most one [threads.del] call and no
    other call of the remote API, and it always ends, by returning or by
    throwing. *)
Theorem X14_clearSessionMemory_only_deletes :
  forall (w : World) (nodeData : NodeData) (options : Options) (s : St),
    exists evs,
      trace (snd (clearSessionMemory w nodeData options s)) = trace s ++ evs /\
      forallb teardownEvent evs = true /\
      length (filter isThreadsDel evs) <= 1 /\
      fst (clearSessionMemory w nodeData options s) <> Hung /\
      fst (clearSessionMemory w nodeData options s) <> OutOfFuel.
Proof.
  intros w nodeData options s.
  unfold clearSessionMemory. cbv zeta.
  unfold bind, call, bind, emit, await, ret, throw, logged.
  destruct (findAssistant w (nd_selectedAssistant nodeData)) as [[assistant|]|e0];
    cbn [trace files dirs polls interval usedTools fst snd].
  2, 3: eexists; rewrite <- ?app_assoc; split; [reflexivity|];
        repeat split; try reflexivity; try discriminate; cbn; lia.
  destruct (negb (truthyStr (nd_sessionId nodeData)) && truthyStr (chatId options)).
  - destruct (findChatMessage w (chatId options)) as [[chatmsg|]|e1];
      cbn [trace files dirs polls interval usedTools fst snd].
    2, 3: eexists; rewrite <- ?app_assoc; split; [reflexivity|];
          repeat split; try reflexivity; try discriminate; cbn; lia.
    destruct (getCredentialData w (credentialOrEmpty assistant)) as [cred|e2];
      cbn [trace files dirs polls interval usedTools fst snd].
    2: eexists; rewrite <- ?app_assoc; split; [reflexivity|];
       repeat split; try reflexivity; try discriminate; cbn; lia.
    destruct (negb (truthyStr (getCredentialParam w "openAIApiKey" cred nodeData)));
      cbn [trace files dirs polls interval usedTools fst snd].
    1: eexists; rewrite <- ?app_assoc; split; [reflexivity|];
       repeat split; try reflexivity; try discriminate; cbn; lia.
    destruct (threads_del w (Some (cm_sessionId chatmsg))) as [u|e3];
      cbn [trace files dirs polls interval usedTools fst snd];
      eexists; rewrite <- ?app_assoc; (split; [reflexivity|]);
      repeat split; try reflexivity; try discriminate; cbn; lia.
  - destruct (getCredentialData w (credentialOrEmpty assistant)) as [cred|e2];
      cbn [trace files dirs polls interval usedTools fst snd].
    2: eexists; rewrite <- ?app_assoc; split; [reflexivity|];
       repeat split; try reflexivity; try discriminate; cbn; lia.
    destruct (negb (truthyStr (getCredentialParam w "openAIApiKey" cred nodeData)));
      cbn [trace files dirs polls interval usedTools fst snd].
    1: eexists; rewrite <- ?app_assoc; split; [reflexivity|];
       repeat split; try reflexivity; try discriminate; cbn; lia.
    destruct (threads_del w (nd_sessionId nodeData)) as [u|e3];
      cbn [trace files dirs polls interval usedTools fst snd];
      eexists; rewrite <- ?app_assoc; (split; [reflexivity|]);
      repeat split; try reflexivity; try discriminate; cbn; lia.
Qed.

Lemma run_appends_no_delete (w : World) fuel nodeData input options :
  appends (fun ev => negb (isThreadsDel ev) && negb (teardownLog ev))
          (run w fuel nodeData input options).
Proof.
  unfold run, runBody. cbv zeta. frame.
  apply appends_weaken with (P := lateEvent);
    [intros [] H; try reflexivity; try discriminate;
     match goal with l : LogLevel |- _ => destruct l; try reflexivity; discriminate end|].
  apply pollAndAssemble_appends.
Qed.

(** X15.  [run] never deletes a thread and never writes to the logger of
    the host: whatever the collaborators answer and however the
    invocation ends, its log holds no [threads.del] call and no
    [logger.error] or [logger.info] entry (failures of the image
    download go to the console). *)
Theorem X15_run_never_deletes_a_thread :
  forall (w : World) (fuel : nat) (nodeData : NodeData) (input : string)
         (options : Options) (s : St),
    exists evs,
      trace (snd (run w fuel nodeData input options s)) = trace s ++ evs /\
      (forall session, ~ In (EvThreadsDel session) evs) /\
      (forall msg, ~ In (EvLog LogError msg) evs /\ ~ In (EvLog LogInfo msg) evs).
Proof.
  intros w fuel nodeData input options s.
  destruct (run_appends_no_delete w fuel nodeData input options s) as [evs [E F]].
  exists evs. split; [exact E|].
  rewrite forallb_forall in F.
  split; [|split]; intros; intro Hin; specialize (F _ Hin); discriminate.
Qed.

(* ------------------------------------------------------------------ *)
(** *** The used tools of a result *)

Lemma tracks_refl (s : St) : Tracks s s.
Proof. exists [], []. now rewrite !app_nil_r. Qed.

Lemma tracks_trans (s1 s2 s3 : St) : Tracks s1 s2 -> Tracks s2 s3 -> Tracks s1 s3.
Proof.
  intros [e1 [r1 [T1 [U1 F1]]]] [e2 [r2 [T2 [U2 F2]]]].
  exists (e1 ++ e2), (r1 ++ r2). repeat split.
  - now rewrite T2, T1, app_assoc.
  - now rewrite U2, U1, app_assoc.
  - now rewrite filter_app, map_app, F1, F2.
Qed.

(** Logging calls that are not tool calls. *)
Lemma tracks_logged (evs : list Event) (s : St) :
  filter isToolCall evs = [] -> Tracks s (logged evs s).
Proof.
  intro H. exists evs, []. cbn. now rewrite app_nil_r.
Qed.

Lemma tracks_armed (b : bool) (s : St) : Tracks s (armed b s).
Proof. exists [], []. cbn. now rewrite !app_nil_r. Qed.

Lemma tracking_tracked {A : Type} (m : M A) : tracking m -> tracked m.
Proof.
  intros H s. specialize (H s). destruct (m s) as [[a|e| |] s']; auto. tauto.
Qed.

Lemma tracking_bind {A B : Type} (m : M A) (k : A -> M B) :
  tracking m -> (forall a, tracking (k a)) -> tracking (bind m k).
Proof.
  intros Hm Hk s. unfold bind. specialize (Hm s).
  destruct (m s) as [[a|e| |] s1]; auto.
  destruct Hm as [T1 I1]. specialize (Hk a s1).
  destruct (k a s1) as [[b|e| |] s2]; auto.
  - destruct Hk as [T2 I2]. split; [exact (tracks_trans T1 T2) | congruence].
  - congruence.
Qed.

Lemma tracked_bind {A B : Type} (m : M A) (k : A -> M B) :
  tracked m -> (forall a, tracked (k a)) -> tracked (bind m k).
Proof.
  intros Hm Hk s. unfold bind. specialize (Hm s).
  destruct (m s) as [[a|e| |] s1]; auto.
  specialize (Hk a s1).
  destruct (k a s1) as [[b|e| |] s2]; auto.
  exact (tracks_trans Hm Hk).
Qed.

Lemma tracking_ret {A : Type} (a : A) : tracking (ret a).
Proof. intro s. cbn. split; [apply tracks_refl | reflexivity]. Qed.

Lemma tracking_throw {A : Type} (e : JsError) : tracking (@throw A e).
Proof. intro s. reflexivity. Qed.

Lemma tracking_await {A : Type} (r : JsResult A) : tracking (await r).
Proof. destruct r; [apply tracking_ret | apply tracking_throw]. Qed.

Lemma tracking_emit (ev : Event) : isToolCall ev = false -> tracking (emit ev).
Proof.
  intros H s. cbn. split; [|reflexivity].
  apply tracks_logged. cbn. now rewrite H.
Qed.

Lemma tracking_call {A : Type} (ev : Event) (r : JsResult A) :
  isToolCall ev = false -> tracking (call ev r).
Proof.
  intro H. unfold call. apply tracking_bind; [now apply tracking_emit|].
  intros _. apply tracking_await.
Qed.

Lemma tracking_parseActions (w : World) tool_calls actions :
  tracking (parseActions w tool_calls actions).
Proof.
  revert actions. induction tool_calls as [|item rest IH]; intro actions; cbn [parseActions].
  - apply tracking_ret.
  - apply tracking_bind; [apply tracking_await|]. intro args. apply IH.
Qed.

(** One matched tool, lines 202-211: the call and its record. *)
Lemma tracking_callTools tools actions outs : tracking (callTools tools actions outs).
Proof.
  revert outs. induction actions as [|action rest IH]; intro outs; cbn [callTools].
  - apply tracking_ret.
  - destruct (findTool tools (act_tool action)) as [tool|]; [|apply IH].
    intro s. unfold bind at 1. unfold call, bind, emit.
    destruct (tool_call tool (act_toolInput action)) as [out|e]; cbn [await ret throw].
    + unfold pushUsedTool. cbv beta iota.
      match goal with
      | |- context [callTools tools rest ?o ?st] =>
          pose proof (IH o st) as H; destruct (callTools tools rest o st) as [[r|e| |] s2]
      end; auto.
      destruct H as [T I]. split; [|exact I].
      refine (tracks_trans _ T).
      exists [EvToolCall (tool_name tool) (act_toolInput action)],
             [mkUsedTool (tool_name tool) (act_toolInput action) out].
      repeat split.
    + reflexivity.
Qed.

Section TrackedPolling.

Variable w : World.
Variable tools : list Tool.
Variables threadId runId : string.

(** The callback: when it returns the correspondence holds; when it
    throws, either it holds with the timer as it was, or the timer was
    cleared. *)
Lemma callback_tracks s :
  match callback w tools threadId runId s with
  | (Returned _, s') => Tracks s s'
  | (Threw _, s') => (Tracks s s' /\ interval s' = interval s) \/ interval s' = false
  | _ => True
  end.
Proof.
  rewrite callback_polls. unfold bind at 1.
  assert (Tracks s (logged [EvRunsRetrieve threadId runId] (after [] 1 (interval s) [] s)))
    as T0.
  { exists [EvRunsRetrieve threadId runId], []. cbn. now rewrite !app_nil_r. }
  destruct (runs_retrieve w (polls s) threadId runId) as [snapshot|e].
  2: { rewrite call_err. left. split; [exact T0 | reflexivity]. }
  rewrite call_ok. cbv beta iota zeta.
  set (s1 := logged [EvRunsRetrieve threadId runId] (after [] 1 (interval s) [] s)) in *.
  assert (Tracks s (armed false (logged [EvClearInterval] s1))) as T1.
  { refine (tracks_trans T0 (tracks_trans (tracks_logged _ _ _) (tracks_armed _ _))).
    reflexivity. }
  destruct (String.eqb (run_status snapshot) "completed").
  { unfold bind, clearInterval, ret. exact T1. }
  destruct (String.eqb (run_status snapshot) "requires_action").
  - destruct (run_required_action snapshot) as [tool_calls|]; [|exact T0].
    unfold bind at 1. unfold clearInterval.
    set (s2 := armed false (logged [EvClearInterval] s1)) in *.
    assert (interval s2 = false) as I2 by reflexivity.
    unfold bind at 1.
    pose proof (tracking_parseActions w tool_calls [] s2) as P.
    destruct (parseActions w tool_calls [] s2) as [[actions|e| |] s3];
      try exact I; [|right; congruence].
    destruct P as [T3 I3]. unfold bind at 1.
    pose proof (tracking_callTools tools actions [] s3) as C.
    destruct (callTools tools actions [] s3) as [[outs|e| |] s4];
      try exact I; [|right; congruence].
    destruct C as [T4 I4].
    assert (Tracks s s4) as T by exact (tracks_trans T1 (tracks_trans T3 T4)).
    destruct outs as [|o outs]; [exact T|].
    unfold bind at 1.
    destruct (runs_submitToolOutputs w threadId runId (o :: outs)) as [u|e].
    + rewrite call_ok. cbn [ret]. refine (tracks_trans T (tracks_logged _ _ _)).
      reflexivity.
    + rewrite call_err. right. cbn [interval logged]. congruence.
  - destruct (String.eqb (run_status snapshot) "cancelled"
              || String.eqb (run_status snapshot) "expired"
              || String.eqb (run_status snapshot) "failed").
    + unfold bind, clearInterval, ret. exact T1.
    + exact T0.
Qed.

Lemma fire_tracked ticks : tracked (fire w ticks tools threadId runId).
Proof.
  induction ticks as [|ticks IH]; intro s.
  - exact I.
  - rewrite fire_unfold. unfold bind at 1. unfold tryCatch.
    pose proof (callback_tracks s) as C.
    destruct (callback w tools threadId runId s) as [[settled|e| |] s1]; auto.
    + destruct settled as [[state|e]|]; cbn [ret throw]; auto.
      unfold bind, getSt. destruct (interval s1); [|exact I].
      specialize (IH s1).
      destruct (fire w ticks tools threadId runId s1) as [[state|e| |] s2]; auto.
      exact (tracks_trans C IH).
    + unfold bind at 1. unfold emit, ret. unfold bind, getSt.
      cbn [interval logged].
      destruct (interval s1) eqn:I1; [|exact I].
      destruct C as [[T _] | F]; [|congruence].
      specialize (IH (logged [EvUnhandledRejection e] s1)).
      destruct (fire w ticks tools threadId runId (logged [EvUnhandledRejection e] s1))
        as [[state|e'| |] s2]; auto.
      refine (tracks_trans T (tracks_trans (tracks_logged _ _ _) IH)). reflexivity.
Qed.

Lemma promise_tracked ticks : tracked (promise w ticks tools threadId runId).
Proof.
  intro s. rewrite promise_unfold.
  pose proof (fire_tracked ticks (after [EvSetInterval] 0 true [] s)) as F.
  destruct (fire w ticks tools threadId runId (after [EvSetInterval] 0 true [] s))
    as [[state|e| |] s1]; auto.
  refine (tracks_trans _ F).
  exists [EvSetInterval], []. cbn. now rewrite !app_nil_r.
Qed.

Lemma whileRequiresAction_tracked rounds ticks state :
  tracked (whileRequiresAction w rounds ticks tools threadId runId state).
Proof.
  revert state. induction rounds as [|rounds IH]; intro state; cbn [whileRequiresAction].
  - destruct (String.eqb state "requires_action"); intro s; cbn; auto.
    apply tracks_refl.
  - destruct (String.eqb state "requires_action").
    + apply tracked_bind; [apply promise_tracked | exact IH].
    + intro s. cbn. apply tracks_refl.
Qed.

End TrackedPolling.

Lemma renderContent_tracked (w : World) content key returnVal :
  tracked (renderContent w content key returnVal).
Proof.
  revert returnVal. induction content as [|part rest IH]; intro returnVal;
    cbn [renderContent].
  - intro s. cbn. apply tracks_refl.
  - destruct part as [text|fileId|other]; [apply IH| |intro s; exact I].
    apply tracked_bind.
    { apply tracking_tracked. now apply tracking_call. }
    intro fileObj. apply tracked_bind.
    2: { intros _. apply tracked_bind; [|intro; apply IH].
         unfold readFileSync. apply tracked_bind.
         - apply tracking_tracked. now apply tracking_emit.
         - intros _. intro s. unfold bind, getSt.
           destruct (lookupFile _ (files s)); cbn; auto. apply tracks_refl. }
    intro s.
    assert (appends (fun ev => negb (isToolCall ev))
              (downloadFile w fileObj
                 (path_join w [getUserHome w; ".flowise"; "openai-assistant";
                               (file_filename fileObj ++ ".png")%string])
                 (path_join w [getUserHome w; ".flowise"; "openai-assistant"]) key)) as D
      by (unfold downloadFile; cbv zeta; frame).
    specialize (D s). destruct D as [evs [E F]].
    match goal with
    | |- match ?d with _ => _ end =>
        assert (usedTools (snd d) = usedTools s) as U; [|destruct d as [[u|e| |] s1]; auto]
    end.
    { unfold downloadFile. cbv zeta. unfold tryCatch, bind, call, bind, emit, await.
      destruct (fetch w _ key) as [response|e]; [|reflexivity].
      cbn [ret]. destruct (resp_ok response); cbn [negb ret throw]; [|reflexivity].
      unfold existsSync, logged. cbn [dirs].
      destruct (negb (existsDir _ (dirs s))); cbn [ret];
        unfold mkdirSync, storeFile, ret;
        destruct (pipe w _ (resp_body response)) as [flushed|e left_in_file|];
        try destruct flushed; try destruct left_in_file; reflexivity. }
    cbn [snd] in *. exists evs, []. repeat split; [exact E | now rewrite U, app_nil_r |].
    cbn [map]. clear E U. induction evs as [|ev evs IHe]; [reflexivity|].
    cbn [forallb] in F. apply andb_prop in F. destruct F as [Fe F].
    cbn [filter]. apply negb_true_iff in Fe. rewrite Fe. now apply IHe.
Qed.

Lemma filter_notToolCall (evs : list Event) :
  forallb notToolCall evs = true -> filter isToolCall evs = [].
Proof.
  intro F. apply (filter_none notToolCall); [exact F|].
  intros ev H. now apply negb_true_iff in H.
Qed.

Lemma resultTracked_bind {A : Type} (m : M A) (k : A -> M RunResult) :
  appends notToolCall m -> (forall a, resultTracked (k a)) -> resultTracked (bind m k).
Proof.
  intros Hm Hk s. unfold bind. destruct (Hm s) as [evs1 [E1 F1]].
  destruct (m s) as [[a|e| |] s1]; auto. cbn [snd] in E1.
  specialize (Hk a s1). destruct (k a s1) as [[[text|o]|e| |] s2]; auto.
  destruct Hk as [evs2 [E2 F2]]. exists (evs1 ++ evs2). split.
  - now rewrite E2, E1, app_assoc.
  - now rewrite filter_app, (filter_notToolCall _ F1), F2.
Qed.

Lemma resultTracked_throw (e : JsError) : resultTracked (throw e).
Proof. intro s. exact I. Qed.

Lemma resultTracked_tryCatch (m : M RunResult) :
  resultTracked m -> resultTracked (tryCatch m rethrow).
Proof.
  intros Hm s. unfold tryCatch. specialize (Hm s).
  destruct (m s) as [[[text|o]|e| |] s1]; auto.
Qed.

Lemma pollAndAssemble_resultTracked (w : World) fuel tools key id threadId runThread :
  resultTracked (pollAndAssemble w fuel tools key id threadId runThread).
Proof.
  intro s. unfold pollAndAssemble. unfold bind at 1. unfold newUsedTools.
  set (s0 := mkSt (trace s) (files s) (dirs s) (polls s) (interval s) []).
  unfold bind at 1.
  pose proof (promise_tracked w tools threadId (run_id runThread) fuel s0) as P.
  destruct (promise w fuel tools threadId (run_id runThread) s0) as [[state|e| |] s1]; auto.
  unfold bind at 1.
  pose proof (whileRequiresAction_tracked w tools threadId (run_id runThread)
                fuel fuel state s1) as W.
  destruct (whileRequiresAction w fuel fuel tools threadId (run_id runThread) state s1)
    as [[state'|e| |] s2]; auto.
  unfold assemble. unfold bind at 1.
  destruct (messages_list w threadId) as [page|e]; [|rewrite call_err; exact I].
  rewrite call_ok. cbv beta iota zeta.
  destruct (filter (fun msg => String.eqb (msg_role msg) "assistant")
                   match page_data page with Some d => d | None => [] end)
    as [|first others]; [exact I|].
  unfold bind at 1.
  pose proof (renderContent_tracked w (msg_content first) key ""
                (logged [EvMessagesList threadId] s2)) as R.
  destruct (renderContent w (msg_content first) key ""
              (logged [EvMessagesList threadId] s2)) as [[text|e| |] s4]; auto.
  unfold bind, getSt, ret.
  assert (Tracks s0 s4) as T.
  { refine (tracks_trans P (tracks_trans W (tracks_trans (tracks_logged _ _ _) R))).
    reflexivity. }
  destruct T as [evs [recs [E [U F]]]]. cbn [trace usedTools s0 app] in E, U.
  exists evs. cbn [res_usedTools]. split; [exact E | now rewrite U].
Qed.

Lemma run_resultTracked (w : World) fuel nodeData input options :
  resultTracked (run w fuel nodeData input options).
Proof.
  unfold run. cbv zeta.
  apply resultTracked_bind; [apply appends_call; reflexivity|].
  intros [assistant|]; [|apply resultTracked_throw].
  apply resultTracked_bind; [apply appends_call; reflexivity|]. intro credentialData.
  destruct (negb (truthyStr (getCredentialParam w "openAIApiKey" credentialData nodeData)));
    [apply resultTracked_throw|].
  apply resultTracked_tryCatch. unfold runBody.
  do 8 (apply resultTracked_bind; [frame|]; intro).
  apply pollAndAssemble_resultTracked.
Qed.

(** X16.  The [usedTools] of a returned result list every call of a
    local tool made during the invocation, and nothing else: the tool
    calls in the log of the invocation are, in order and over all rounds
    of [requires_action], exactly the calls the records stand for.
    Records of an earlier invocation do not leak in. *)
Theorem X16_usedTools_list_every_tool_call :
  forall (w : World) (fuel : nat) (nodeData : NodeData) (input : string)
         (options : Options) (s : St) (o : ResultObject),
    fst (run w fuel nodeData input options s) = Returned (ResObject o) ->
    exists evs,
      trace (snd (run w fuel nodeData input options s)) = trace s ++ evs /\
      filter isToolCall evs = map callOf (res_usedTools o).
Proof.
  intros w fuel nodeData input options s o H.
  pose proof (run_resultTracked w fuel nodeData input options s) as R.
  destruct (run w fuel nodeData input options s) as [[[text|o']|e| |] s'];
    cbn [fst] in H; try discriminate.
  injection H as ->. exact R.
Qed.

Lemma X16_witness :
  exists evs,
    trace (snd (run askingTwice 3 calculatorAndSearch "hi" Sample.options
                    (mkSt [EvToolCall "earlier" VNull] [] [] 0 false
                          [mkUsedTool "earlier" VNull "kept elsewhere"])))
      = [EvToolCall "earlier" VNull] ++ evs /\
    filter isToolCall evs
      = map callOf [mkUsedTool "calculator" (VObj []) "42";
                    mkUsedTool "search" (VObj []) "found"].
Proof.
  apply (@X16_usedTools_list_every_tool_call askingTwice 3 calculatorAndSearch "hi"
           Sample.options
           (mkSt [EvToolCall "earlier" VNull] [] [] 0 false
                 [mkUsedTool "earlier" VNull "kept elsewhere"])
           (mkResultObject "Hello"
              [mkUsedTool "calculator" (VObj []) "42";
               mkUsedTool "search" (VObj []) "found"]
              (mkAssistantEcho (VStr "asst_1") "thread_new" "run_1"
                 [mkMessage "assistant" [TextPart "Hello"];
                  mkMessage "user" [TextPart "hi"]]))).
  reflexivity.
Defined.

(* ------------------------------------------------------------------ *)
(** *** A stored session whose thread is gone *)

(** X17.  When the store has a chat message for the chat id and the
    remote API rejects the retrieval of its thread (the thread was
    deleted remotely), [run] fails with that rejection wrapped in an
    [Error]: it does not fall back on a new thread, posts no message and
    creates no run. *)
Theorem X17_stale_session_is_fatal :
  forall (w : World) (fuel : nat) (nodeData : NodeData) (input : string)
         (options : Options) (su : Setup) (s : St) (chatmessage : ChatMessage)
         (e : JsError),
    Resolves w nodeData su ->
    (formattedToolsOf nodeData = [] \/
     assistants_update w (prop (su_details su) "id")
       (filteredTools (ra_tools (su_remote su)) (formattedToolsOf nodeData)) = Ok tt) ->
    findChatMessage w (chatId options) = Ok (Some chatmessage) ->
    threads_retrieve w (cm_sessionId chatmessage) = Err e ->
    run w fuel nodeData input options s
    = (Threw (newError (errorToString e)),
       logged (resolveTrace nodeData su ++ updateTrace nodeData su
                 ++ [EvFindChatMessage (chatId options);
                     EvThreadsRetrieve (cm_sessionId chatmessage)]) s).
Proof.
  intros w fuel nodeData input options su s chatmessage e
         [Ha [[cred [Hc Hk]] [Hne [Hp Hr]]]] Hu Hm Ht.
  unfold run. cbv zeta.
  run_call Ha. run_call Hc. rewrite Hk, (truthyStr_key _ Hne).
  unfold tryCatch, runBody. fold (formattedToolsOf nodeData).
  unfold bind at 1. rewrite Hp. cbn [await ret].
  unfold bind at 1. cbn [getMember ret].
  run_call Hr.
  unfold updateTrace, resolveTrace.
  destruct (formattedToolsOf nodeData) as [|f fs] eqn:Ef.
  - unfold bind at 1. cbn [ret].
    run_call Hm. unfold bind at 1. rewrite Ht, call_err.
    unfold rethrow, throw. rewrite !logged_logged. reflexivity.
  - destruct Hu as [Hu | Hu]; [discriminate|].
    run_call Hu. run_call Hm. unfold bind at 1. rewrite Ht, call_err.
    unfold rethrow, throw. rewrite !logged_logged. reflexivity.
Qed.

Lemma X17_witness :
  run staleSession 3 (Sample.nodeDataWith None) "hi" Sample.options (initialSt [] [])
  = (Threw (newError "NotFoundError: No thread found with id 'thread_gone'"),
     logged [EvFindAssistant (Some "a-1"); EvGetCredentialData "cred-1";
             EvAssistantsRetrieve (VStr "asst_1");
             EvFindChatMessage (Some "chat-1"); EvThreadsRetrieve "thread_gone"]
       (initialSt [] [])).
Proof.
  apply (@X17_stale_session_is_fatal staleSession 3 (Sample.nodeDataWith None) "hi"
           Sample.options (sampleSetup [] None) (initialSt [] [])
           (mkChatMessage "thread_gone")
           (mkJsError "NotFoundError" "No thread found with id 'thread_gone'")).
  - unfold Resolves. repeat split; try reflexivity.
    exists (VObj [("openAIApiKey", VStr "sk-1")]). split; reflexivity.
  - left. reflexivity.
  - reflexivity.
  - reflexivity.
Defined.
